(** * RABIES diagnosis interfaces and volume splitting: a shallow embedding

    The development follows two source files of the repository:
    - [rabies/analysis_pkg/diagnosis_pkg/interfaces.py]
      ([PrepMasks], [ScanDiagnosis], [DatasetDiagnosis]);
    - [rabies/preprocess_bold_pkg/utils.py] ([prep_bids_iter],
      [BIDSDataGraber], [slice_applyTransforms], [split_volumes], [Merge],
      [resample_image]).

    Python exceptions are an error type, dictionaries keyed by strings are
    [gmap string _], files written by a call are collected in an explicit
    store, and calls into libraries outside the two files (SimpleITK,
    nibabel, pybids, pandas, [os.path], the floating-point arithmetic of
    numpy, the Unicode database) are either parameters or are recorded as
    the artifact they leave behind. *)

From Stdlib Require Import ZArith Lia List Ascii String.
From Stdlib Require Import SpecFloat DecimalString Permutation.
From stdpp Require Import base option list gmap strings.

Set Warnings "-register-all".

Local Open Scope string_scope.
Local Open Scope list_scope.

(** ** Python results *)

Module Py.

(** The exception classes that the modelled code can raise.  [UserError]
    stands for a class declared outside the builtins, named by its class
    name. *)
Inductive exn : Type :=
| ValueError (msg : string)
| TypeError
| OverflowError
| KeyError (key : string)
| IndexError
| AttributeError
| RuntimeError
| UnboundLocalError
| FileExistsError
| UserError (cls : string).

Definition exn_class (e : exn) : string :=
  match e with
  | ValueError _ => "ValueError"
  | TypeError => "TypeError"
  | OverflowError => "OverflowError"
  | KeyError _ => "KeyError"
  | IndexError => "IndexError"
  | AttributeError => "AttributeError"
  | RuntimeError => "RuntimeError"
  | UnboundLocalError => "UnboundLocalError"
  | FileExistsError => "FileExistsError"
  | UserError cls => cls
  end.

Inductive result (A : Type) : Type :=
| Ok (a : A)
| Raise (e : exn).

Arguments Ok {A} a.
Arguments Raise {A} e.

Definition bind {A B} (r : result A) (k : A -> result B) : result B :=
  match r with
  | Ok a => k a
  | Raise e => Raise e
  end.

Definition is_ok {A} (r : result A) : bool :=
  match r with Ok _ => true | Raise _ => false end.

(** [d[key]] on a dictionary. *)
Definition getitem {V} (d : gmap string V) (key : string) : result V :=
  match d !! key with
  | Some v => Ok v
  | None => Raise (KeyError key)
  end.

(** [l[i]] on a list or tuple, for a non-negative index. *)
Definition index {A} (l : list A) (i : nat) : result A :=
  match nth_error l i with
  | Some a => Ok a
  | None => Raise IndexError
  end.

(** [for x in xs] with a body that can raise: the first exception stops the
    loop. *)
Fixpoint traverse {A B} (f : A -> result B) (xs : list A) : result (list B) :=
  match xs with
  | [] => Ok []
  | x :: xs' =>
      bind (f x) (fun y => bind (traverse f xs') (fun ys => Ok (y :: ys)))
  end.

(** A call that can raise and that reads and writes a store [S] (files
    written, calls made): the store a raise leaves behind is kept. *)
Definition M (S A : Type) : Type := S -> result A * S.

Definition ret {S A} (a : A) : M S A := fun s => (Ok a, s).

Definition raise {S A} (e : exn) : M S A := fun s => (Raise e, s).

Definition lift {S A} (r : result A) : M S A := fun s => (r, s).

Definition bindM {S A B} (c : M S A) (k : A -> M S B) : M S B :=
  fun s =>
    match c s with
    | (Ok a, s') => k a s'
    | (Raise e, s') => (Raise e, s')
    end.

(** [for x in xs] over a body with effects. *)
Fixpoint for_each {S A} (body : A -> M S unit) (xs : list A) : M S unit :=
  match xs with
  | [] => ret tt
  | x :: xs' => bindM (body x) (fun _ => for_each body xs')
  end.

(** Nested Python lists with items of type [A] at the leaves. *)
Inductive nested (A : Type) : Type :=
| Item (a : A)
| Nested (l : list (nested A)).

Arguments Item {A} a.
Arguments Nested {A} l.

(** Modelled from the spec: [rabies.utils.flatten_list] is imported by the
    interfaces but is not among the source files; the spec speaks of the
    flattened list of per-scan records, so a nested list is flattened
    depth first, left to right, and an item that is not a list is kept. *)
Fixpoint flatten_item {A} (x : nested A) : list A :=
  match x with
  | Item a => [a]
  | Nested l => concat (map flatten_item l)
  end.

Definition flatten_list {A} (l : list (nested A)) : list A :=
  concat (map flatten_item l).

(** [str(x)] for a non-negative integer. *)
Definition str_nat (x : nat) : string := NilZero.string_of_uint (Nat.to_uint x).

End Py.

Import Py.

#[global] Instance result_ret : MRet result := @Ok.
#[global] Instance result_bind : MBind result := fun A B k r => Py.bind r k.

Notation "'let*' x ':=' c 'in' k" := (Py.bindM c (fun x => k))
  (at level 10, x pattern, c at level 200, k at level 200).

(** ** [split_volumes] (preprocess_bold_pkg/utils.py) *)

Module SplitVolumes.

(** What a call leaves behind besides its value: the lines printed and the
    volume files written, in order. *)
Record effects : Type := MkEffects {
  printed : list string;
  written : list string
}.

Section Split.

(** [os.path.abspath], which depends on the working directory. *)
Variable abspath : string -> string.

Definition slice_fname (output_prefix : string) (x : nat) : string :=
  abspath (output_prefix +:+ "vol" +:+ str_nat x +:+ ".nii.gz").

(** The [for x in range(0, num_volumes)] loop: one file per index, and the
    list of their names. *)
Definition volumes_loop (output_prefix : string) (num_volumes : nat)
  : list string :=
  map (slice_fname output_prefix) (seq 0 num_volumes).

(** [split_volumes(in_file, output_prefix)], on the shape of the loaded
    image.  The value is [None] or the two-element list
    [[volumes, num_volumes]]. *)
Definition split_volumes (shape : list nat) (output_prefix : string)
  : result (option (list string * nat)) * effects :=
  let num_dimensions := length shape in
  match index shape 3 with
  | Raise e => (Raise e, MkEffects [] [])
  | Ok num_volumes =>
      if negb (num_dimensions =? 4)%nat then
        (Ok None, MkEffects ["the input file must be of dimensions 4"] [])
      else
        let volumes := volumes_loop output_prefix num_volumes in
        (Ok (Some (volumes, num_volumes)), MkEffects [] volumes)
  end.

End Split.

End SplitVolumes.

(** ** [PrepMasks] (diagnosis_pkg/interfaces.py) *)

Module PrepMasks.

(** The calls that leave the interface, in the order they are made. *)
Inductive call : Type :=
| ReadImage (path : string)
| ResampleImageSpacing (template_path ref_path : string)
| WriteImage (path : string)
| ResampleMask (in_file ref_file : string)
| ResampleICFile (in_file ref_file : string)
| ComputeEdgeMask (brain_mask_file out_file : string) (num_edge_voxels : nat).

(** What the interface runs in: the process environment, the working
    directory behind [os.path.abspath], SimpleITK's image reader, and the
    helpers of [rabies.utils], [diagnosis_functions] and
    [analysis_functions], none of which is in the two source files. *)
Record world : Type := MkWorld {
  environ : gmap string string;
  abspath : string -> string;
  sitk_ReadImage : string -> result unit;
  resample_image_spacing : string -> string -> result unit;
  resample_mask : string -> string -> result string;
  resample_IC_file : string -> string -> result string;
  compute_edge_mask : string -> string -> nat -> result unit
}.

(** An outside call: it is logged, then its outcome is returned. *)
Definition outside {A} (c : call) (r : result A) : M (list call) A :=
  fun log => (r, log ++ [c]).

Definition right_hem_atlas (rabies_path : string) : string :=
  rabies_path +:+ "/DSURQE_40micron_right_hem_mask.nii.gz".

Definition left_hem_atlas (rabies_path : string) : string :=
  rabies_path +:+ "/DSURQE_40micron_left_hem_mask.nii.gz".

(** The directory of the atlas files, from [XDG_DATA_HOME] or [HOME]. *)
Definition rabies_path_of (env : gmap string string) : result string :=
  match env !! "XDG_DATA_HOME" with
  | Some xdg => Ok (xdg +:+ "/rabies")
  | None => home ← getitem env "HOME"; Ok (home +:+ "/.local/share/rabies")
  end.

(** The [if self.inputs.DSURQE_regions] block: the pair
    (right_hem_mask_file, left_hem_mask_file). *)
Definition hemisphere_masks (w : world) (DSURQE_regions : bool)
    (brain_mask_file : string) : M (list call) (string * string) :=
  if DSURQE_regions then
    let* rabies_path := lift (rabies_path_of (environ w)) in
    let* right_hem_mask_file :=
      outside (ResampleMask (right_hem_atlas rabies_path) brain_mask_file)
        (resample_mask w (right_hem_atlas rabies_path) brain_mask_file) in
    let* left_hem_mask_file :=
      outside (ResampleMask (left_hem_atlas rabies_path) brain_mask_file)
        (resample_mask w (left_hem_atlas rabies_path) brain_mask_file) in
    ret (right_hem_mask_file, left_hem_mask_file)
  else ret ("", "").

(** [PrepMasks._run_interface]; the value is [mask_file_dict]. *)
Definition run_interface (w : world)
    (mask_dict_list : list (nested (gmap string string)))
    (prior_maps : string) (DSURQE_regions : bool)
  : M (list call) (gmap string string) :=
  let merged := flatten_list mask_dict_list in
  let* mask_dict := lift (index merged 0) in
  let* brain_mask_file := lift (getitem mask_dict "mask_file") in
  let* WM_mask_file := lift (getitem mask_dict "WM_mask_file") in
  let* CSF_mask_file := lift (getitem mask_dict "CSF_mask_file") in
  let* anat := lift (getitem mask_dict "preprocess_anat_template") in
  let* _ := outside (ReadImage anat) (sitk_ReadImage w anat) in
  let* _ := outside (ReadImage brain_mask_file)
              (sitk_ReadImage w brain_mask_file) in
  let* _ := outside (ResampleImageSpacing anat brain_mask_file)
              (resample_image_spacing w anat brain_mask_file) in
  let template_file := abspath w "display_template.nii.gz" in
  let* _ := outside (WriteImage template_file) (Ok tt) in
  let* hem := hemisphere_masks w DSURQE_regions brain_mask_file in
  let* prior_maps' :=
    outside (ResampleICFile prior_maps brain_mask_file)
      (resample_IC_file w prior_maps brain_mask_file) in
  let edge_mask_file := abspath w "edge_mask.nii.gz" in
  let* _ := outside (ComputeEdgeMask brain_mask_file edge_mask_file 1)
              (compute_edge_mask w brain_mask_file edge_mask_file 1) in
  ret (<["template_file" := template_file]>
       (<["brain_mask" := brain_mask_file]>
       (<["WM_mask" := WM_mask_file]>
       (<["CSF_mask" := CSF_mask_file]>
       (<["edge_mask" := edge_mask_file]>
       (<["right_hem_mask" := fst hem]>
       (<["left_hem_mask" := snd hem]>
       (<["prior_maps" := prior_maps']> (∅ : gmap string string))))))))).


End PrepMasks.

(** ** [ScanDiagnosis] (diagnosis_pkg/interfaces.py) *)

Module ScanDiagnosis.

(** The Python values an element of the untyped [traits.List] inputs
    [prior_bold_idx] and [prior_confound_idx] can be.  A [str] is held as
    its UTF-8 bytes and a [bytes] object as its bytes; [PyObject] stands
    for a value that is neither a number, a string nor a bytes object and
    has no [__int__], [__index__] or [__trunc__] (a list, a
    dictionary). *)
Inductive pyval : Type :=
| PyInt (z : Z)
| PyBool (b : bool)
| PyFloat (f : spec_float)
| PyStr (s : string)
| PyBytes (s : string)
| PyNone
| PyObject.

(** What [int] and [repr] take from the interpreter they run in.  From
    its Unicode database, for a [str] that is not ASCII: the copy of the
    string in which every Unicode white space is a blank and every Unicode
    decimal digit its ASCII digit, cut with a question mark at the first
    other character that is not ASCII; and the first 200 characters of the
    [repr] of the string.  And the limit on the digits [int] reads from a
    string: [sys.get_int_max_str_digits()], which is 4300 unless it was
    changed and 0 when there is no limit (before Python 3.11 there is
    none), and whether the limit is tested before the characters after
    the digits are looked at (Python 3.11) or after (from 3.12 on). *)
Record interpreter : Type := MkInterpreter {
  decimal_and_space_to_ascii : string -> string;
  repr_200 : string -> string;
  int_max_str_digits : nat;
  limit_tested_first : bool
}.

Definition is_ascii (s : string) : bool :=
  forallb (fun c => (nat_of_ascii c <? 128)%nat) (list_ascii_of_string s).

(** [Py_ISSPACE]: the white space that [int] skips around the literal. *)
Definition is_space (c : ascii) : bool :=
  let n := nat_of_ascii c in
  ((9 <=? n) && (n <=? 13) || (n =? 32))%nat.

Definition digit_value (c : ascii) : option Z :=
  let n := nat_of_ascii c in
  if ((48 <=? n) && (n <=? 57))%nat then Some (Z.of_nat (n - 48)) else None.

Fixpoint lstrip (s : list ascii) : list ascii :=
  match s with
  | c :: s' => if is_space c then lstrip s' else s
  | [] => []
  end.

(** The run of digits at the head of a buffer, where one underscore may
    stand between two digits: its value, the number of its digits and
    what follows it.  Two underscores in a row, and an underscore at the
    end of the run, are refused. *)
Fixpoint scan_digits (acc : Z) (count : nat) (after_underscore : bool)
    (s : list ascii) : option (Z * nat * list ascii) :=
  match s with
  | [] => if after_underscore then None else Some (acc, count, [])
  | c :: s' =>
      if Ascii.eqb c "_"%char then
        if after_underscore then None else scan_digits acc count true s'
      else
        match digit_value c with
        | Some d => scan_digits (10 * acc + d) (S count) false s'
        | None => if after_underscore then None else Some (acc, count, s)
        end
  end.

(** What [int] makes of a buffer: an integer, a syntax error, or a run of
    more digits than the interpreter reads. *)
Inductive literal : Type :=
| Value (z : Z)
| Invalid
| TooLong (digits : nat).

Definition starts_with (c : ascii) (s : list ascii) : bool :=
  match s with
  | c' :: _ => Ascii.eqb c' c
  | [] => false
  end.

(** [PyLong_FromString] in base ten on a buffer that has to be read to
    its end: white space, an optional sign, the digits, white space.  A
    run of more than 640 digits is measured against the limit of the
    interpreter. *)
Definition long_from_string (py : interpreter) (buffer : string) : literal :=
  let s := lstrip (list_ascii_of_string buffer) in
  let negative := starts_with "-" s in
  let body := if negative || starts_with "+" s then tl s else s in
  if starts_with "_" body then Invalid
  else
    match scan_digits 0 0 false body with
    | None => Invalid
    | Some (z, count, rest) =>
        let over_limit :=
          (640 <? count)%nat && (0 <? int_max_str_digits py)%nat
          && (int_max_str_digits py <? count)%nat in
        if over_limit && limit_tested_first py then TooLong count
        else if (count =? 0)%nat then Invalid
        else
          match lstrip rest with
          | [] => if over_limit then TooLong count
                  else Value (if negative then (- z)%Z else z)
          | _ => Invalid
          end
    end.

(** The integer that [int(s)] reads from a [str]: an ASCII string is
    read as it is, another one after its white space and decimal digits
    have been made ASCII. *)
Definition parse_int (py : interpreter) (s : string) : literal :=
  long_from_string py
    (if is_ascii s then s else decimal_and_space_to_ascii py s).

(** *** [repr] of an ASCII string *)

Definition backslash : ascii := ascii_of_nat 92.
Definition single_quote : ascii := ascii_of_nat 39.
Definition double_quote : ascii := ascii_of_nat 34.

Definition hex_digit (n : nat) : ascii :=
  nth n (list_ascii_of_string "0123456789abcdef") "0"%char.

Definition escape (quote c : ascii) : list ascii :=
  let n := nat_of_ascii c in
  if Ascii.eqb c quote || Ascii.eqb c backslash then [backslash; c]
  else if (n =? 9)%nat then [backslash; "t"%char]
  else if (n =? 10)%nat then [backslash; "n"%char]
  else if (n =? 13)%nat then [backslash; "r"%char]
  else if (n <? 32)%nat || (126 <? n)%nat
  then [backslash; "x"%char; hex_digit (n / 16); hex_digit (n mod 16)]
  else [c].

Definition has (c : ascii) (s : list ascii) : bool := existsb (Ascii.eqb c) s.

(** The quote around the [repr]: a double quote when the string holds a
    single quote and no double quote, a single quote otherwise. *)
Definition quote_of (s : list ascii) : ascii :=
  if has single_quote s && negb (has double_quote s) then double_quote
  else single_quote.

(** [repr] of the bytes of an ASCII [str], and of a [bytes] object
    without its leading [b]. *)
Definition repr_bytes (s : string) : list ascii :=
  let chars := list_ascii_of_string s in
  let quote := quote_of chars in
  quote :: concat (map (escape quote) chars) ++ [quote].

(** The literal as [%.200R] shows it in the message of [int]. *)
Definition shown (py : interpreter) (i : pyval) : string :=
  match i with
  | PyStr s =>
      if is_ascii s then string_of_list_ascii (firstn 200 (repr_bytes s))
      else repr_200 py s
  | PyBytes s =>
      string_of_list_ascii (firstn 200 ("b"%char :: repr_bytes s))
  | _ => EmptyString
  end.

Definition invalid_literal (py : interpreter) (i : pyval) : exn :=
  ValueError ("invalid literal for int() with base 10: " +:+ shown py i).

Definition too_many_digits (py : interpreter) (digits : nat) : exn :=
  ValueError ("Exceeds the limit (" +:+ str_nat (int_max_str_digits py)
              +:+ " digits) for integer string conversion: value has "
              +:+ str_nat digits
              +:+ " digits; use sys.set_int_max_str_digits() to increase the limit").

(** What [int] raises or returns for a string or a bytes object. *)
Definition of_literal (py : interpreter) (i : pyval) (l : literal) : result Z :=
  match l with
  | Value z => Ok z
  | Invalid => Raise (invalid_literal py i)
  | TooLong digits => Raise (too_many_digits py digits)
  end.

(** Truncation of a float towards zero, as [int(x)] does. *)
Definition trunc_float (f : spec_float) : result Z :=
  match f with
  | S754_zero _ => Ok 0%Z
  | S754_infinity _ => Raise OverflowError
  | S754_nan => Raise (ValueError "cannot convert float NaN to integer")
  | S754_finite sign m e =>
      let magnitude := Z.shiftl (Z.pos m) e in
      Ok (if sign then (- magnitude)%Z else magnitude)
  end.

(** The builtin [int(i)]. *)
Definition py_int (py : interpreter) (i : pyval) : result Z :=
  match i with
  | PyInt z => Ok z
  | PyBool b => Ok (if b then 1%Z else 0%Z)
  | PyFloat f => trunc_float f
  | PyStr s => of_literal py i (parse_int py s)
  | PyBytes s => of_literal py i (long_from_string py s)
  | PyNone => Raise TypeError
  | PyObject => Raise TypeError
  end.

Section Run.

Variable py : interpreter.

(** The values held by [file_dict], and the value and figures the rest of
    the interface makes from them. *)
Variables (obj out : Type).

(** [diagnosis_functions.process_data] followed by
    [diagnosis_functions.scan_diagnosis] and the saving of the figures,
    on the seven entries of [file_dict] and the two integer lists. *)
Variable process_and_plot : list obj -> list Z -> list Z -> result out.

Definition file_dict_keys : list string :=
  ["bold_file"; "CR_data_dict"; "VE_file"; "STD_file"; "CR_STD_file";
   "random_CR_STD_file"; "corrected_CR_STD_file"].

(** [ScanDiagnosis._run_interface]. *)
Definition run_interface (file_dict : gmap string obj)
    (prior_bold_idx prior_confound_idx : list pyval) : result out :=
  files ← traverse (getitem file_dict) file_dict_keys;
  prior_bold_idx' ← traverse (py_int py) prior_bold_idx;
  prior_confound_idx' ← traverse (py_int py) prior_confound_idx;
  process_and_plot files prior_bold_idx' prior_confound_idx'.

End Run.

End ScanDiagnosis.

(** ** [DatasetDiagnosis] (diagnosis_pkg/interfaces.py) *)

Module DatasetDiagnosis.

(** Voxel values are IEEE floats; [x == 0] holds for both signed zeros and
    for nothing else (not for NaN). *)
Definition is_zero (x : spec_float) : bool := SFeqb x (S754_zero false).

(** One entry of [scan_data_list]: the dictionary a scan diagnosis hands
    over, with the values it puts under the nine keys the interface reads;
    a key the dictionary lacks is [None].  Every map is flattened over the
    brain-mask voxels: a map is a row of voxel values and a set of maps is
    a list of rows. *)
Record scan_data : Type := MkScan {
  temporal_std : option (list spec_float);
  predicted_std : option (list spec_float);
  corrected_CR_std : option (list spec_float);
  random_CR_std : option (list spec_float);
  DR_BOLD : option (list (list spec_float));
  NPR_maps : option (list (list spec_float));
  tDOF : option ScanDiagnosis.pyval;
  seed_list : option (list (list spec_float));
  prior_maps : option (list (list spec_float))
}.

(** *** The scan loop of lines 209 to 217 *)

(** [scan_data[key]]. *)
Definition entry {A} (key : string) (value : option A) : result A :=
  match value with
  | Some a => Ok a
  | None => Raise (KeyError key)
  end.

(** What one pass of the loop appends to the eight lists. *)
Record scan_row : Type := MkRow {
  row_std : list spec_float;
  row_CR_std : list spec_float;
  row_corrected_CR_std : list spec_float;
  row_random_CR_std : list spec_float;
  row_DR : list (list spec_float);
  row_NPR : list (list spec_float);
  row_tdof : ScanDiagnosis.pyval;
  row_seed : list (list spec_float)
}.

(** The body of the loop: the eight keys are read in this order. *)
Definition read_scan (scan : scan_data) : result scan_row :=
  std ← entry "temporal_std" (temporal_std scan);
  CR_std ← entry "predicted_std" (predicted_std scan);
  corrected ← entry "corrected_CR_std" (corrected_CR_std scan);
  random ← entry "random_CR_std" (random_CR_std scan);
  DR ← entry "DR_BOLD" (DR_BOLD scan);
  NPR ← entry "NPR_maps" (NPR_maps scan);
  tdof ← entry "tDOF" (tDOF scan);
  seed ← entry "seed_list" (seed_list scan);
  Ok (MkRow std CR_std corrected random DR NPR tdof seed).

(** *** The voxel selection of line 220 *)

(** The two things [std_maps] can be bound to: the Python list filled by
    the scan loop, or the two-dimensional array [np.array] makes of it. *)
Inductive operand : Type :=
| PyList (items : list (list spec_float))
| NdArray (rows : list (list spec_float)).

(** What [std_maps == 0] evaluates to: a list never equals an integer, so
    the comparison is the plain [False]; an array is compared element by
    element. *)
Inductive comparison : Type :=
| PyFalse
| BoolArray (rows : list (list bool)).

Definition eq_zero (std_maps : operand) : comparison :=
  match std_maps with
  | PyList _ => PyFalse
  | NdArray rows => BoolArray (map (map is_zero) rows)
  end.

Definition Z_of_bool (b : bool) : Z := if b then 1%Z else 0%Z.

(** Sum of a stack of rows over the scan axis. *)
Definition column_sums (rows : list (list bool)) : list Z :=
  match rows with
  | [] => []
  | r :: rs =>
      fold_left (fun acc row => zip_with Z.add acc (map Z_of_bool row))
        rs (map Z_of_bool r)
  end.

(** [.sum(axis=0)]: a method of arrays, which [bool] does not have. *)
Definition sum_axis0 (c : comparison) : result (list Z) :=
  match c with
  | PyFalse => Raise AttributeError
  | BoolArray rows => Ok (column_sums rows)
  end.

Definition astype_bool (counts : list Z) : list bool :=
  map (fun n => negb (n =? 0)%Z) counts.

(** [((std_maps==0).sum(axis=0).astype(bool)==0)]. *)
Definition non_zero_voxels_of (std_maps : operand) : result (list bool) :=
  counts ← sum_axis0 (eq_zero std_maps);
  Ok (map negb (astype_bool counts)).

(** *** What the interface runs in *)

(** The working directory behind [os.path.abspath]; SimpleITK reading the
    brain mask; SimpleITK reading one seed prior, resampling it onto the
    brain mask and restricting it to the brain voxels; and two things of
    numpy that are taken as they come: whether
    [np.array(tdof_list).std()==0] holds (floating-point arithmetic is not
    modelled), and the exception [np.array] raises when it is given arrays
    of different shapes (its class and message depend on the release of
    numpy; before release 1.24 such a list became an array of objects,
    and it was the indexing after it that raised). *)
Record env : Type := MkEnv {
  abspath : string -> string;
  read_mask : string -> result unit;
  read_seed_prior : string -> string -> result (list spec_float);
  np_std_is_zero : list ScanDiagnosis.pyval -> result bool;
  np_ragged : exn
}.

(** *** Stacking and indexing *)

Definition same_length {A} (rows : list (list A)) : bool :=
  match rows with
  | [] => true
  | row :: rows' => forallb (fun r => (length r =? length row)%nat) rows'
  end.

(** [np.array(rows)] for a list of rows: a matrix when the rows have one
    length. *)
Definition stack_rows {A} (e : env) (rows : list (list A))
  : result (list (list A)) :=
  if same_length rows then Ok rows else Raise (np_ragged e).

(** [np.array(maps_list)] for a list of matrices: an array of three
    dimensions when every scan has the same number of maps and all the
    maps have one length. *)
Definition stack_maps {A} (e : env) (maps_list : list (list (list A)))
  : result (list (list (list A))) :=
  if same_length maps_list && same_length (concat maps_list)
  then Ok maps_list else Raise (np_ragged e).

(** [row[mask]]: the mask has to be as long as the row. *)
Definition bool_index {A} (mask : list bool) (row : list A) : result (list A) :=
  if (length mask =? length row)%nat
  then Ok (snd <$> filter (fun p => fst p = true) (zip mask row))
  else Raise IndexError.

(** [matrix[:,mask]] on a matrix. *)
Definition select_columns {A} (mask : list bool) (matrix : list (list A))
  : result (list (list A)) :=
  traverse (bool_index mask) matrix.

(** [np.array(rows)[:,mask]]; the array of no row at all has one
    dimension, which the index refuses. *)
Definition select_voxels {A} (e : env) (mask : list bool)
    (rows : list (list A)) : result (list (list A)) :=
  matrix ← stack_rows e rows;
  match matrix with
  | [] => Raise IndexError
  | _ => select_columns mask matrix
  end.

(** [maps_list[:,i,mask]] on an array of three dimensions: map [i] of
    every scan. *)
Definition select_map {A} (maps_list : list (list (list A))) (i : nat)
    (mask : list bool) : result (list (list A)) :=
  traverse (fun maps => row ← index maps i; bool_index mask row) maps_list.

(** *** Outputs *)

(** A covariate handed to [analysis_QC]: a scan-by-voxel matrix, or the
    column of one value per scan. *)
Inductive covariate : Type :=
| VoxelMaps (rows : list (list spec_float))
| PerScan (column : list ScanDiagnosis.pyval).

(** The arguments of one [analysis_QC] call. *)
Record qc_call : Type := MkCall {
  FC_maps : list (list spec_float);
  prior_map : list spec_float;
  non_zero_mask : string;
  corr_variable : list covariate;
  variable_name : list string;
  template_file : string;
  fig_path : string
}.

(** What is found at a path after the run. *)
Inductive artifact : Type :=
| Directory
| MaskImage (mask_file : string) (voxels : list bool)
| QCFigure (c : qc_call)
| StatsTable (c : qc_call).

Definition write (path : string) (a : artifact) : M (gmap string artifact) unit :=
  fun files => (Ok tt, <[path := a]> files).

(** [os.makedirs(path, exist_ok=True)]. *)
Definition makedirs (path : string) : M (gmap string artifact) unit :=
  fun files =>
    match files !! path with
    | None => (Ok tt, <[path := Directory]> files)
    | Some Directory => (Ok tt, files)
    | Some _ => (Raise FileExistsError, files)
    end.

(** The three kinds of map the comparison is run on, with the prefix of
    their file names. *)
Inductive map_kind : Type := DR | NPR | SeedFC.

Definition kind_prefix (k : map_kind) : string :=
  match k with
  | DR => "DR"
  | NPR => "NPR"
  | SeedFC => "seed_FC"
  end.

Definition maps_png (out_dir : string) (k : map_kind) (i : nat) : string :=
  out_dir +:+ "/" +:+ kind_prefix k +:+ str_nat i +:+ "_QC_maps.png".

Definition stats_csv (out_dir : string) (k : map_kind) (i : nat) : string :=
  out_dir +:+ "/" +:+ kind_prefix k +:+ str_nat i +:+ "_QC_stats.csv".

(** What the interface works on once the scan loop is over. *)
Record stage : Type := MkStage {
  st_env : env;
  st_seed_prior_maps : list string;
  st_template_file : string;
  st_mask_file : string;
  st_merged : list scan_data;
  st_rows : list scan_row;
  st_non_zero_voxels : list bool;
  st_non_zero_mask : string
}.

(** The loop variable [scan_data] once [for scan_data in merged] is over:
    the last record, and unbound when there was none. *)
Definition loop_variable (merged : list scan_data) : result scan_data :=
  match last merged with
  | Some scan => Ok scan
  | None => Raise UnboundLocalError
  end.

(** Lines 234 to 238: tDOF joins the covariates when the test of line 235
    is passed. *)
Definition add_tdof (constant : bool) (tdof_list : list ScanDiagnosis.pyval)
    (corr_variable : list covariate) (variable_name : list string)
  : list covariate * list string :=
  if negb constant
  then (corr_variable ++ [PerScan tdof_list], variable_name ++ ["tDOF"])
  else (corr_variable, variable_name).

(** Modelled from the spec: [analysis_QC] is imported from the package but
    is not among the source files; section 4.3 has it persist one figure
    for the comparison it is called for.  The body of the three
    [for i in range(num_priors)] loops: the figure of [analysis_QC] at
    [fig_path], then the one-row table made of the statistics it
    returned. *)
Definition qc_one (st : stage) (corr_variable : list covariate)
    (variable_name : list string) (out_dir : string) (k : map_kind)
    (maps_list : list (list (list spec_float)))
    (priors : list (list spec_float)) (i : nat)
  : M (gmap string artifact) unit :=
  let* FC := lift (select_map maps_list i (st_non_zero_voxels st)) in
  let fig := maps_png out_dir k i in
  let* prior := lift (index priors i) in
  let c := MkCall FC prior (st_non_zero_mask st) corr_variable variable_name
             (st_template_file st) fig in
  let* _ := write fig (QCFigure c) in
  write (stats_csv out_dir k i) (StatsTable c).

(** [maps_list.shape[1]] on the stack of the scans; the array of no scan
    at all has one dimension. *)
Definition shape1 {A} (maps_list : list (list A)) : result nat :=
  match maps_list with
  | [] => Raise IndexError
  | maps :: _ => Ok (length maps)
  end.

(** One pass of the loop over the two variable sets (lines 229 to 274). *)
Definition variable_set (st : stage) (corr_variable : list covariate)
    (variable_name : list string) (out_dir : string)
  : M (gmap string artifact) unit :=
  let e := st_env st in
  let rows := st_rows st in
  let nzv := st_non_zero_voxels st in
  let tdof_list := map row_tdof rows in
  let* constant := lift (np_std_is_zero e tdof_list) in
  let cv := add_tdof constant tdof_list corr_variable variable_name in
  let* scan := lift (loop_variable (st_merged st)) in
  let* all_priors := lift (entry "prior_maps" (prior_maps scan)) in
  let* priors := lift (select_columns nzv all_priors) in
  let num_priors := length priors in
  let* DR_maps_list := lift (stack_maps e (map row_DR rows)) in
  let* _ := for_each (qc_one st (fst cv) (snd cv) out_dir DR
                        DR_maps_list priors) (seq 0 num_priors) in
  let* NPR_maps_list := lift (stack_maps e (map row_NPR rows)) in
  let* npr := lift (shape1 NPR_maps_list) in
  let* _ :=
    if (0 <? npr)%nat
    then for_each (qc_one st (fst cv) (snd cv) out_dir NPR
                     NPR_maps_list priors) (seq 0 num_priors)
    else ret tt in
  if (0 <? length (st_seed_prior_maps st))%nat then
    let* loaded := lift (traverse (fun prior_map =>
                      read_seed_prior e prior_map (st_mask_file st))
                    (st_seed_prior_maps st)) in
    let* seed_priors := lift (select_voxels e nzv loaded) in
    let* seed_maps_list := lift (stack_maps e (map row_seed rows)) in
    for_each (qc_one st (fst cv) (snd cv) out_dir SeedFC
                seed_maps_list seed_priors)
      (seq 0 (length seed_priors))
  else ret tt.

Definition names_uncorrected : list string :=
  ["$\mathregular{BOLD_{SD}}$"; "$\mathregular{CR_{SD}}$"].

Definition names_corrected : list string :=
  ["$\mathregular{BOLD_{SD}}$"; "Corrected $\mathregular{CR_{SD}}$";
   "Random $\mathregular{CR_{SD}}$"].

(** Lines 221 to 277: everything after the voxel selection. *)
Definition qc_stage (e : env) (seed_prior_maps : list string)
    (template_file mask_file : string) (merged : list scan_data)
    (rows : list scan_row) (non_zero_voxels : list bool)
    (out_dir_normal out_dir_corrected : string)
  : M (gmap string artifact) string :=
  let non_zero_mask := abspath e "non_zero_mask.nii.gz" in
  let st := MkStage e seed_prior_maps template_file mask_file merged rows
              non_zero_voxels non_zero_mask in
  let* _ := write non_zero_mask (MaskImage mask_file non_zero_voxels) in
  let* std_maps :=
    lift (select_voxels e non_zero_voxels (map row_std rows)) in
  let* CR_std_maps :=
    lift (select_voxels e non_zero_voxels (map row_CR_std rows)) in
  let* corrected_CR_std_maps :=
    lift (select_voxels e non_zero_voxels (map row_corrected_CR_std rows)) in
  let* random_CR_std_maps :=
    lift (select_voxels e non_zero_voxels (map row_random_CR_std rows)) in
  let* _ := variable_set st [VoxelMaps std_maps; VoxelMaps CR_std_maps]
              names_uncorrected out_dir_normal in
  let* _ := variable_set st
              [VoxelMaps std_maps; VoxelMaps corrected_CR_std_maps;
               VoxelMaps random_CR_std_maps]
              names_corrected out_dir_corrected in
  ret out_dir_normal.

Definition sample_size_message : string :=
  "Cannot run statistics on a sample size smaller than 3, so an empty figure is generated.".

(** [DatasetDiagnosis._run_interface]; the value is the [analysis_QC]
    output.  At line 220 [std_maps] is still the list the scan loop
    filled: [np.array] is applied to it only from line 224 on. *)
Definition run_interface (e : env) (scan_data_list : list (nested scan_data))
    (mask_file_dict : gmap string string) (seed_prior_maps : list string)
  : M (gmap string artifact) string :=
  let merged := flatten_list scan_data_list in
  if (length merged <? 3)%nat then raise (ValueError sample_size_message)
  else
    let out_dir_normal := abspath e "analysis_QC" in
    let* _ := makedirs out_dir_normal in
    let out_dir_corrected := out_dir_normal +:+ "/analysis_QC_corrected_CR" in
    let* _ := makedirs out_dir_corrected in
    let* template_file := lift (getitem mask_file_dict "template_file") in
    let* mask_file := lift (getitem mask_file_dict "brain_mask") in
    let* _ := lift (read_mask e mask_file) in
    let* rows := lift (traverse read_scan merged) in
    let std_maps := map row_std rows in
    let* non_zero_voxels := lift (non_zero_voxels_of (PyList std_maps)) in
    qc_stage e seed_prior_maps template_file mask_file merged rows
      non_zero_voxels out_dir_normal out_dir_corrected.

(** *** Vocabulary of the properties *)

(** How many rows of a stack are set at column [j]. *)
Definition count_at (j : nat) (rows : list (list bool)) : Z :=
  fold_right (fun row n => (Z_of_bool (nth j row false) + n)%Z) 0%Z rows.

(** No row of the stack is exactly zero at voxel [j]. *)
Definition nonzero_in_every_scan (j : nat) (rows : list (list spec_float)) : bool :=
  forallb (fun row => negb (is_zero (nth j row S754_nan))) rows.

(** The [analysis_QC] call behind an artifact, if it is a figure or a
    table. *)
Definition call_of (a : artifact) : option qc_call :=
  match a with
  | QCFigure c => Some c
  | StatsTable c => Some c
  | Directory => None
  | MaskImage _ _ => None
  end.

(** The [analysis_QC] call behind the figure or table at a path. *)
Definition call_at (files : gmap string artifact) (path : string)
  : option qc_call :=
  files !! path ≫= call_of.

(** Every figure and table of a store comes from a call that satisfies
    [P]. *)
Definition calls_satisfy (P : qc_call -> Prop) (files : gmap string artifact)
  : Prop :=
  forall path a c, files !! path = Some a -> call_of a = Some c -> P c.

(** No figure or table of [files'] is new: each was in [files]
    already, so no [analysis_QC] call lies between the two stores. *)
Definition no_new_call (files files' : gmap string artifact) : Prop :=
  forall path a c,
    files' !! path = Some a -> call_of a = Some c -> files !! path = Some a.

(** Which of the eight keys of the scan loop a record holds, in the order
    the loop reads them. *)
Definition held_keys (scan : scan_data) : list (string * bool) :=
  [("temporal_std", bool_decide (is_Some (temporal_std scan)));
   ("predicted_std", bool_decide (is_Some (predicted_std scan)));
   ("corrected_CR_std", bool_decide (is_Some (corrected_CR_std scan)));
   ("random_CR_std", bool_decide (is_Some (random_CR_std scan)));
   ("DR_BOLD", bool_decide (is_Some (DR_BOLD scan)));
   ("NPR_maps", bool_decide (is_Some (NPR_maps scan)));
   ("tDOF", bool_decide (is_Some (tDOF scan)));
   ("seed_list", bool_decide (is_Some (seed_list scan)))].

(** The first of the eight keys that a record lacks. *)
Definition missing_key (scan : scan_data) : option string :=
  fst <$> List.find (fun held => negb (snd held)) (held_keys scan).

End DatasetDiagnosis.

(** ** Sample inputs *)

Module Samples.

Definition cwd (name : string) : string := "/work/" +:+ name.

Definition one : spec_float := S754_finite false 1 0.
Definition two : spec_float := S754_finite false 1 1.
Definition zero : spec_float := S754_zero false.

(** *** [PrepMasks] *)

Definition mask_dict : gmap string string :=
  <["mask_file" := "brain.nii.gz"]>
  (<["WM_mask_file" := "wm.nii.gz"]>
  (<["CSF_mask_file" := "csf.nii.gz"]>
  (<["preprocess_anat_template" := "template.nii.gz"]> ∅))).

Definition other_dict : gmap string string :=
  <["mask_file" := "other_brain.nii.gz"]> ∅.

Definition home_env : gmap string string := <["HOME" := "/home/user"]> ∅.

(** A world where every file can be read and every helper succeeds. *)
Definition complete_world : PrepMasks.world :=
  PrepMasks.MkWorld home_env cwd
    (fun _ => Ok tt) (fun _ _ => Ok tt)
    (fun in_file _ => Ok (in_file +:+ "_resampled.nii.gz"))
    (fun in_file _ => Ok (in_file +:+ "_resampled.nii.gz"))
    (fun _ _ _ => Ok tt).



(** *** [ScanDiagnosis] *)

Fixpoint cut_at_non_ascii (s : string) : string :=
  match s with
  | EmptyString => EmptyString
  | String c s' =>
      if (nat_of_ascii c <? 128)%nat then String c (cut_at_non_ascii s')
      else "?"
  end.

(** An interpreter with the usual limit of 4300 digits, tested after the
    syntax of the literal, and its Unicode
    database as short strings see it whose characters outside ASCII are
    printable letters, and which hold no quote, backslash or control
    character: no such character is a blank or a digit, and the [repr] is
    the string between single quotes. *)
Definition letters : ScanDiagnosis.interpreter :=
  ScanDiagnosis.MkInterpreter cut_at_non_ascii (fun s => "'" +:+ s +:+ "'")
    4300 false.

Definition file_dict : gmap string string :=
  <["bold_file" := "bold.nii.gz"]>
  (<["CR_data_dict" := "CR_data"]>
  (<["VE_file" := "VE.nii.gz"]>
  (<["STD_file" := "STD.nii.gz"]>
  (<["CR_STD_file" := "CR_STD.nii.gz"]>
  (<["random_CR_STD_file" := "random_CR_STD.nii.gz"]>
  (<["corrected_CR_STD_file" := "corrected_CR_STD.nii.gz"]> ∅)))))).

(** A stand-in for the rest of the interface: it hands back the integer
    lists it was given. *)
Definition echo_indices (files : list string) (bold confound : list Z)
  : result (list Z * list Z) :=
  Ok (bold, confound).

(** *** [DatasetDiagnosis] *)

(** A numpy whose test of line 235 holds exactly on a list of equal
    integers. *)
Definition equal_integers (tdof_list : list ScanDiagnosis.pyval)
  : result bool :=
  match tdof_list with
  | ScanDiagnosis.PyInt z :: rest =>
      Ok (forallb (fun v => match v with
                            | ScanDiagnosis.PyInt z' => (z =? z')%Z
                            | _ => false
                            end) rest)
  | _ => Ok false
  end.

Definition qc_env : DatasetDiagnosis.env :=
  DatasetDiagnosis.MkEnv cwd (fun _ => Ok tt) (fun _ _ => Ok [one; two])
    equal_integers (ValueError "inhomogeneous shape").

Definition mask_file_dict : gmap string string :=
  <["template_file" := "/work/display_template.nii.gz"]>
  (<["brain_mask" := "brain.nii.gz"]> ∅).

(** A scan over two brain voxels with one prior network. *)
Definition scan (std : list spec_float) (tdof : Z)
    (prior : list spec_float) : DatasetDiagnosis.scan_data :=
  DatasetDiagnosis.MkScan (Some std) (Some [one; two]) (Some [two; one])
    (Some [one; one]) (Some [[one; two]]) (Some [[two; one]])
    (Some (ScanDiagnosis.PyInt tdof)) (Some [[one; one]]) (Some [prior]).

(** A record without its [tDOF] entry. *)
Definition scan_without_tdof : DatasetDiagnosis.scan_data :=
  DatasetDiagnosis.MkScan (Some [one; one]) (Some [one; two]) (Some [two; one])
    (Some [one; one]) (Some [[one; two]]) (Some [[two; one]])
    None (Some [[one; one]]) (Some [[one; two]]).

Definition two_scans : list (nested DatasetDiagnosis.scan_data) :=
  [Item (scan [one; one] 3 [one; two]); Item (scan [one; two] 3 [one; two])].

(** Three scans; the second has no signal at the second voxel. *)
Definition three_scans : list (nested DatasetDiagnosis.scan_data) :=
  [Item (scan [one; one] 3 [one; two]);
   Nested [Item (scan [one; zero] 3 [one; two]);
           Item (scan [two; one] 4 [one; two])]].

(** Three scans that differ only in their prior maps, in two orders. *)
Definition priors_last_differs : list DatasetDiagnosis.scan_data :=
  [scan [one; one] 3 [one; two]; scan [one; one] 3 [one; two];
   scan [one; one] 3 [two; two]].

Definition priors_first_differs : list DatasetDiagnosis.scan_data :=
  [scan [one; one] 3 [two; two]; scan [one; one] 3 [one; two];
   scan [one; one] 3 [one; two]].

(** What the steps after line 220 leave in an empty working directory
    when they are handed the records and a voxel selection. *)
Definition after_selection (merged : list DatasetDiagnosis.scan_data)
    (non_zero_voxels : list bool) : gmap string DatasetDiagnosis.artifact :=
  match traverse DatasetDiagnosis.read_scan merged with
  | Ok rows =>
      snd (DatasetDiagnosis.qc_stage qc_env [] "/work/display_template.nii.gz"
             "brain.nii.gz" merged rows non_zero_voxels "/work/analysis_QC"
             "/work/analysis_QC/analysis_QC_corrected_CR" ∅)
  | Raise _ => ∅
  end.

End Samples.


(** ** Strings and paths *)

Module Text.

(** [c not in s]. *)
Fixpoint lacks (c : ascii) (s : string) : bool :=
  match s with
  | EmptyString => true
  | String a s' => negb (Ascii.eqb a c) && lacks c s'
  end.

(** [sep in s], for a separator that is not empty. *)
Fixpoint occurs (sep s : string) : bool :=
  match s with
  | EmptyString => false
  | String _ s' => String.prefix sep s || occurs sep s'
  end.

(** The scan of [s.split(sep)] from the left: [skip] characters of a
    separator just matched are still to be passed over. *)
Fixpoint split_go (sep : string) (skip : nat) (s : string) : list string :=
  match s with
  | EmptyString => [EmptyString]
  | String c s' =>
      match skip with
      | S k => split_go sep k s'
      | O =>
          if String.prefix sep s
          then EmptyString :: split_go sep (String.length sep - 1) s'
          else match split_go sep 0 s' with
               | part :: parts => String c part :: parts
               | [] => [String c EmptyString]
               end
      end
  end.

(** [s.split(sep)] for a separator that is not empty: the parts between
    the occurrences of [sep], taken from the left without overlap. *)
Definition split (sep s : string) : list string := split_go sep 0 s.

(** [s[0]]. *)
Definition first_char (s : string) : result ascii :=
  match s with
  | String c _ => Ok c
  | EmptyString => Raise IndexError
  end.

Fixpoint has_slash (p : string) : bool :=
  match p with
  | EmptyString => false
  | String c p' => Ascii.eqb c "/"%char || has_slash p'
  end.

(** [os.path.basename(p)]: what follows the last slash. *)
Fixpoint basename (p : string) : string :=
  match p with
  | EmptyString => EmptyString
  | String c p' =>
      if has_slash p' then basename p'
      else if Ascii.eqb c "/"%char then p' else p
  end.

(** Lines 195 to 198 of [EstimateReferenceImage] and 438 to 441 of
    [Merge]: the name that the outputs are given, from the subject, the
    first character after [_ses-] and the first character after [_run-]
    of the base name of a file. *)
Definition filename_template (path : string) : result string :=
  let base := basename path in
  subject_id ← index (split "_ses-" base) 0;
  after_ses ← index (split "_ses-" base) 1;
  session ← first_char after_ses;
  after_run ← index (split "_run-" base) 1;
  run ← first_char after_run;
  Ok (subject_id +:+ "_ses-" +:+ String session EmptyString
        +:+ "_run-" +:+ String run EmptyString).

End Text.

(** ** [Merge] and [resample_image] (preprocess_bold_pkg/utils.py) *)

Module Merge.

(** What a run leaves behind: the lines printed and the images saved, with
    the file each was saved to. *)
Record effects (image : Type) : Type := MkEffects {
  printed : list string;
  saved : list (string * image)
}.

Arguments MkEffects {image} printed saved.
Arguments printed {image} e.
Arguments saved {image} e.

Section WithVolumes.

(** The data of one 3-D volume. *)
Variable V : Type.

(** The merged image: its volumes along the fourth axis, the file its
    affine comes from, the file its header comes from, and its data
    type. *)
Record merged_image : Type := MkMerged {
  volumes : list V;
  affine_of : string;
  header_of : string;
  data_dtype : string
}.

(** nibabel, as the interface uses it: the shape of a loaded file; the
    header of a loaded file; [nb.load(file).dataobj[:,:,:]] as it is
    stored in a slot of the given size of the combined array; and
    [set_data_dtype] on the combined image. *)
Record world : Type := MkWorld {
  abspath : string -> string;
  load_shape : string -> result (list nat);
  load_header : string -> result unit;
  read_volume : nat * nat * nat -> string -> result V;
  set_data_dtype : string -> result unit
}.

(** The loop of lines 449 to 452, with its counter. *)
Fixpoint fill (w : world) (slot : nat * nat * nat) (in_files : list string)
    (i : nat) : result (list V * nat) :=
  match in_files with
  | [] => Ok ([], i)
  | file :: files =>
      v ← read_volume w slot file;
      rest ← fill w slot files (i + 1);
      Ok (v :: fst rest, snd rest)
  end.

Definition print (line : string) : M (effects merged_image) unit :=
  fun e => (Ok tt, MkEffects (printed e ++ [line]) (saved e)).

Definition save (path : string) (img : merged_image)
  : M (effects merged_image) unit :=
  fun e => (Ok tt, MkEffects (printed e) (saved e ++ [(path, img)])).

(** [Merge._run_interface]; the value is [None] on the branch of line 455
    and the [out_file] otherwise. *)
Definition run_interface (w : world) (in_files : list string)
    (header_source data_type : string)
  : M (effects merged_image) (option string) :=
  let* filename_template := lift (Text.filename_template header_source) in
  let* first := lift (index in_files 0) in
  let* shape := lift (load_shape w first) in
  let* _ := lift (load_header w header_source) in
  let length := length in_files in
  let* x := lift (index shape 0) in
  let* y := lift (index shape 1) in
  let* z := lift (index shape 2) in
  let* filled := lift (fill w (x, y, z) in_files 0) in
  if negb (snd filled =? length)%nat then
    let* _ := print "Error occured with Merge." in
    ret None
  else
    let combined_files :=
      abspath w (filename_template +:+ "_combined.nii.gz") in
    let* _ := lift (set_data_dtype w data_type) in
    let* _ := save combined_files
                (MkMerged (fst filled) first header_source data_type) in
    ret (Some combined_files).

End WithVolumes.

Arguments MkMerged {V} volumes affine_of header_of data_dtype.
Arguments MkWorld {V} abspath load_shape load_header read_volume set_data_dtype.
Arguments volumes {V} m.
Arguments abspath {V} w.
Arguments load_shape {V} w.
Arguments load_header {V} w.
Arguments read_volume {V} w.
Arguments set_data_dtype {V} w.
Arguments fill {V} w slot in_files i.
Arguments run_interface {V} w in_files header_source data_type.

End Merge.

Module ResampleImage.

Section WithNibabel.

(** Images, and the floats that voxel sizes are given as. *)
Variables (image F : Type).

(** The builtin [float(s)]; [nibabel.processing.resample_to_output] with
    the three voxel sizes; [set_data_dtype]. *)
Variable py_float : string -> result F.
Variable resample_to_output : image -> F * F * F -> result image.
Variable set_data_dtype : image -> string -> result image.

(** [resample_image(nb_image, data_type, img_dim)]. *)
Definition resample_image (nb_image : image) (data_type img_dim : string)
  : result image :=
  nb_image' ←
    (if negb (String.eqb img_dim "origin") then
       let shape := Text.split "x" img_dim in
       s0 ← index shape 0;
       f0 ← py_float s0;
       s1 ← index shape 1;
       f1 ← py_float s1;
       s2 ← index shape 2;
       f2 ← py_float s2;
       resample_to_output nb_image (f0, f1, f2)
     else Ok nb_image);
  set_data_dtype nb_image' data_type.

End WithNibabel.

Arguments resample_image {image F} py_float resample_to_output set_data_dtype
  nb_image data_type img_dim.

End ResampleImage.

(** ** [slice_applyTransforms] (preprocess_bold_pkg/utils.py) *)

Module SliceApplyTransforms.

(** What leaves the interface, in order. *)
Inductive event : Type :=
| Printed (line : string)
| Wrote (path : string)
| Command (command : string)
| Retyped (path data_type : string).

(** An element of the untyped list [inverses], with its truth value. *)
Inductive flag : Type :=
| IntFlag (z : Z)
| BoolFlag (b : bool)
| FloatFlag (f : spec_float)
| StrFlag (s : string)
| NoneFlag.

(** [bool(inverse)]. *)
Definition py_bool (inverse : flag) : bool :=
  match inverse with
  | IntFlag z => negb (z =? 0)%Z
  | BoolFlag b => b
  | FloatFlag f => negb (DatasetDiagnosis.is_zero f)
  | StrFlag s => negb (String.eqb s EmptyString)
  | NoneFlag => false
  end.

(** Lines 349 to 354: one [-t] option per pair of [zip(transforms,
    inverses)]. *)
Fixpoint transform_string (transforms : list string) (inverses : list flag)
  : string :=
  match transforms, inverses with
  | transform :: transforms', inverse :: inverses' =>
      (if py_bool inverse
       then "-t [" +:+ transform +:+ ",1] "
       else "-t " +:+ transform +:+ " ")
      +:+ transform_string transforms' inverses'
  | _, _ => EmptyString
  end.

Section WithNibabel.

Variables (image F : Type).

(** nibabel and the shell, as the interface uses them: loading a file;
    the shape and the voxel sizes of a loaded image; [%s] of a voxel size;
    the three operations [resample_image] is made of; [to_filename];
    [os.system]; and loading a warped volume, setting its data type and
    saving it. *)
Record world : Type := MkWorld {
  abspath : string -> string;
  nb_load : string -> result image;
  img_shape : image -> list nat;
  get_zooms : image -> list F;
  str_float : F -> string;
  py_float : string -> result F;
  resample_to_output : image -> F * F * F -> result image;
  set_data_dtype : image -> string -> result image;
  to_filename : image -> string -> result unit;
  os_system : string -> Z;
  retype : string -> string -> result unit
}.

Definition emit (ev : event) : M (list event) unit :=
  fun log => (Ok tt, log ++ [ev]).

(** [if os.system(command) != 0: raise ValueError('Error in '+command)]. *)
Definition system (w : world) (command : string) : M (list event) unit :=
  fun log =>
    (if (os_system w command =? 0)%Z then Ok tt
     else Raise (ValueError ("Error in " +:+ command)),
     log ++ [Command command]).

(** Lines 341 to 346: the reference image resampled to the dimensions
    asked for, or to those of the input, and saved. *)
Definition resample_reference (w : world) (img : image)
    (ref_file resampling_dim data_type : string) : M (list event) unit :=
  let* img_dim :=
    lift (if negb (String.eqb resampling_dim "origin") then Ok resampling_dim
          else
            let shape := get_zooms w img in
            z0 ← index shape 0;
            z1 ← index shape 1;
            z2 ← index shape 2;
            Ok (str_float w z0 +:+ "x" +:+ str_float w z1 +:+ "x"
                  +:+ str_float w z2)) in
  let* ref := lift (nb_load w ref_file) in
  let* resampled :=
    lift (ResampleImage.resample_image (py_float w) (resample_to_output w)
            (set_data_dtype w) ref data_type img_dim) in
  let* _ := lift (to_filename w resampled "resampled.nii.gz") in
  emit (Wrote "resampled.nii.gz").

Definition motcorr_stats_command (motcorr_params : string) (x : nat) : string :=
  "antsMotionCorrStats -m " +:+ motcorr_params +:+ " -o motcorr_vol"
    +:+ str_nat x +:+ ".mat -t " +:+ str_nat x.

Definition apply_command_motcorr (bold transform_string : string) (x : nat)
    (ref_img warped : string) : string :=
  "antsApplyTransforms -i " +:+ bold +:+ " " +:+ transform_string
    +:+ "-t motcorr_vol" +:+ str_nat x +:+ ".mat -n BSpline[5] -r "
    +:+ ref_img +:+ " -o " +:+ warped.

Definition apply_command (bold transform_string ref_img warped : string)
  : string :=
  "antsApplyTransforms -i " +:+ bold +:+ " " +:+ transform_string
    +:+ "-n BSpline[5] -r " +:+ ref_img +:+ " -o " +:+ warped.

Definition warped_fname (w : world) (x : nat) : string :=
  abspath w ("deformed_volume" +:+ str_nat x +:+ ".nii.gz").

(** The body of the loop of lines 363 to 380, for volume [x]; the value
    is the name appended to [warped_volumes]. *)
Definition warp_volume (w : world) (apply_motcorr : bool)
    (motcorr_params transforms ref_img data_type : string)
    (bold_volumes : list string) (x : nat) : M (list event) string :=
  let warped := warped_fname w x in
  let* _ :=
    if apply_motcorr then
      let* _ := system w (motcorr_stats_command motcorr_params x) in
      let* bold := lift (index bold_volumes x) in
      system w (apply_command_motcorr bold transforms x ref_img warped)
    else
      let* bold := lift (index bold_volumes x) in
      system w (apply_command bold transforms ref_img warped) in
  let* _ := lift (retype w warped data_type) in
  let* _ := emit (Retyped warped data_type) in
  ret warped.

(** A loop that collects the values of its body. *)
Fixpoint collect (A B : Type) (body : A -> M (list event) B) (xs : list A)
  : M (list event) (list B) :=
  match xs with
  | [] => ret []
  | x :: xs' =>
      let* y := body x in
      let* ys := collect A B body xs' in
      ret (y :: ys)
  end.

(** The effects of [split_volumes], in the log of the caller. *)
Definition split_events (e : SplitVolumes.effects) : list event :=
  map Printed (SplitVolumes.printed e) ++ map Wrote (SplitVolumes.written e).

(** [slice_applyTransforms._run_interface]; the value is [out_files]. *)
Definition run_interface (w : world) (in_file ref_file : string)
    (transforms : list string) (inverses : list flag) (apply_motcorr : bool)
    (motcorr_params resampling_dim data_type : string)
  : M (list event) (list string) :=
  let* img := lift (nb_load w in_file) in
  let* _ := resample_reference w img ref_file resampling_dim data_type in
  let transforms' := transform_string transforms inverses in
  let* _ := emit (Printed "Splitting bold file into lists of single volumes") in
  let* img' := lift (nb_load w in_file) in
  let split := SplitVolumes.split_volumes (abspath w) (img_shape w img') "bold_" in
  let* _ := (fun log => (Ok tt, log ++ split_events (snd split))) in
  let* volumes := lift (fst split) in
  match volumes with
  | None => raise TypeError
  | Some (bold_volumes, num_volumes) =>
      let ref_img := abspath w "resampled.nii.gz" in
      collect nat string
        (warp_volume w apply_motcorr motcorr_params transforms' ref_img
           data_type bold_volumes)
        (seq 0 num_volumes)
  end.

(** The events of one volume when its commands succeed: the commands,
    on the file that [split_volumes] wrote for the volume, and the change
    of data type. *)
Definition volume_events (w : world) (apply_motcorr : bool)
    (motcorr_params transforms ref_img data_type : string) (x : nat)
  : list event :=
  let bold := SplitVolumes.slice_fname (abspath w) "bold_" x in
  let warped := warped_fname w x in
  (if apply_motcorr
   then [Command (motcorr_stats_command motcorr_params x);
         Command (apply_command_motcorr bold transforms x ref_img warped)]
   else [Command (apply_command bold transforms ref_img warped)])
  ++ [Retyped warped data_type].

End WithNibabel.

Arguments MkWorld {image F}.
Arguments abspath {image F} w.
Arguments nb_load {image F} w.
Arguments img_shape {image F} w.
Arguments os_system {image F} w.
Arguments retype {image F} w.
Arguments system {image F} w command.
Arguments resample_reference {image F} w img ref_file resampling_dim data_type.
Arguments warped_fname {image F} w x.
Arguments warp_volume {image F} w apply_motcorr motcorr_params transforms
  ref_img data_type bold_volumes x.
Arguments volume_events {image F} w apply_motcorr motcorr_params transforms
  ref_img data_type x.
Arguments collect {A B} body xs.
Arguments run_interface {image F} w in_file ref_file transforms inverses
  apply_motcorr motcorr_params resampling_dim data_type.

End SliceApplyTransforms.

(** ** [prep_bids_iter] and [BIDSDataGraber] (preprocess_bold_pkg/utils.py) *)

Module Bids.

(** *** [prep_bids_iter] *)

(** [int(func_bids.get_entities()[key])] on the entities of one file. *)
Definition entity_int (py : ScanDiagnosis.interpreter)
    (entities : gmap string ScanDiagnosis.pyval) (key : string) : result Z :=
  v ← getitem entities key;
  ScanDiagnosis.py_int py v.

(** The loop of lines 23 to 27 over the functional files of a subject,
    from the largest session and run seen so far. *)
Fixpoint largest_session_and_run (py : ScanDiagnosis.interpreter)
    (sub_func : list (gmap string ScanDiagnosis.pyval)) (session run : Z)
  : result (Z * Z) :=
  match sub_func with
  | [] => Ok (session, run)
  | func_bids :: rest =>
      s ← entity_int py func_bids "session";
      session' ← (if (session <? s)%Z then entity_int py func_bids "session"
                   else Ok session);
      r ← entity_int py func_bids "run";
      run' ← (if (run <? r)%Z then entity_int py func_bids "run"
               else Ok run);
      largest_session_and_run py rest session' run'
  end.

(** [list(range(1, n+1))]. *)
Definition range_from_1 (n : Z) : list Z :=
  map Z.of_nat (seq 1 (Z.to_nat n)).

(** The loop of lines 19 to 29 over the subjects. *)
Fixpoint iterate_subjects (py : ScanDiagnosis.interpreter)
    (get : string -> list (gmap string ScanDiagnosis.pyval))
    (subject_list : list string)
    (session_iter run_iter : gmap string (list Z))
  : result (gmap string (list Z) * gmap string (list Z)) :=
  match subject_list with
  | [] => Ok (session_iter, run_iter)
  | sub :: rest =>
      largest ← largest_session_and_run py (get sub) 0 0;
      iterate_subjects py get rest
        (<[sub := range_from_1 (fst largest)]> session_iter)
        (<[sub := range_from_1 (snd largest)]> run_iter)
  end.

(** [prep_bids_iter(layout)], on the subjects of the layout and the
    entities of the functional files of each. *)
Definition prep_bids_iter (py : ScanDiagnosis.interpreter)
    (subject_list : list string)
    (get : string -> list (gmap string ScanDiagnosis.pyval))
  : result (list string * gmap string (list Z) * gmap string (list Z)) :=
  iters ← iterate_subjects py get subject_list ∅ ∅;
  Ok (subject_list, fst iters, snd iters).

(** *** [BIDSDataGraber] *)

(** A value joined to a string with [+]: a string, an integer, or the
    undefined value of an input that was not set. *)
Inductive operand : Type :=
| Str (s : string)
| Int (z : Z)
| Undefined.

(** [s + v] for a string [s]: only a string can be added to a string. *)
Definition str_add (s : string) (v : operand) : result string :=
  match v with
  | Str s' => Ok (s +:+ s')
  | Int _ => Raise TypeError
  | Undefined => Raise TypeError
  end.

(** [self.inputs.datatype+'_'+self.inputs.subject_id+'_'+self.inputs.session+'_'+self.inputs.run],
    where [session] is an integer input. *)
Definition spec_name (datatype subject_id : string) (session : Z)
    (run : option Z) : result string :=
  s1 ← str_add datatype (Str "_");
  s2 ← str_add s1 (Str subject_id);
  s3 ← str_add s2 (Str "_");
  s4 ← str_add s3 (Int session);
  s5 ← str_add s4 (Str "_");
  str_add s5 (match run with Some r => Int r | None => Undefined end).

(** The layout, as the interface uses it: the number of files that match
    a selection, and their names.  The run is part of the selection of a
    functional file only. *)
Record layout : Type := MkLayout {
  get : string -> Z -> option (option Z) -> string -> result nat;
  get_filenames : string -> Z -> option (option Z) -> string
                  -> result (list string)
}.

(** The [try] block of lines 56 to 67. *)
Definition select_file (l : layout) (datatype subject_id : string)
    (session : Z) (run : option Z) : result string :=
  selected ←
    (if String.eqb datatype "func" then
       bids_file ← get l subject_id session (Some run) datatype;
       func ← get_filenames l subject_id session (Some run) datatype;
       file ← index func 0;
       Ok (bids_file, file)
     else if String.eqb datatype "anat" then
       bids_file ← get l subject_id session None datatype;
       anat ← get_filenames l subject_id session None datatype;
       file ← index anat 0;
       Ok (bids_file, file)
     else Raise (ValueError ("Wrong datatype " +:+ datatype)));
  if (1 <? fst selected)%nat then
    name ← spec_name datatype subject_id session run;
    Raise (ValueError ("Provided BIDS spec lead to duplicates: " +:+ name))
  else Ok (snd selected).

(** The [try] block with its bare [except]. *)
Definition select_file_or_report (l : layout) (datatype subject_id : string)
    (session : Z) (run : option Z) : result string :=
  match select_file l datatype subject_id session run with
  | Ok file => Ok file
  | Raise _ =>
      name ← spec_name datatype subject_id session run;
      Raise (ValueError ("Error with BIDS spec: " +:+ name))
  end.

Inductive event : Type :=
| Printed (line : string)
| Command (command : string).

(** [BIDSDataGraber._run_interface]; the value is [out_file]. *)
Definition run_interface (open_layout : string -> result layout)
    (os_system : string -> Z) (bids_dir datatype subject_id : string)
    (session : Z) (run : option Z) : M (list event) string :=
  let* l := lift (open_layout bids_dir) in
  let* file :=
    lift (select_file_or_report l datatype subject_id session run) in
  if negb (Text.occurs ".nii.gz" file) then
    let* _ := (fun log => (Ok tt, log ++ [Printed "Compressing BIDS input to .gz"])) in
    let command := "gzip " +:+ file in
    let* _ :=
      (fun log =>
         (if negb (os_system command =? 0)%Z
          then Raise (ValueError ("Error in " +:+ command)) else Ok tt,
          log ++ [Command command])) in
    ret (file +:+ ".gz")
  else ret file.

End Bids.

(** ** Vocabulary of further properties *)

Module More.

(** A world of [PrepMasks] with another process environment. *)
Definition with_environ (w : PrepMasks.world) (env : gmap string string)
  : PrepMasks.world :=
  PrepMasks.MkWorld env (PrepMasks.abspath w) (PrepMasks.sitk_ReadImage w)
    (PrepMasks.resample_image_spacing w) (PrepMasks.resample_mask w)
    (PrepMasks.resample_IC_file w) (PrepMasks.compute_edge_mask w).

(** The keys that [PrepMasks] reads in the first mask dictionary, in the
    order of lines 38 to 43. *)
Definition mask_dict_keys : list string :=
  ["mask_file"; "WM_mask_file"; "CSF_mask_file"; "preprocess_anat_template"].

(** How many voxels a mask keeps. *)
Fixpoint count_true (mask : list bool) : nat :=
  match mask with
  | [] => 0
  | b :: mask' => (if b then 1 else 0) + count_true mask'
  end.

End More.

(** ** More sample inputs *)

Module MoreSamples.

(** Three volume files in the working directory, each holding one
    number. *)
Definition volume_files : list (string * Z) :=
  [("/work/bold_vol0.nii.gz", 10%Z); ("/work/bold_vol1.nii.gz", 20%Z);
   ("/work/bold_vol2.nii.gz", 30%Z)].

Fixpoint read_listing (files : list (string * Z)) (file : string) : result Z :=
  match files with
  | [] => Raise (UserError "FileNotFoundError")
  | (name, v) :: files' =>
      if String.eqb name file then Ok v else read_listing files' file
  end.

(** A world whose files are those of a listing, all of 2 x 2 x 2
    voxels. *)
Definition listing_world (files : list (string * Z)) : Merge.world Z :=
  Merge.MkWorld Samples.cwd
    (fun file => _ ← read_listing files file; Ok [2; 2; 2])
    (fun _ => Ok tt)
    (fun _ file => read_listing files file)
    (fun _ => Ok tt).

(** Stand-ins for [float], [resample_to_output] and [set_data_dtype]:
    integer sizes, and images that carry the name of what was done to
    them. *)
Definition float_of_integer (s : string) : result Z :=
  match ScanDiagnosis.parse_int Samples.letters s with
  | ScanDiagnosis.Value z => Ok z
  | _ => Raise (ValueError "could not convert string to float")
  end.

Definition resample_to (image : string) (sizes : Z * Z * Z) : result string :=
  let '(a, b, c) := sizes in
  Ok (image +:+ "@" +:+ str_nat (Z.to_nat a) +:+ "x" +:+ str_nat (Z.to_nat b)
        +:+ "x" +:+ str_nat (Z.to_nat c)).

Definition retype (image data_type : string) : result string :=
  Ok (image +:+ ":" +:+ data_type).

(** A layout in which every selection matches the files of a list. *)
Definition layout_of (files : list string) : Bids.layout :=
  Bids.MkLayout (fun _ _ _ _ => Ok (length files)) (fun _ _ _ _ => Ok files).

(** Two subjects: the first has a file of session 1 and one of session 3,
    the second has none. *)
Definition first_session_file : gmap string ScanDiagnosis.pyval :=
  <["session" := ScanDiagnosis.PyStr "1"]>
  (<["run" := ScanDiagnosis.PyInt 1]> ∅).

Definition third_session_file : gmap string ScanDiagnosis.pyval :=
  <["session" := ScanDiagnosis.PyStr "3"]>
  (<["run" := ScanDiagnosis.PyInt 2]> ∅).

Definition files_of (sub : string) : list (gmap string ScanDiagnosis.pyval) :=
  if String.eqb sub "01" then [first_session_file; third_session_file] else [].

Definition two_subjects_iter : gmap string (list Z) * gmap string (list Z) :=
  (<["02" := []]> (<["01" := [1; 2; 3]%Z]> ∅),
   <["02" := []]> (<["01" := [1; 2]%Z]> ∅)).

(** A world of [slice_applyTransforms] in which every file holds an image
    of one shape with voxels of size 1, an image being known by its shape,
    and every command succeeds. *)
Definition slice_world (shape : list nat)
  : SliceApplyTransforms.world (list nat) Z :=
  SliceApplyTransforms.MkWorld Samples.cwd (fun _ => Ok shape) (fun img => img)
    (fun _ => [1; 1; 1]%Z) (fun z => str_nat (Z.to_nat z)) float_of_integer
    (fun img _ => Ok img) (fun img _ => Ok img) (fun _ _ => Ok tt)
    (fun _ => 0%Z) (fun _ _ => Ok tt).

End MoreSamples.
(** * Properties *)

(** ** Stepping through a call *)

Section Steps.

Context {S A B : Type}.

Lemma bindM_ok_inv (c : M S A) (k : A -> M S B) s b s' :
  Py.bindM c k s = (Ok b, s') ->
  exists a s1, c s = (Ok a, s1) /\ k a s1 = (Ok b, s').
Proof.
  unfold Py.bindM. destruct (c s) as [[a|e] s1]; intros H.
  - exists a, s1. split; [reflexivity | exact H].
  - discriminate H.
Qed.

Lemma lift_ok_inv (r : result A) (s : S) a s' :
  lift r s = (Ok a, s') -> r = Ok a /\ s' = s.
Proof. unfold lift. intros H. injection H as -> ->. split; reflexivity. Qed.

Lemma is_ok_inv (p : result A * S) :
  is_ok (fst p) = true -> exists a s, p = (Ok a, s).
Proof.
  destruct p as [[a|e] s]; cbn; intros H; [|discriminate H].
  exists a, s. reflexivity.
Defined.

End Steps.

Lemma index_0_head {A} (l : list A) :
  index l 0 = match head l with Some a => Ok a | None => Raise IndexError end.
Proof. destruct l; reflexivity. Qed.

(** ** [split_volumes] *)

Module SplitVolumesFacts.

Import SplitVolumes.

Lemma volumes_loop_length abspath prefix n :
  length (volumes_loop abspath prefix n) = n.
Proof. unfold volumes_loop. rewrite length_map. apply length_seq. Qed.

Lemma volumes_loop_lookup abspath prefix n x :
  x < n ->
  nth_error (volumes_loop abspath prefix n) x
  = Some (abspath (prefix +:+ "vol" +:+ str_nat x +:+ ".nii.gz")).
Proof.
  intros Hx. unfold volumes_loop.
  rewrite nth_error_map, nth_error_seq.
  apply Nat.ltb_lt in Hx. rewrite Hx. reflexivity.
Qed.

Lemma index_short {A} (l : list A) i : length l <= i -> index l i = Raise IndexError.
Proof.
  intros H. unfold index.
  destruct (nth_error l i) eqn:E; [|reflexivity].
  assert (i < length l) by (apply nth_error_Some; congruence). lia.
Qed.

Lemma index_long {A} (l : list A) i :
  i < length l -> exists a, nth_error l i = Some a /\ index l i = Ok a.
Proof.
  intros H. unfold index.
  destruct (nth_error l i) as [a|] eqn:E.
  - exists a. split; reflexivity.
  - apply nth_error_None in E. lia.
Qed.

(** C10.  [split_volumes] reads [in_nii.shape[3]] before it checks the
    number of dimensions.  So an image of fewer than four dimensions
    fails with an [IndexError], nothing printed and nothing written; the
    [return None] branch is taken exactly by the images of more than four
    dimensions; and an image of exactly four dimensions gives the list of
    the per-timepoint files, named [<prefix>vol<x>.nii.gz] for
    [x = 0 .. n-1], together with their count [n = shape[3]]. *)
Theorem split_volumes_reads_shape_before_check
    (abspath : string -> string) (shape : list nat) (prefix : string) :
  (length shape < 4 ->
     split_volumes abspath shape prefix = (Raise IndexError, MkEffects [] []))
  /\ (fst (split_volumes abspath shape prefix) = Ok None <-> 4 < length shape)
  /\ (length shape = 4 ->
      exists n volumes,
        nth_error shape 3 = Some n
        /\ split_volumes abspath shape prefix
           = (Ok (Some (volumes, n)), MkEffects [] volumes)
        /\ length volumes = n
        /\ forall x, x < n ->
             nth_error volumes x
             = Some (abspath (prefix +:+ "vol" +:+ str_nat x +:+ ".nii.gz"))).
Proof.
  unfold split_volumes. split; [|split].
  - intros H. rewrite index_short by lia. reflexivity.
  - split.
    + destruct (index shape 3) as [n|e] eqn:E; cbn.
      * destruct (Nat.eqb_spec (length shape) 4) as [H4|H4]; cbn.
        { discriminate. }
        intros _. unfold index in E.
        destruct (nth_error shape 3) eqn:E3; [|discriminate].
        assert (3 < length shape) by (apply nth_error_Some; congruence).
        lia.
      * discriminate.
    + intros H. destruct (index_long shape 3) as (n & _ & ->); [lia|].
      destruct (Nat.eqb_spec (length shape) 4); [lia|]. reflexivity.
  - intros H. destruct (index_long shape 3) as (n & Hn & ->); [lia|].
    rewrite H. cbn.
    exists n, (volumes_loop abspath prefix n).
    split; [exact Hn|]. split; [reflexivity|].
    split; [apply volumes_loop_length|].
    intros x Hx. apply volumes_loop_lookup, Hx.
Qed.

(** The three cases of C10 on a 3-D, a 5-D and a 4-D image. *)
Lemma split_volumes_reads_shape_before_check_witness :
  let abspath := String.append "/work/" in
  split_volumes abspath [64; 64; 32] "bold_" = (Raise IndexError, MkEffects [] [])
  /\ fst (split_volumes abspath [64; 64; 32; 2; 1] "bold_") = Ok None
  /\ exists n volumes,
       nth_error [64; 64; 32; 2] 3 = Some n
       /\ split_volumes abspath [64; 64; 32; 2] "bold_"
          = (Ok (Some (volumes, n)), MkEffects [] volumes)
       /\ length volumes = n
       /\ forall x, x < n ->
            nth_error volumes x
            = Some (abspath ("bold_" +:+ "vol" +:+ str_nat x +:+ ".nii.gz")).
Proof.
  intros abspath. split; [|split].
  - apply (proj1 (split_volumes_reads_shape_before_check
                    abspath [64; 64; 32] "bold_")).
    simpl. lia.
  - apply (proj1 (proj2 (split_volumes_reads_shape_before_check
                           abspath [64; 64; 32; 2; 1] "bold_"))).
    simpl. lia.
  - apply (proj2 (proj2 (split_volumes_reads_shape_before_check
                           abspath [64; 64; 32; 2] "bold_"))).
    reflexivity.
Defined.

End SplitVolumesFacts.

(** ** [PrepMasks] *)

Module PrepMasksFacts.

Import PrepMasks.

Lemma outside_ok_inv {A} (c : call) (r : result A) log a log' :
  outside c r log = (Ok a, log') -> r = Ok a /\ log' = log ++ [c].
Proof. unfold outside. intros H. injection H as -> <-. split; reflexivity. Qed.

Lemma getitem_ok_inv {V} (d : gmap string V) key v :
  getitem d key = Ok v -> d !! key = Some v.
Proof. unfold getitem. destruct (d !! key); intros H; congruence. Qed.

Lemma getitem_ok {V} (d : gmap string V) key v :
  d !! key = Some v -> getitem d key = Ok v.
Proof. unfold getitem. intros ->. reflexivity. Qed.

#[local] Ltac step H a H1 :=
  let s := fresh "log" in
  apply bindM_ok_inv in H as (a & s & H1 & H);
  first
    [ apply lift_ok_inv in H1 as [H1 ->]
    | apply outside_ok_inv in H1 as [H1 ->]
    | idtac ].

Lemma hemisphere_masks_off w brain log :
  hemisphere_masks w false brain log = (Ok ("", ""), log).
Proof. reflexivity. Qed.

Lemma hemisphere_masks_on_inv w brain log hem log' :
  hemisphere_masks w true brain log = (Ok hem, log') ->
  exists rabies_path,
    rabies_path_of (environ w) = Ok rabies_path
    /\ resample_mask w (right_hem_atlas rabies_path) brain = Ok (fst hem)
    /\ resample_mask w (left_hem_atlas rabies_path) brain = Ok (snd hem)
    /\ log' = log ++ [ResampleMask (right_hem_atlas rabies_path) brain;
                      ResampleMask (left_hem_atlas rabies_path) brain].
Proof.
  unfold hemisphere_masks. intros H.
  step H rabies_path Hpath. step H r Hr. step H lf Hl.
  injection H as <- <-.
  exists rabies_path. repeat split; try assumption.
  rewrite <- app_assoc. reflexivity.
Qed.

(** A run that returns: every step before the result succeeded. *)
Lemma run_interface_ok_inv w l pm d log dict calls :
  run_interface w l pm d log = (Ok dict, calls) ->
  exists mask_dict brain wm csf anat hem pm' log1,
    head (flatten_list l) = Some mask_dict
    /\ mask_dict !! "mask_file" = Some brain
    /\ mask_dict !! "WM_mask_file" = Some wm
    /\ mask_dict !! "CSF_mask_file" = Some csf
    /\ mask_dict !! "preprocess_anat_template" = Some anat
    /\ hemisphere_masks w d brain
         (log ++ [ReadImage anat; ReadImage brain;
                  ResampleImageSpacing anat brain;
                  WriteImage (abspath w "display_template.nii.gz")])
       = (Ok hem, log1)
    /\ resample_IC_file w pm brain = Ok pm'
    /\ calls = log1 ++ [ResampleICFile pm brain;
                        ComputeEdgeMask brain (abspath w "edge_mask.nii.gz") 1]
    /\ dict !! "right_hem_mask" = Some (fst hem)
    /\ dict !! "left_hem_mask" = Some (snd hem)
    /\ dict !! "brain_mask" = Some brain
    /\ dict !! "prior_maps" = Some pm'.
Proof.
  unfold run_interface. intros H.
  step H mask_dict' Hidx. rewrite index_0_head in Hidx.
  destruct (head (flatten_list l)) as [mask_dict|] eqn:Hhead; [|discriminate].
  injection Hidx as <-.
  step H brain Hbrain. step H wm Hwm. step H csf Hcsf. step H anat Hanat.
  apply getitem_ok_inv in Hbrain, Hwm, Hcsf, Hanat.
  step H u1 Hread1. step H u2 Hread2. step H u3 Hspacing. step H u4 Hwrite.
  apply bindM_ok_inv in H as (hem & log1 & Hhem & H).
  step H pm' Hpm. step H u5 Hedge.
  injection H as <- <-.
  exists mask_dict, brain, wm, csf, anat, hem, pm', log1.
  repeat rewrite <- app_assoc in Hhem. cbn [app] in Hhem.
  split; [reflexivity|].
  repeat (split; [assumption|]).
  split; [rewrite <- app_assoc; reflexivity|].
  repeat split; by simplify_map_eq.
Qed.

(** C8.  [PrepMasks] reads the flattened [mask_dict_list] only through its
    first element ([merged[0]]): two inputs whose flattened lists start
    with the same dictionary (or are both empty), everything else being
    equal, give the same result, the same calls and the same failures,
    whatever the other dictionaries are and however many there are. *)
Theorem prep_masks_first_dict_only
    (w : world) (l1 l2 : list (nested (gmap string string)))
    (prior_maps : string) (DSURQE_regions : bool) (log : list call) :
  head (flatten_list l1) = head (flatten_list l2) ->
  run_interface w l1 prior_maps DSURQE_regions log
  = run_interface w l2 prior_maps DSURQE_regions log.
Proof.
  intros H. unfold run_interface.
  rewrite !index_0_head, H. reflexivity.
Qed.

(** C7.  For a [PrepMasks] run that returns its mask set: the hemisphere
    atlas masks are resampled (a [resample_mask] call is made) if and only
    if [DSURQE_regions] is set; when it is set, both atlas masks of the
    resolved atlas directory are resampled onto the brain mask and the two
    resampled files are the [right_hem_mask] and [left_hem_mask] entries of
    the output; when it is not, both entries are the empty string. *)
Theorem hemisphere_masks_iff_requested
    (w : world) (l : list (nested (gmap string string)))
    (prior_maps : string) (DSURQE_regions : bool)
    (dict : gmap string string) (calls : list call) :
  run_interface w l prior_maps DSURQE_regions [] = (Ok dict, calls) ->
  ((exists a b, ResampleMask a b ∈ calls) <-> DSURQE_regions = true)
  /\ (DSURQE_regions = true ->
      exists mask_dict brain rabies_path right_hem left_hem,
        head (flatten_list l) = Some mask_dict
        /\ mask_dict !! "mask_file" = Some brain
        /\ rabies_path_of (environ w) = Ok rabies_path
        /\ resample_mask w (right_hem_atlas rabies_path) brain = Ok right_hem
        /\ resample_mask w (left_hem_atlas rabies_path) brain = Ok left_hem
        /\ ResampleMask (right_hem_atlas rabies_path) brain ∈ calls
        /\ ResampleMask (left_hem_atlas rabies_path) brain ∈ calls
        /\ dict !! "right_hem_mask" = Some right_hem
        /\ dict !! "left_hem_mask" = Some left_hem)
  /\ (DSURQE_regions = false ->
      dict !! "right_hem_mask" = Some "" /\ dict !! "left_hem_mask" = Some "").
Proof.
  intros H.
  apply run_interface_ok_inv in H
    as (mask_dict & brain & wm & csf & anat & hem & pm' & log1 & Hhead & Hbrain
        & _ & _ & _ & Hhem & _ & -> & Hright & Hleft & _ & _).
  destruct DSURQE_regions.
  - apply hemisphere_masks_on_inv in Hhem
      as (rabies_path & Hpath & Hr & Hl & ->).
    assert (Hin_r : ResampleMask (right_hem_atlas rabies_path) brain
                    ∈ (([] ++ [ReadImage anat; ReadImage brain;
                                ResampleImageSpacing anat brain;
                                WriteImage (abspath w "display_template.nii.gz")])
                       ++ [ResampleMask (right_hem_atlas rabies_path) brain;
                           ResampleMask (left_hem_atlas rabies_path) brain])
                      ++ [ResampleICFile prior_maps brain;
                          ComputeEdgeMask brain (abspath w "edge_mask.nii.gz") 1]).
    { rewrite !elem_of_app, !elem_of_cons. tauto. }
    assert (Hin_l : ResampleMask (left_hem_atlas rabies_path) brain
                    ∈ (([] ++ [ReadImage anat; ReadImage brain;
                                ResampleImageSpacing anat brain;
                                WriteImage (abspath w "display_template.nii.gz")])
                       ++ [ResampleMask (right_hem_atlas rabies_path) brain;
                           ResampleMask (left_hem_atlas rabies_path) brain])
                      ++ [ResampleICFile prior_maps brain;
                          ComputeEdgeMask brain (abspath w "edge_mask.nii.gz") 1]).
    { rewrite !elem_of_app, !elem_of_cons. tauto. }
    split; [|split].
    + split; [reflexivity|]. intros _. eauto.
    + intros _. exists mask_dict, brain, rabies_path, (fst hem), (snd hem).
      repeat (split; [assumption|]). assumption.
    + discriminate.
  - rewrite hemisphere_masks_off in Hhem. injection Hhem as <- <-.
    split; [|split].
    + split; [|discriminate].
      intros (a & b & Hin).
      rewrite !elem_of_app, !elem_of_cons, !elem_of_nil in Hin.
      exfalso. intuition discriminate.
    + discriminate.
    + intros _. split; assumption.
Qed.

(** C7 on a run with the hemisphere masks requested, where every file is
    found: the right atlas mask of the home directory is resampled onto
    the brain mask and the resampled file is the [right_hem_mask] entry. *)
Lemma hemisphere_masks_iff_requested_witness :
  exists dict calls,
    run_interface Samples.complete_world
      [Nested [Item Samples.mask_dict]; Item Samples.other_dict]
      "priors.nii.gz" true [] = (Ok dict, calls)
    /\ ResampleMask
         "/home/user/.local/share/rabies/DSURQE_40micron_right_hem_mask.nii.gz"
         "brain.nii.gz" ∈ calls
    /\ dict !! "right_hem_mask"
       = Some "/home/user/.local/share/rabies/DSURQE_40micron_right_hem_mask.nii.gz_resampled.nii.gz".
Proof.
  destruct (is_ok_inv (run_interface Samples.complete_world
                         [Nested [Item Samples.mask_dict]; Item Samples.other_dict]
                         "priors.nii.gz" true []))
    as (dict & calls & Hr); [vm_compute; reflexivity|].
  exists dict, calls. split; [exact Hr|].
  pose proof (hemisphere_masks_iff_requested _ _ _ _ _ _ Hr) as (_ & Hon & _).
  destruct (Hon eq_refl)
    as (md & brain & rp & rh & lh & Hhead & Hbrain & Hpath & Hrh & _ & Hin & _
        & Hd & _).
  cbn [flatten_list flatten_item map concat app head] in Hhead.
  injection Hhead as <-.
  vm_compute in Hbrain. injection Hbrain as <-.
  vm_compute in Hpath. injection Hpath as <-.
  vm_compute in Hrh. injection Hrh as <-.
  split; [exact Hin | exact Hd].
Defined.



(** C8 on a nested two-scan input and a flat one-scan input that start
    with the same dictionary. *)
Lemma prep_masks_first_dict_only_witness :
  run_interface Samples.complete_world
    [Nested [Item Samples.mask_dict]; Item Samples.other_dict]
    "priors.nii.gz" true []
  = run_interface Samples.complete_world [Item Samples.mask_dict]
      "priors.nii.gz" true [].
Proof.
  apply (prep_masks_first_dict_only Samples.complete_world
           [Nested [Item Samples.mask_dict]; Item Samples.other_dict]
           [Item Samples.mask_dict]).
  reflexivity.
Defined.

End PrepMasksFacts.

(** ** [ScanDiagnosis] *)

Module ScanDiagnosisFacts.

Import ScanDiagnosis.

Lemma traverse_first_raise {A B} (f : A -> result B) pre x post e :
  Forall (fun y => is_ok (f y) = true) pre ->
  f x = Raise e ->
  traverse f (pre ++ x :: post) = Raise e.
Proof.
  intros Hpre Hx. induction Hpre as [|y pre Hy _ IH]; cbn.
  - rewrite Hx. reflexivity.
  - destruct (f y); [|discriminate]. cbn. rewrite IH. reflexivity.
Qed.

Lemma traverse_all_ok {A B} (f : A -> result B) xs :
  Forall (fun y => is_ok (f y) = true) xs ->
  exists ys, traverse f xs = Ok ys /\ Forall2 (fun x y => f x = Ok y) xs ys.
Proof.
  induction 1 as [|x xs Hx _ (ys & IH & Hall)]; cbn.
  - exists []. split; [reflexivity | constructor].
  - destruct (f x) as [y|] eqn:E; [|discriminate]. cbn. rewrite IH. cbn.
    exists (y :: ys). split; [reflexivity|]. constructor; assumption.
Qed.

(** Where the first element that cannot be coerced sits in the two
    lists. *)
Lemma first_raise_split {A} (bold conf pre : list A) x post :
  bold ++ conf = pre ++ x :: post ->
  (exists post', bold = pre ++ x :: post')
  \/ (exists pre', pre = bold ++ pre' /\ conf = pre' ++ x :: post).
Proof.
  revert pre. induction bold as [|b bold IH]; intros pre H.
  - right. exists pre. split; [reflexivity | exact H].
  - destruct pre as [|p pre]; cbn in H.
    + injection H as -> <-. left. exists bold. reflexivity.
    + injection H as -> H. destruct (IH _ H) as [(post' & ->)|(pre' & -> & ->)].
      * left. exists post'. reflexivity.
      * right. exists pre'. split; reflexivity.
Qed.

(** The exception of [int] tells what kind of value it was given. *)
Lemma py_int_raise_class py x e :
  py_int py x = Raise e ->
  ((exists s, x = PyStr s \/ x = PyBytes s)
   /\ (e = invalid_literal py x \/ exists digits, e = too_many_digits py digits))
  \/ (x = PyFloat S754_nan
      /\ e = ValueError "cannot convert float NaN to integer")
  \/ ((x = PyNone \/ x = PyObject) /\ e = TypeError)
  \/ ((exists sign, x = PyFloat (S754_infinity sign)) /\ e = OverflowError).
Proof.
  destruct x as [z|b|f|s|s| |]; cbn; intros H; try discriminate.
  - destruct f as [sg|sg| |sg m ex]; cbn in H; try discriminate.
    + injection H as <-. right. right. right. split; [eauto | reflexivity].
    + injection H as <-. right. left. split; reflexivity.
  - left. split; [eauto|].
    destruct (parse_int py s); cbn in H; [discriminate | | ];
      injection H as <-; eauto.
  - left. split; [eauto|].
    destruct (long_from_string _ s); cbn in H; [discriminate | | ];
      injection H as <-; eauto.
  - injection H as <-. right. right. left. split; [left; reflexivity | reflexivity].
  - injection H as <-. right. right. left. split; [right; reflexivity | reflexivity].
Qed.

(** C6, as the code has it.  Once the seven entries of [file_dict] are
    read, every element of [prior_bold_idx], then of [prior_confound_idx],
    goes through [int] before the lists are used.  The first element that
    [int] refuses ends the run with the exception of [int] itself: the
    [ValueError] of an invalid literal for a string or a bytes object that
    is not an integer literal (or the one of the digit limit, for a
    literal longer than the interpreter reads), another [ValueError] for
    a NaN, a
    [TypeError] for [None] and other non-numeric objects, an
    [OverflowError] for an infinite float.  When [int] accepts every
    element, the rest of the interface runs on the two lists of
    integers. *)
Theorem index_coercion_raises_what_int_raises
    (py : interpreter) {obj out : Type}
    (process_and_plot : list obj -> list Z -> list Z -> result out)
    (file_dict : gmap string obj) (prior_bold_idx prior_confound_idx : list pyval)
    (files : list obj) :
  traverse (getitem file_dict) file_dict_keys = Ok files ->
  (forall pre x post e,
      prior_bold_idx ++ prior_confound_idx = pre ++ x :: post ->
      Forall (fun y => is_ok (py_int py y) = true) pre ->
      py_int py x = Raise e ->
      run_interface py obj out process_and_plot file_dict
        prior_bold_idx prior_confound_idx = Raise e
      /\ (((exists s, x = PyStr s \/ x = PyBytes s)
            /\ (e = invalid_literal py x
                \/ exists digits, e = too_many_digits py digits))
          \/ (x = PyFloat S754_nan
              /\ e = ValueError "cannot convert float NaN to integer")
          \/ ((x = PyNone \/ x = PyObject) /\ e = TypeError)
          \/ ((exists sign, x = PyFloat (S754_infinity sign))
              /\ e = OverflowError)))
  /\ (Forall (fun y => is_ok (py_int py y) = true)
        (prior_bold_idx ++ prior_confound_idx) ->
      exists bold confound,
        Forall2 (fun x z => py_int py x = Ok z) prior_bold_idx bold
        /\ Forall2 (fun x z => py_int py x = Ok z) prior_confound_idx confound
        /\ run_interface py obj out process_and_plot file_dict
             prior_bold_idx prior_confound_idx
           = process_and_plot files bold confound).
Proof.
  intros Hfiles. unfold run_interface. rewrite Hfiles. cbn.
  split.
  - intros pre x post e Hsplit Hpre Hx.
    split; [|apply py_int_raise_class, Hx].
    apply first_raise_split in Hsplit
      as [(post' & ->)|(pre' & -> & ->)].
    + rewrite (traverse_first_raise (py_int py) pre x post' e Hpre Hx).
      reflexivity.
    + apply Forall_app in Hpre as [Hbold Hpre'].
      destruct (traverse_all_ok (py_int py) _ Hbold) as (bold & -> & _). cbn.
      rewrite (traverse_first_raise (py_int py) pre' x post e Hpre' Hx).
      reflexivity.
  - intros Hall. apply Forall_app in Hall as [Hbold Hconf].
    destruct (traverse_all_ok (py_int py) _ Hbold) as (bold & -> & Hb).
    destruct (traverse_all_ok (py_int py) _ Hconf) as (confound & -> & Hc).
    exists bold, confound. repeat split; assumption.
Qed.

(** C6 on a bold list whose second element is the string "1.5", and on
    two well-formed lists. *)
Lemma index_coercion_raises_what_int_raises_witness :
  (run_interface Samples.letters string _ Samples.echo_indices
     Samples.file_dict [PyStr " 12 "; PyStr "1.5"; PyNone] [PyInt 4]
   = Raise (ValueError "invalid literal for int() with base 10: '1.5'"))
  /\ exists bold confound,
       Forall2 (fun x z => py_int Samples.letters x = Ok z)
         [PyStr " 12 "; PyInt 19] bold
       /\ Forall2 (fun x z => py_int Samples.letters x = Ok z)
            [PyStr "4"] confound
       /\ run_interface Samples.letters string _ Samples.echo_indices
            Samples.file_dict [PyStr " 12 "; PyInt 19] [PyStr "4"]
          = Samples.echo_indices
              ["bold.nii.gz"; "CR_data"; "VE.nii.gz"; "STD.nii.gz";
               "CR_STD.nii.gz"; "random_CR_STD.nii.gz";
               "corrected_CR_STD.nii.gz"] bold confound.
Proof.
  split.
  - apply (proj1 (index_coercion_raises_what_int_raises Samples.letters
                    Samples.echo_indices Samples.file_dict
                    [PyStr " 12 "; PyStr "1.5"; PyNone] [PyInt 4] _ eq_refl)
             [PyStr " 12 "] (PyStr "1.5") [PyNone; PyInt 4]).
    + reflexivity.
    + repeat constructor.
    + reflexivity.
  - apply (proj2 (index_coercion_raises_what_int_raises Samples.letters
                    Samples.echo_indices Samples.file_dict
                    [PyStr " 12 "; PyInt 19] [PyStr "4"] _ eq_refl)).
    repeat constructor.
Defined.

(** C6 as stated fails: [None] in [prior_bold_idx] cannot be coerced, and
    the run ends with a [TypeError], which is not a [ValueError]. *)
Lemma malformed_index_not_value_error :
  is_ok (py_int Samples.letters PyNone) = false
  /\ run_interface Samples.letters string _ Samples.echo_indices
       Samples.file_dict [PyInt 3; PyNone] [PyStr "5"] = Raise TypeError
  /\ ~ (exists msg,
          run_interface Samples.letters string _ Samples.echo_indices
            Samples.file_dict [PyInt 3; PyNone] [PyStr "5"]
          = Raise (ValueError msg)).
Proof.
  split; [reflexivity|]. split; [reflexivity|].
  intros (msg & H). vm_compute in H. discriminate H.
Qed.

End ScanDiagnosisFacts.

(** ** [DatasetDiagnosis] *)

Module DatasetDiagnosisFacts.

Import ScanDiagnosis DatasetDiagnosis.

(** *** What a run leaves behind *)

Lemma no_new_call_refl files : no_new_call files files.
Proof. intros path a c H _. exact H. Qed.

Lemma no_new_call_directory files files' path :
  no_new_call files files' ->
  no_new_call files (<[path := Directory]> files').
Proof.
  intros H p a c Hlook Hcall.
  destruct (decide (path = p)) as [->|Hne].
  - rewrite lookup_insert_eq in Hlook. injection Hlook as <-. discriminate.
  - rewrite lookup_insert_ne in Hlook by exact Hne. eapply H; eassumption.
Qed.

Lemma no_new_call_makedirs files files' path :
  no_new_call files files' ->
  no_new_call files (snd (makedirs path files')).
Proof.
  intros H. unfold makedirs.
  destruct (files' !! path) as [[]|]; cbn; try exact H.
  apply no_new_call_directory, H.
Qed.

(** No run returns, and no run makes an [analysis_QC] call: below three
    records the gate raises, and from three records on the run stops in
    the scan loop or at line 220. *)
Lemma run_interface_makes_no_call
    (e : env) (scan_data_list : list (nested scan_data))
    (mask_file_dict : gmap string string) (seed_prior_maps : list string)
    (files : gmap string artifact) :
  is_ok (fst (run_interface e scan_data_list mask_file_dict seed_prior_maps
                files)) = false
  /\ no_new_call files
       (snd (run_interface e scan_data_list mask_file_dict seed_prior_maps
               files)).
Proof.
  unfold run_interface.
  destruct (length (flatten_list scan_data_list) <? 3)%nat;
    [split; [reflexivity | apply no_new_call_refl]|].
  unfold Py.bindM.
  pose proof (no_new_call_makedirs files files (abspath e "analysis_QC")
                (no_new_call_refl files)) as H1.
  destruct (makedirs (abspath e "analysis_QC") files) as [[[]|?] files1];
    [|split; [reflexivity | exact H1]].
  cbn [snd] in H1.
  pose proof (no_new_call_makedirs files files1
                (abspath e "analysis_QC" +:+ "/analysis_QC_corrected_CR") H1)
    as H2.
  destruct (makedirs _ files1) as [[[]|?] files2];
    [|split; [reflexivity | exact H2]].
  cbn [snd] in H2. unfold lift.
  destruct (getitem mask_file_dict "template_file");
    [|split; [reflexivity | exact H2]].
  destruct (getitem mask_file_dict "brain_mask");
    [|split; [reflexivity | exact H2]].
  destruct (read_mask e _); [|split; [reflexivity | exact H2]].
  destruct (traverse read_scan _); split; (reflexivity || exact H2).
Qed.

(** *** The sample-size gate *)

(** C2, as the code has it.  On fewer than three scan records the run
    raises a [ValueError] carrying the sample-size message, and the
    statistics are not attempted: no [analysis_QC] call is made. *)
Theorem fewer_than_three_scans_raise_value_error
    (e : env) (scan_data_list : list (nested scan_data))
    (mask_file_dict : gmap string string) (seed_prior_maps : list string)
    (files : gmap string artifact) :
  length (flatten_list scan_data_list) < 3 ->
  fst (run_interface e scan_data_list mask_file_dict seed_prior_maps files)
  = Raise (ValueError sample_size_message)
  /\ no_new_call files
       (snd (run_interface e scan_data_list mask_file_dict seed_prior_maps
               files)).
Proof.
  intros H. split; [|apply run_interface_makes_no_call].
  unfold run_interface. apply Nat.ltb_lt in H. rewrite H. reflexivity.
Qed.

(** C2 on two scans and an empty store. *)
Lemma fewer_than_three_scans_raise_value_error_witness :
  fst (run_interface Samples.qc_env Samples.two_scans Samples.mask_file_dict
         [] ∅)
  = Raise (ValueError sample_size_message)
  /\ no_new_call ∅
       (snd (run_interface Samples.qc_env Samples.two_scans
               Samples.mask_file_dict [] ∅)).
Proof.
  apply (fewer_than_three_scans_raise_value_error
           Samples.qc_env Samples.two_scans Samples.mask_file_dict [] ∅).
  simpl. lia.
Defined.

(** C2 as stated fails: on two scans the exception is not of a class
    [InsufficientSampleError], and the run does not return a result. *)
Lemma two_scans_not_insufficient_sample_error :
  ~ (exists err,
       fst (run_interface Samples.qc_env Samples.two_scans
              Samples.mask_file_dict [] ∅) = Raise err
       /\ exn_class err = "InsufficientSampleError")
  /\ is_ok (fst (run_interface Samples.qc_env Samples.two_scans
                   Samples.mask_file_dict [] ∅)) = false.
Proof.
  split; [|reflexivity].
  intros (err & Hrun & Hclass).
  vm_compute in Hrun. injection Hrun as <-.
  vm_compute in Hclass. discriminate Hclass.
Qed.

(** *** The voxel selection *)

Lemma zip_with_add_nth (acc : list Z) (row : list Z) j a b :
  nth_error acc j = Some a -> nth_error row j = Some b ->
  nth_error (zip_with Z.add acc row) j = Some (a + b)%Z.
Proof.
  revert row j. induction acc as [|x acc IH]; intros [|y row] [|j] Ha Hb;
    cbn in *; try discriminate.
  - congruence.
  - apply IH; assumption.
Qed.

Lemma zip_with_add_length (acc row : list Z) :
  length acc = length row -> length (zip_with Z.add acc row) = length acc.
Proof.
  revert row. induction acc as [|x acc IH]; intros [|y row] H;
    cbn in *; try discriminate; [reflexivity|].
  f_equal. apply IH. lia.
Qed.

Lemma nth_error_bools (row : list bool) j :
  j < length row ->
  nth_error (map Z_of_bool row) j = Some (Z_of_bool (nth j row false)).
Proof.
  intros H. rewrite nth_error_map.
  rewrite (nth_error_nth' row false H). reflexivity.
Qed.

Lemma fold_columns (rs : list (list bool)) : forall (acc : list Z) V,
  length acc = V ->
  Forall (fun r => length r = V) rs ->
  length (fold_left (fun acc row => zip_with Z.add acc (map Z_of_bool row))
            rs acc) = V
  /\ forall j a, nth_error acc j = Some a ->
       nth_error (fold_left (fun acc row => zip_with Z.add acc (map Z_of_bool row))
                    rs acc) j
       = Some (a + count_at j rs)%Z.
Proof.
  induction rs as [|r rs IH]; intros acc V Hacc Hall; cbn.
  - split; [exact Hacc|]. intros j a Ha. rewrite Z.add_0_r. exact Ha.
  - apply Forall_cons in Hall as [Hr Hrs].
    assert (Hlen : length (zip_with Z.add acc (map Z_of_bool r)) = V).
    { rewrite zip_with_add_length; [exact Hacc|].
      rewrite length_map. congruence. }
    destruct (IH _ V Hlen Hrs) as [IHlen IHnth].
    split; [exact IHlen|].
    intros j a Ha.
    assert (Hj : j < length r).
    { rewrite Hr, <- Hacc. apply nth_error_Some. congruence. }
    rewrite (IHnth j (a + Z_of_bool (nth j r false))%Z).
    + f_equal. unfold count_at. cbn. lia.
    + apply zip_with_add_nth; [exact Ha|]. apply nth_error_bools, Hj.
Qed.

Lemma column_sums_length (rows : list (list bool)) V :
  rows <> [] -> Forall (fun r => length r = V) rows ->
  length (column_sums rows) = V.
Proof.
  intros Hne Hall. destruct rows as [|r rs]; [congruence|].
  apply Forall_cons in Hall as [Hr Hrs]. cbn.
  apply (fold_columns rs (map Z_of_bool r) V);
    [rewrite length_map; exact Hr | exact Hrs].
Qed.

Lemma column_sums_nth (rows : list (list bool)) V j :
  rows <> [] -> Forall (fun r => length r = V) rows -> j < V ->
  length (column_sums rows) = V
  /\ nth_error (column_sums rows) j = Some (count_at j rows).
Proof.
  intros Hne Hall Hj. destruct rows as [|r rs]; [congruence|].
  apply Forall_cons in Hall as [Hr Hrs]. cbn.
  destruct (fold_columns rs (map Z_of_bool r) V) as [Hlen Hnth];
    [rewrite length_map; exact Hr | exact Hrs |].
  split; [exact Hlen|].
  apply Hnth, nth_error_bools. lia.
Qed.

Lemma count_at_zero j (rows : list (list bool)) :
  (0 <= count_at j rows)%Z
  /\ ((count_at j rows =? 0)%Z = forallb (fun r => negb (nth j r false)) rows).
Proof.
  induction rows as [|r rows [IH0 IH]]; [split; [cbn; lia | reflexivity]|].
  change (count_at j (r :: rows))
    with (Z_of_bool (nth j r false) + count_at j rows)%Z.
  cbn [forallb].
  destruct (nth j r false); cbn [Z_of_bool negb andb].
  - split; [lia|]. apply Z.eqb_neq. lia.
  - split; [lia | exact IH].
Qed.

(** What line 220 selects when [std_maps] is an array of [V] voxels per
    scan: voxel [j] is kept exactly when no scan is zero there. *)
Lemma ndarray_selection_is_intersection (rows : list (list spec_float)) V :
  rows <> [] -> Forall (fun r => length r = V) rows ->
  exists mask,
    non_zero_voxels_of (NdArray rows) = Ok mask
    /\ length mask = V
    /\ forall j, j < V ->
         nth_error mask j = Some (nonzero_in_every_scan j rows).
Proof.
  intros Hne Hall. unfold non_zero_voxels_of. cbn.
  eexists. split; [reflexivity|].
  assert (Hne' : map (map is_zero) rows <> []) by (destruct rows; [congruence | discriminate]).
  assert (Hall' : Forall (fun r => length r = V) (map (map is_zero) rows)).
  { clear Hne Hne'. induction Hall as [|r rs Hr _ IH]; cbn; constructor;
      [rewrite length_map; exact Hr | exact IH]. }
  split.
  - unfold astype_bool. rewrite !length_map.
    apply column_sums_length; assumption.
  - intros j Hj.
    destruct (column_sums_nth _ V j Hne' Hall' Hj) as [_ Hnth].
    unfold astype_bool. rewrite !nth_error_map, Hnth. cbn.
    rewrite negb_involutive.
    rewrite (proj2 (count_at_zero j _)).
    unfold nonzero_in_every_scan. f_equal.
    clear. induction rows as [|r rows IH]; cbn; [reflexivity|].
    rewrite IH. f_equal. f_equal.
    rewrite <- (map_nth is_zero). reflexivity.
Qed.

(** On arrays the selection is monotone: a further scan can only remove
    voxels, and removes every voxel where it is zero. *)
Lemma ndarray_selection_monotone (rows : list (list spec_float)) row j :
  nonzero_in_every_scan j (rows ++ [row])
  = nonzero_in_every_scan j rows && negb (is_zero (nth j row S754_nan)).
Proof.
  unfold nonzero_in_every_scan. rewrite forallb_app. cbn.
  rewrite andb_true_r. reflexivity.
Qed.

(** On the list that the scan loop fills, the comparison of line 220 is
    the plain [False], which has no [sum]: the selection raises whatever
    the maps are. *)
Lemma list_selection_raises (items : list (list spec_float)) :
  non_zero_voxels_of (PyList items) = Raise AttributeError.
Proof. reflexivity. Qed.

(** So a run on three scan records or more never returns. *)
Lemma three_or_more_scans_never_return
    (e : env) (scan_data_list : list (nested scan_data))
    (mask_file_dict : gmap string string) (seed_prior_maps : list string)
    (files : gmap string artifact) :
  3 <= length (flatten_list scan_data_list) ->
  is_ok (fst (run_interface e scan_data_list mask_file_dict seed_prior_maps
                files)) = false.
Proof. intros _. apply run_interface_makes_no_call. Qed.

(** C1 on three scans of two voxels, the second scan being zero at the
    second voxel.  The selection the claim describes is what the
    expression of line 220 gives on the array of the three maps (the first
    voxel is kept, the second is not); on the list that the code passes to
    it the expression raises an [AttributeError], and so does the run. *)
Theorem voxel_selection_raises_on_scan_list :
  let std_maps := [[Samples.one; Samples.one]; [Samples.one; Samples.zero];
                   [Samples.two; Samples.one]] in
  map temporal_std (flatten_list Samples.three_scans) = map Some std_maps
  /\ non_zero_voxels_of (NdArray std_maps) = Ok [true; false]
  /\ non_zero_voxels_of (PyList std_maps) = Raise AttributeError
  /\ fst (run_interface Samples.qc_env Samples.three_scans
            Samples.mask_file_dict [] ∅) = Raise AttributeError.
Proof. repeat split; vm_compute; reflexivity. Qed.

(** What the steps after the selection write for the three sample scans
    once they are given the selection of the array: the mask, and for the
    one prior network a figure and a table per map kind, in each of the
    two output directories. *)
Lemma stage_after_selection_writes_results :
  exists rows,
    traverse read_scan (flatten_list Samples.three_scans) = Ok rows
    /\ let r := qc_stage Samples.qc_env [] "/work/display_template.nii.gz"
                  "brain.nii.gz" (flatten_list Samples.three_scans) rows
                  [true; false] "/work/analysis_QC"
                  "/work/analysis_QC/analysis_QC_corrected_CR" ∅ in
       fst r = Ok "/work/analysis_QC"
       /\ snd r = Samples.after_selection (flatten_list Samples.three_scans)
                    [true; false]
       /\ snd r !! "/work/non_zero_mask.nii.gz"
          = Some (MaskImage "brain.nii.gz" [true; false])
       /\ Forall (fun path => is_Some (call_at (snd r) path))
            ["/work/analysis_QC/DR0_QC_maps.png";
             "/work/analysis_QC/DR0_QC_stats.csv";
             "/work/analysis_QC/NPR0_QC_maps.png";
             "/work/analysis_QC/NPR0_QC_stats.csv";
             "/work/analysis_QC/analysis_QC_corrected_CR/DR0_QC_maps.png";
             "/work/analysis_QC/analysis_QC_corrected_CR/DR0_QC_stats.csv";
             "/work/analysis_QC/analysis_QC_corrected_CR/NPR0_QC_maps.png";
             "/work/analysis_QC/analysis_QC_corrected_CR/NPR0_QC_stats.csv"].
Proof.
  eexists. split; [vm_compute; reflexivity|].
  split; [vm_compute; reflexivity|]. split; [reflexivity|].
  split; [vm_compute; reflexivity|].
  repeat constructor; vm_compute; eauto.
Qed.

(** C3 on the same three scans, which are valid records with one prior
    network.  The run stops at line 220 with an [AttributeError]: the two
    output directories are all it leaves, with no mask image, no figure
    and no table. *)
Theorem three_scans_leave_no_result :
  let r := run_interface Samples.qc_env Samples.three_scans
             Samples.mask_file_dict [] ∅ in
  fst r = Raise AttributeError
  /\ snd r
     = <["/work/analysis_QC/analysis_QC_corrected_CR" := Directory]>
         (<["/work/analysis_QC" := Directory]> ∅)
  /\ snd r !! "/work/non_zero_mask.nii.gz" = None
  /\ snd r !! maps_png "/work/analysis_QC" DR 0 = None
  /\ snd r !! stats_csv "/work/analysis_QC" DR 0 = None.
Proof. repeat split; vm_compute; reflexivity. Qed.

(** *** The tDOF covariate *)

(** C4 on the same three scans, whose tDOF are 3, 3 and 4.  Given the
    selection of the array, lines 234 to 238 hand tDOF to [analysis_QC]
    as the last covariate, named "tDOF" (and hand none for scans whose
    tDOF is 3 throughout); but the run stops at line 220 before them: no
    [analysis_QC] call is made, so tDOF is a covariate of none although
    it varies. *)
Theorem tdof_never_becomes_a_covariate :
  let merged := flatten_list Samples.three_scans in
  let intended := Samples.after_selection merged [true; false] in
  let r := run_interface Samples.qc_env Samples.three_scans
             Samples.mask_file_dict [] ∅ in
  map tDOF merged = [Some (PyInt 3); Some (PyInt 3); Some (PyInt 4)]
  /\ (call_at intended "/work/analysis_QC/DR0_QC_maps.png"
        ≫= fun c => last (corr_variable c))
     = Some (PerScan [PyInt 3; PyInt 3; PyInt 4])
  /\ variable_name <$> call_at intended "/work/analysis_QC/DR0_QC_maps.png"
     = Some (names_uncorrected ++ ["tDOF"])
  /\ variable_name
       <$> call_at (Samples.after_selection Samples.priors_last_differs
                      [true; true])
             "/work/analysis_QC/DR0_QC_maps.png"
     = Some names_uncorrected
  /\ fst r = Raise AttributeError
  /\ calls_satisfy (fun _ => False) (snd r).
Proof.
  cbv zeta.
  do 5 (split; [vm_compute; reflexivity|]).
  intros path a c Hlook Hcall.
  pose proof (proj2 (run_interface_makes_no_call Samples.qc_env
                       Samples.three_scans Samples.mask_file_dict [] ∅)
                path a c Hlook Hcall) as H.
  rewrite lookup_empty in H. discriminate H.
Qed.

(** *** The prior maps of the comparison *)

Lemma read_scan_complete (scan : scan_data) :
  missing_key scan = None -> is_ok (read_scan scan) = true.
Proof.
  unfold missing_key, held_keys, read_scan.
  destruct scan as [[a|] [b|] [c|] [d|] [dr|] [npr|] [t|] [s|] pm]; cbn;
    first [discriminate | reflexivity].
Qed.

Lemma read_scan_missing (scan : scan_data) (key : string) :
  missing_key scan = Some key -> read_scan scan = Raise (KeyError key).
Proof.
  unfold missing_key, held_keys, read_scan.
  destruct scan as [[a|] [b|] [c|] [d|] [dr|] [npr|] [t|] [s|] pm]; cbn;
    intros H; first [discriminate H | injection H as <-; reflexivity].
Qed.

Lemma scan_loop_complete (merged : list scan_data) :
  Forall (fun scan => missing_key scan = None) merged ->
  exists rows, traverse read_scan merged = Ok rows.
Proof.
  intros H.
  destruct (ScanDiagnosisFacts.traverse_all_ok read_scan merged)
    as (rows & Hrows & _); [|eauto].
  eapply Forall_impl; [exact H|]. intros scan. apply read_scan_complete.
Qed.

(** From three records on, the outcome of a run whose scan loop ends is
    that of the steps before the loop followed by the [AttributeError] of
    line 220: the records have no part in it. *)
Lemma run_interface_after_scan_loop
    (e : env) (scan_data_list : list (nested scan_data))
    (mask_file_dict : gmap string string) (seed_prior_maps : list string)
    (files : gmap string artifact) (rows : list scan_row) :
  3 <= length (flatten_list scan_data_list) ->
  traverse read_scan (flatten_list scan_data_list) = Ok rows ->
  run_interface e scan_data_list mask_file_dict seed_prior_maps files
  = (let* _ := makedirs (abspath e "analysis_QC") in
     let* _ := makedirs (abspath e "analysis_QC"
                         +:+ "/analysis_QC_corrected_CR") in
     let* _ := lift (getitem mask_file_dict "template_file") in
     let* mask_file := lift (getitem mask_file_dict "brain_mask") in
     let* _ := lift (read_mask e mask_file) in
     raise AttributeError) files.
Proof.
  intros Hlen Hrows. unfold run_interface.
  destruct (Nat.ltb_spec (length (flatten_list scan_data_list)) 3); [lia|].
  unfold Py.bindM.
  destruct (makedirs _ files) as [[[]|?] files1]; [|reflexivity].
  destruct (makedirs _ files1) as [[[]|?] files2]; [|reflexivity].
  unfold lift, raise.
  destruct (getitem mask_file_dict "template_file"); [|reflexivity].
  destruct (getitem mask_file_dict "brain_mask"); [|reflexivity].
  destruct (read_mask e _); [|reflexivity].
  rewrite Hrows. reflexivity.
Qed.

(** So two inputs of three records or more that hold the eight keys of
    the scan loop have the same outcome, whatever their records carry and
    in whatever order the records come. *)
Lemma run_interface_ignores_the_records
    (e : env) (first_list second_list : list (nested scan_data))
    (mask_file_dict : gmap string string) (seed_prior_maps : list string)
    (files : gmap string artifact) :
  3 <= length (flatten_list first_list) ->
  3 <= length (flatten_list second_list) ->
  Forall (fun scan => missing_key scan = None) (flatten_list first_list) ->
  Forall (fun scan => missing_key scan = None) (flatten_list second_list) ->
  run_interface e first_list mask_file_dict seed_prior_maps files
  = run_interface e second_list mask_file_dict seed_prior_maps files.
Proof.
  intros Hlen1 Hlen2 Hall1 Hall2.
  destruct (scan_loop_complete _ Hall1) as [rows1 Hrows1].
  destruct (scan_loop_complete _ Hall2) as [rows2 Hrows2].
  rewrite (run_interface_after_scan_loop e first_list _ _ _ rows1 Hlen1 Hrows1).
  rewrite (run_interface_after_scan_loop e second_list _ _ _ rows2 Hlen2 Hrows2).
  reflexivity.
Qed.

(** C9 on three scans that differ only in their prior maps, in two
    orders.  Given the selection of the array, lines 240 and 241 compare
    the maps of the first network with the prior map of the record that
    comes last, which differs between the two orders; but both runs stop
    at line 220 before them and end alike: no prior map is read, and the
    order of the records changes nothing. *)
Theorem prior_maps_are_never_read :
  let left_behind : gmap string artifact :=
    <["/work/analysis_QC/analysis_QC_corrected_CR" := Directory]>
      (<["/work/analysis_QC" := Directory]> ∅) in
  Samples.priors_first_differs ≡ₚ Samples.priors_last_differs
  /\ prior_map
       <$> call_at (Samples.after_selection Samples.priors_last_differs
                      [true; true])
             "/work/analysis_QC/DR0_QC_maps.png"
     = Some [Samples.two; Samples.two]
  /\ prior_map
       <$> call_at (Samples.after_selection Samples.priors_first_differs
                      [true; true])
             "/work/analysis_QC/DR0_QC_maps.png"
     = Some [Samples.one; Samples.two]
  /\ run_interface Samples.qc_env (map Item Samples.priors_last_differs)
       Samples.mask_file_dict [] ∅
     = (Raise AttributeError, left_behind)
  /\ run_interface Samples.qc_env (map Item Samples.priors_first_differs)
       Samples.mask_file_dict [] ∅
     = (Raise AttributeError, left_behind).
Proof.
  cbv zeta. split.
  { unfold Samples.priors_first_differs, Samples.priors_last_differs.
    apply Permutation_cons_append. }
  do 2 (split; [vm_compute; reflexivity|]).
  split.
  - rewrite (run_interface_after_scan_loop Samples.qc_env
               (map Item Samples.priors_last_differs) Samples.mask_file_dict
               [] ∅ _ ltac:(cbn; lia) eq_refl).
    reflexivity.
  - rewrite (run_interface_after_scan_loop Samples.qc_env
               (map Item Samples.priors_first_differs) Samples.mask_file_dict
               [] ∅ _ ltac:(cbn; lia) eq_refl).
    reflexivity.
Qed.

End DatasetDiagnosisFacts.

(** ** Strings and paths *)

Module TextFacts.

Import Text.

Lemma append_cons c (a b : string) : String c a +:+ b = String c (a +:+ b).
Proof. reflexivity. Qed.

Lemma append_nil (b : string) : EmptyString +:+ b = b.
Proof. reflexivity. Qed.

Lemma append_assoc (a b c : string) : (a +:+ b) +:+ c = a +:+ (b +:+ c).
Proof.
  induction a as [|x a IH]; [reflexivity|].
  rewrite !append_cons, IH. reflexivity.
Qed.

Lemma prefix_append (sep r : string) : String.prefix sep (sep +:+ r) = true.
Proof.
  induction sep as [|c sep IH]; [destruct r; reflexivity|].
  rewrite append_cons. cbn [String.prefix].
  destruct (ascii_dec c c); [exact IH | congruence].
Qed.

Lemma prefix_other_head c0 sep' c r :
  c <> c0 -> String.prefix (String c0 sep') (String c r) = false.
Proof. intros H. cbn. destruct (ascii_dec c0 c); [congruence | reflexivity]. Qed.

Lemma split_go_nonempty sep : forall s skip, split_go sep skip s <> [].
Proof.
  induction s as [|c s IH]; intros skip; cbn [split_go]; [discriminate|].
  destruct skip; [|apply IH].
  destruct (String.prefix sep (String c s)); [discriminate|].
  destruct (split_go sep 0 s); discriminate.
Qed.

(** A character that cannot start the separator joins the current
    part. *)
Lemma split_go_step c0 sep' c r :
  String.prefix (String c0 sep') (String c r) = false ->
  exists part parts,
    split_go (String c0 sep') 0 r = part :: parts
    /\ split_go (String c0 sep') 0 (String c r) = String c part :: parts.
Proof.
  intros H. cbn [split_go]. rewrite H.
  destruct (split_go (String c0 sep') 0 r) as [|part parts] eqn:E.
  - exfalso. exact (split_go_nonempty _ _ _ E).
  - exists part, parts. split; reflexivity.
Qed.

Lemma split_go_pass c0 sep' (a r : string) :
  lacks c0 a = true ->
  exists part parts,
    split_go (String c0 sep') 0 r = part :: parts
    /\ split_go (String c0 sep') 0 (a +:+ r) = (a +:+ part) :: parts.
Proof.
  induction a as [|c a IH]; cbn [lacks]; rewrite ?append_cons, ?append_nil;
    intros H.
  - destruct (split_go (String c0 sep') 0 r) as [|part parts] eqn:E.
    + exfalso. exact (split_go_nonempty _ _ _ E).
    + exists part, parts. split; reflexivity.
  - apply andb_prop in H as [Hc Ha].
    destruct (IH Ha) as (part & parts & Hr & Har).
    destruct (split_go_step c0 sep' c (a +:+ r)) as (part' & parts' & H1 & H2).
    { apply prefix_other_head. intros ->.
      rewrite Ascii.eqb_refl in Hc. discriminate. }
    rewrite Har in H1. injection H1 as <- <-.
    exists part, parts. split; [exact Hr | exact H2].
Qed.

Lemma split_go_skip sep (t r : string) :
  split_go sep (String.length t) (t +:+ r) = split_go sep 0 r.
Proof.
  induction t as [|c t IH]; [reflexivity|].
  rewrite append_cons. cbn [String.length split_go]. exact IH.
Qed.

Lemma split_go_match c0 sep' (r : string) :
  split_go (String c0 sep') 0 (String c0 sep' +:+ r)
  = EmptyString :: split_go (String c0 sep') 0 r.
Proof.
  rewrite append_cons. cbn [split_go].
  rewrite <- append_cons, prefix_append.
  replace (String.length (String c0 sep') - 1) with (String.length sep')
    by (cbn [String.length]; lia).
  rewrite split_go_skip. reflexivity.
Qed.

(** The part before the first separator, when nothing before it can start
    one. *)
Lemma split_at_separator c0 sep' (a r : string) :
  lacks c0 a = true ->
  split (String c0 sep') (a +:+ String c0 sep' +:+ r)
  = a :: split (String c0 sep') r.
Proof.
  intros Ha. unfold split.
  destruct (split_go_pass c0 sep' a (String c0 sep' +:+ r) Ha)
    as (part & parts & H1 & H2).
  rewrite split_go_match in H1. injection H1 as <- <-.
  rewrite H2. f_equal.
  clear. induction a as [|c a IH]; [reflexivity|].
  rewrite append_cons, IH. reflexivity.
Qed.

Lemma split_without_separator sep (s : string) :
  occurs sep s = false -> split sep s = [s].
Proof.
  unfold split. induction s as [|c s IH]; cbn [occurs split_go]; intros H;
    [reflexivity|].
  apply orb_false_elim in H as [Hp Ho].
  rewrite Hp, (IH Ho). reflexivity.
Qed.

Lemma has_slash_lacks (s : string) : has_slash s = negb (lacks "/" s).
Proof.
  induction s as [|c s IH]; cbn; [reflexivity|].
  rewrite IH. destruct (Ascii.eqb c "/"); reflexivity.
Qed.

Lemma basename_plain (s : string) : lacks "/" s = true -> basename s = s.
Proof.
  destruct s as [|c s]; cbn; [reflexivity|]. intros H.
  apply andb_prop in H as [Hc Hs].
  rewrite has_slash_lacks, Hs. cbn.
  destruct (Ascii.eqb c "/"); [discriminate | reflexivity].
Qed.

Lemma basename_join (dir base : string) :
  lacks "/" base = true -> basename (dir +:+ "/" +:+ base) = base.
Proof.
  intros H. induction dir as [|c dir IH].
  - rewrite append_nil, append_cons, append_nil. cbn [basename].
    rewrite has_slash_lacks, H. reflexivity.
  - rewrite append_cons. cbn [basename].
    assert (Hs : has_slash (dir +:+ "/" +:+ base) = true).
    { clear. induction dir as [|d dir IH]; [reflexivity|].
      rewrite append_cons. cbn [has_slash]. rewrite IH. apply orb_true_r. }
    rewrite Hs. exact IH.
Qed.

(** X1.  For a file whose base name is
    [<sub>_ses-<session>_run-<run><rest>], with no underscore inside the
    subject and session labels, the name given to the outputs is made of
    the subject, the first character of the session label and the first
    character of the run label: the other characters of the two labels
    and the rest of the name do not reach it. *)
Theorem filename_template_of_bids_name
    (path sub session_tail rest : string) (c1 c2 : ascii) :
  basename path
  = sub +:+ "_ses-" +:+ String c1 session_tail +:+ "_run-" +:+ String c2 rest ->
  lacks "_" sub = true ->
  lacks "_" (String c1 session_tail) = true ->
  c2 <> "_"%char ->
  filename_template path
  = Ok (sub +:+ "_ses-" +:+ String c1 EmptyString
          +:+ "_run-" +:+ String c2 EmptyString).
Proof.
  intros Hbase Hsub Hses Hc2. unfold filename_template. rewrite Hbase.
  assert (Hc1 : c1 <> "_"%char).
  { intros ->. cbn in Hses. discriminate. }
  (* the split on "_ses-" *)
  assert (Hs : exists p1 ps1,
             split "_ses-"
               (sub +:+ "_ses-" +:+ String c1 session_tail +:+ "_run-"
                +:+ String c2 rest)
             = sub :: String c1 p1 :: ps1).
  { rewrite (split_at_separator "_" "ses-" sub _ Hsub).
    destruct (split_go_step "_" "ses-" c1
                (session_tail +:+ "_run-" +:+ String c2 rest))
      as (p1 & ps1 & _ & Hsplit1); [apply prefix_other_head, Hc1|].
    exists p1, ps1. unfold split. rewrite append_cons, Hsplit1. reflexivity. }
  (* the split on "_run-" *)
  assert (Hr : exists before p2 ps2,
             split "_run-"
               (sub +:+ "_ses-" +:+ String c1 session_tail +:+ "_run-"
                +:+ String c2 rest)
             = before :: String c2 p2 :: ps2).
  { destruct (split_go_step "_" "run-" c2 rest)
      as (p2 & ps2 & _ & Hsplit2); [apply prefix_other_head, Hc2|].
    destruct (split_go_pass "_" "run-" ("ses-" +:+ String c1 session_tail)
                ("_run-" +:+ String c2 rest))
      as (p3 & ps3 & Hin3 & Hsplit3).
    { cbn [lacks] in Hses |- *. exact Hses. }
    rewrite split_go_match, Hsplit2 in Hin3. injection Hin3 as <- <-.
    destruct (split_go_pass "_" "run-" sub
                ("_ses-" +:+ String c1 session_tail +:+ "_run-"
                 +:+ String c2 rest) Hsub)
      as (p4 & ps4 & Hin4 & Hsplit4).
    assert (Hstep : split_go "_run-" 0
                      ("_ses-" +:+ String c1 session_tail +:+ "_run-"
                       +:+ String c2 rest)
                    = String "_" (("ses-" +:+ String c1 session_tail) +:+ "")
                        :: String c2 p2 :: ps2).
    { change ("_ses-" +:+ String c1 session_tail +:+ "_run-" +:+ String c2 rest)
        with (String "_" ("ses-" +:+ String c1 session_tail +:+ "_run-"
                          +:+ String c2 rest)).
      cbn [split_go].
      replace (String.prefix "_run-"
                 (String "_" ("ses-" +:+ String c1 session_tail +:+ "_run-"
                              +:+ String c2 rest))) with false by reflexivity.
      rewrite <- (append_assoc "ses-" (String c1 session_tail)), Hsplit3.
      reflexivity. }
    rewrite Hstep in Hin4. injection Hin4 as <- <-.
    eexists _, p2, ps2. unfold split. exact Hsplit4. }
  destruct Hs as (p1 & ps1 & ->). destruct Hr as (before & p2 & ps2 & ->).
  reflexivity.
Qed.

(** X1 on a session label of two characters and a run label of one. *)
Lemma filename_template_of_bids_name_witness :
  filename_template "/data/sub-01_ses-12_run-3_bold.nii.gz"
  = Ok "sub-01_ses-1_run-3".
Proof.
  apply (filename_template_of_bids_name
           "/data/sub-01_ses-12_run-3_bold.nii.gz" "sub-01" "2"
           "_bold.nii.gz" "1" "3");
    [reflexivity | reflexivity | reflexivity | discriminate].
Defined.

Lemma index_raises_index_error {A} (l : list A) i e :
  index l i = Raise e -> e = IndexError.
Proof. unfold index. destruct (nth_error l i); congruence. Qed.

(** X2.  A file whose base name has no [_ses-] field, or no [_run-]
    field, gets no name: the parse fails with an [IndexError]. *)
Theorem filename_template_needs_both_fields (path : string) :
  occurs "_ses-" (basename path) = false
  \/ occurs "_run-" (basename path) = false ->
  filename_template path = Raise IndexError.
Proof.
  intros H. unfold filename_template.
  destruct H as [H|H].
  - rewrite (split_without_separator _ _ H). reflexivity.
  - rewrite (split_without_separator "_run-" _ H).
    destruct (index (split "_ses-" (basename path)) 0) as [sub|e] eqn:E0; cbn.
    2: { apply index_raises_index_error in E0. congruence. }
    destruct (index (split "_ses-" (basename path)) 1) as [after|e] eqn:E1; cbn.
    2: { apply index_raises_index_error in E1. congruence. }
    destruct after; reflexivity.
Qed.

(** X2 on a name with a session and no run. *)
Lemma filename_template_needs_both_fields_witness :
  filename_template "/data/sub-01_ses-1_bold.nii.gz" = Raise IndexError.
Proof.
  apply filename_template_needs_both_fields. right. reflexivity.
Defined.

End TextFacts.

(** ** [Merge] *)

Module MergeFacts.

Import Merge.

Lemma fill_traverse {V} (w : world V) slot files : forall i,
  fill w slot files i
  = match traverse (read_volume w slot) files with
    | Ok vs => Ok (vs, i + length files)
    | Raise e => Raise e
    end.
Proof.
  induction files as [|f files IH]; intros i; cbn.
  - rewrite Nat.add_0_r. reflexivity.
  - destruct (read_volume w slot f) as [v|e]; cbn; [|reflexivity].
    rewrite IH. destruct (traverse (read_volume w slot) files); cbn;
      [|reflexivity].
    do 2 f_equal. lia.
Qed.

Lemma traverse_length {A B} (f : A -> result B) xs ys :
  traverse f xs = Ok ys -> length ys = length xs.
Proof.
  revert ys. induction xs as [|x xs IH]; cbn; intros ys H.
  - injection H as <-. reflexivity.
  - destruct (f x); [|discriminate]. cbn in H.
    destruct (traverse f xs) as [ys'|]; [|discriminate]. cbn in H.
    injection H as <-. cbn. f_equal. apply IH. reflexivity.
Qed.

(** X3.  The loop of [Merge] counts one step per input file, so the test
    [i != length] after it never holds: no run returns through the branch
    of line 455, and no run prints its message. *)
Theorem merge_error_branch_is_dead
    {V : Type} (w : world V) (in_files : list string)
    (header_source data_type : string) (e : effects (merged_image V)) :
  fst (run_interface w in_files header_source data_type e) <> Ok None
  /\ printed (snd (run_interface w in_files header_source data_type e))
     = printed e.
Proof.
  unfold run_interface, Py.bindM, lift.
  destruct (Text.filename_template header_source) as [name|];
    [|split; [discriminate | reflexivity]].
  destruct (index in_files 0) as [first|]; [|split; [discriminate | reflexivity]].
  destruct (load_shape w first) as [shape|]; [|split; [discriminate | reflexivity]].
  destruct (load_header w header_source); [|split; [discriminate | reflexivity]].
  destruct (index shape 0); [|split; [discriminate | reflexivity]].
  destruct (index shape 1); [|split; [discriminate | reflexivity]].
  destruct (index shape 2); [|split; [discriminate | reflexivity]].
  rewrite fill_traverse.
  destruct (traverse _ in_files) as [vs|]; [|split; [discriminate | reflexivity]].
  cbn [snd fst]. rewrite Nat.add_0_l, Nat.eqb_refl. cbn [negb].
  destruct (set_data_dtype w data_type); split; cbn; (discriminate || reflexivity).
Qed.

Lemma run_interface_saves
    {V : Type} (w : world V) (in_files : list string)
    (header_source data_type name first : string) (x y z : nat)
    (more : list nat) (vs : list V) (e : effects (merged_image V)) :
  Text.filename_template header_source = Ok name ->
  head in_files = Some first ->
  load_shape w first = Ok (x :: y :: z :: more) ->
  load_header w header_source = Ok tt ->
  traverse (read_volume w (x, y, z)) in_files = Ok vs ->
  set_data_dtype w data_type = Ok tt ->
  run_interface w in_files header_source data_type e
  = (Ok (Some (abspath w (name +:+ "_combined.nii.gz"))),
     MkEffects (printed e)
       (saved e ++ [(abspath w (name +:+ "_combined.nii.gz"),
                     MkMerged vs first header_source data_type)])).
Proof.
  intros Hname Hfirst Hshape Hheader Hread Hdtype.
  unfold run_interface, Py.bindM, lift.
  rewrite Hname, index_0_head, Hfirst, Hshape, Hheader.
  cbn [index nth_error]. rewrite fill_traverse, Hread.
  cbn [snd fst]. rewrite Nat.add_0_l, Nat.eqb_refl. cbn [negb].
  rewrite Hdtype. reflexivity.
Qed.

(** X4.  When the header source has a name, the first input file has at
    least three dimensions and every input file can be read into a slot of
    that size, [Merge] saves one image under
    [<name>_combined.nii.gz]: its volumes are the volumes of the input
    files, one per file and in the order listed, its affine is that of the
    first input file and its header that of the header source. *)
Theorem merge_keeps_the_listed_order
    {V : Type} (w : world V) (in_files : list string)
    (header_source data_type name first : string) (x y z : nat)
    (more : list nat) (vs : list V) (e : effects (merged_image V)) :
  Text.filename_template header_source = Ok name ->
  head in_files = Some first ->
  load_shape w first = Ok (x :: y :: z :: more) ->
  load_header w header_source = Ok tt ->
  traverse (read_volume w (x, y, z)) in_files = Ok vs ->
  set_data_dtype w data_type = Ok tt ->
  run_interface w in_files header_source data_type e
  = (Ok (Some (abspath w (name +:+ "_combined.nii.gz"))),
     MkEffects (printed e)
       (saved e ++ [(abspath w (name +:+ "_combined.nii.gz"),
                     MkMerged vs first header_source data_type)]))
  /\ length vs = length in_files.
Proof.
  intros Hname Hfirst Hshape Hheader Hread Hdtype.
  split; [|eapply traverse_length; exact Hread].
  eapply run_interface_saves; eassumption.
Qed.

(** X4 on two files read from a listing. *)
Lemma merge_keeps_the_listed_order_witness :
  run_interface (MoreSamples.listing_world MoreSamples.volume_files)
    ["/work/bold_vol1.nii.gz"; "/work/bold_vol0.nii.gz"]
    "/data/sub-01_ses-1_run-2_bold.nii.gz" "float32"
    (MkEffects [] [])
  = (Ok (Some "/work/sub-01_ses-1_run-2_combined.nii.gz"),
     MkEffects []
       [("/work/sub-01_ses-1_run-2_combined.nii.gz",
         MkMerged [20%Z; 10%Z] "/work/bold_vol1.nii.gz"
           "/data/sub-01_ses-1_run-2_bold.nii.gz" "float32")])
  /\ length [20%Z; 10%Z] = 2.
Proof.
  apply (merge_keeps_the_listed_order
           (MoreSamples.listing_world MoreSamples.volume_files)
           ["/work/bold_vol1.nii.gz"; "/work/bold_vol0.nii.gz"]
           "/data/sub-01_ses-1_run-2_bold.nii.gz" "float32"
           "sub-01_ses-1_run-2" "/work/bold_vol1.nii.gz" 2 2 2 []
           [20%Z; 10%Z] (MkEffects [] []));
    reflexivity.
Defined.

Lemma traverse_read_back {V} (read : string -> result V) (name : nat -> string)
    (vols : list V) : forall start,
  (forall i v, nth_error vols i = Some v -> read (name (start + i)) = Ok v) ->
  traverse read (map name (seq start (length vols))) = Ok vols.
Proof.
  induction vols as [|v vols IH]; intros start Hread; cbn; [reflexivity|].
  rewrite <- (Nat.add_0_r start) at 1. rewrite (Hread 0 v eq_refl). cbn.
  rewrite (IH (S start)); [reflexivity|].
  intros i v' Hi. rewrite Nat.add_succ_comm. apply (Hread (S i)). exact Hi.
Qed.

(** X5.  Splitting and merging compose to the identity on the data: take
    a 4-D series, the files that [split_volumes] names for it, and a world
    that reads back from the file of volume [i] the data of volume [i];
    [Merge] run on these files, in the order [split_volumes] returns
    them, saves an image with exactly the volumes of the series, in their
    order. *)
Theorem merge_after_split_restores_the_series
    {V : Type} (w : world V) (split_abspath : string -> string)
    (prefix header_source data_type name : string) (x y z : nat)
    (vols : list V) (e : effects (merged_image V)) :
  vols <> [] ->
  (forall i v, nth_error vols i = Some v ->
     read_volume w (x, y, z)
       (SplitVolumes.slice_fname split_abspath prefix i) = Ok v) ->
  load_shape w (SplitVolumes.slice_fname split_abspath prefix 0)
  = Ok [x; y; z] ->
  Text.filename_template header_source = Ok name ->
  load_header w header_source = Ok tt ->
  set_data_dtype w data_type = Ok tt ->
  exists files,
    fst (SplitVolumes.split_volumes split_abspath [x; y; z; length vols] prefix)
    = Ok (Some (files, length vols))
    /\ exists out img,
         run_interface w files header_source data_type e
         = (Ok (Some out), MkEffects (printed e) (saved e ++ [(out, img)]))
         /\ volumes img = vols.
Proof.
  intros Hne Hread Hshape Hname Hheader Hdtype.
  exists (SplitVolumes.volumes_loop split_abspath prefix (length vols)).
  split; [reflexivity|].
  destruct vols as [|v0 vols']; [congruence|].
  pose proof (run_interface_saves w
              (SplitVolumes.volumes_loop split_abspath prefix (length (v0 :: vols')))
              header_source data_type name
              (SplitVolumes.slice_fname split_abspath prefix 0)
              x y z [] (v0 :: vols') e Hname eq_refl Hshape Hheader)
    as Hrun.
  eexists _, _. split; [apply Hrun | reflexivity].
  - apply (traverse_read_back (read_volume w (x, y, z))
             (SplitVolumes.slice_fname split_abspath prefix) (v0 :: vols') 0).
    exact Hread.
  - exact Hdtype.
Qed.

(** X5 on a series of three volumes split under the prefix [bold_]. *)
Lemma merge_after_split_restores_the_series_witness :
  exists files,
    fst (SplitVolumes.split_volumes Samples.cwd [2; 2; 2; 3] "bold_")
    = Ok (Some (files, 3))
    /\ exists out img,
         run_interface (MoreSamples.listing_world MoreSamples.volume_files) files
           "/data/sub-01_ses-1_run-2_bold.nii.gz" "float32" (MkEffects [] [])
         = (Ok (Some out), MkEffects [] ([] ++ [(out, img)]))
         /\ volumes img = [10%Z; 20%Z; 30%Z].
Proof.
  apply (merge_after_split_restores_the_series
           (MoreSamples.listing_world MoreSamples.volume_files) Samples.cwd "bold_"
           "/data/sub-01_ses-1_run-2_bold.nii.gz" "float32"
           "sub-01_ses-1_run-2" 2 2 2 [10%Z; 20%Z; 30%Z] (MkEffects [] []));
    try reflexivity; [discriminate|].
  intros [|[|[|i]]] v Hv; cbn in Hv;
    [injection Hv as <-; reflexivity ..|destruct i; discriminate].
Defined.

End MergeFacts.

(** ** [resample_image] *)

Module ResampleImageFacts.

Import Text ResampleImage.

Lemma lacks_not_occurs c0 sep' (s : string) :
  lacks c0 s = true -> occurs (String c0 sep') s = false.
Proof.
  induction s as [|c s IH]; cbn [lacks occurs]; intros H; [reflexivity|].
  apply andb_prop in H as [Hc Hs]. rewrite (IH Hs), orb_false_r.
  apply TextFacts.prefix_other_head. intros ->.
  rewrite Ascii.eqb_refl in Hc. discriminate.
Qed.

Lemma lacks_append_separator c0 (a r : string) :
  lacks c0 (a +:+ String c0 r) = false.
Proof.
  induction a as [|c a IH].
  - rewrite TextFacts.append_nil. cbn [lacks]. rewrite Ascii.eqb_refl.
    reflexivity.
  - rewrite TextFacts.append_cons. cbn [lacks]. rewrite IH. apply andb_false_r.
Qed.

Lemma not_origin (a r : string) :
  String.eqb (a +:+ "x" +:+ r) "origin" = false.
Proof.
  destruct (String.eqb_spec (a +:+ "x" +:+ r) "origin") as [H|]; [|reflexivity].
  pose proof (lacks_append_separator "x" a r) as Hx.
  change (String "x" r) with ("x" +:+ r) in Hx. rewrite H in Hx. discriminate.
Qed.

Lemma split_at_separator_x (a r : string) :
  lacks "x" a = true -> split "x" (a +:+ "x" +:+ r) = a :: split "x" r.
Proof. apply (TextFacts.split_at_separator "x" EmptyString). Qed.

(** The fields of a voxel-size specification. *)
Lemma split_sizes (a b c tail : string) :
  lacks "x" a = true -> lacks "x" b = true -> lacks "x" c = true ->
  tail = EmptyString \/ (exists more, tail = "x" +:+ more) ->
  exists others,
    split "x" (a +:+ "x" +:+ b +:+ "x" +:+ c +:+ tail) = a :: b :: c :: others.
Proof.
  intros Ha Hb Hc Htail.
  rewrite (split_at_separator_x a _ Ha), (split_at_separator_x b _ Hb).
  destruct Htail as [->|(more & ->)].
  - exists []. rewrite TextFacts.split_without_separator.
    + do 3 f_equal. clear. induction c as [|x c IH]; [reflexivity|].
      rewrite TextFacts.append_cons, IH. reflexivity.
    + replace (c +:+ "") with c; [apply lacks_not_occurs, Hc|].
      clear. induction c as [|x c IH]; [reflexivity|].
      rewrite TextFacts.append_cons, <- IH. reflexivity.
  - exists (split "x" more). rewrite (split_at_separator_x c _ Hc). reflexivity.
Qed.

(** X6.  A voxel-size specification [a x b x c], possibly followed by
    further [x]-separated fields, is read as the three sizes [float(a)],
    [float(b)], [float(c)], in this order: the image is resampled to them
    and then given the data type; fields after the third are not looked
    at. *)
Theorem resample_image_reads_three_sizes
    {image F : Type} (py_float : string -> result F)
    (resample_to_output : image -> F * F * F -> result image)
    (set_data_dtype : image -> string -> result image)
    (nb_image : image) (data_type a b c tail : string) :
  lacks "x" a = true -> lacks "x" b = true -> lacks "x" c = true ->
  tail = EmptyString \/ (exists more, tail = "x" +:+ more) ->
  resample_image py_float resample_to_output set_data_dtype nb_image data_type
    (a +:+ "x" +:+ b +:+ "x" +:+ c +:+ tail)
  = (f0 ← py_float a; f1 ← py_float b; f2 ← py_float c;
     resampled ← resample_to_output nb_image (f0, f1, f2);
     set_data_dtype resampled data_type).
Proof.
  intros Ha Hb Hc Htail. unfold resample_image.
  rewrite not_origin. cbn [negb].
  destruct (split_sizes a b c tail Ha Hb Hc Htail) as (others & ->).
  cbn [index nth_error mbind result_bind Py.bind].
  destruct (py_float a); [|reflexivity]. cbn.
  destruct (py_float b); [|reflexivity]. cbn.
  destruct (py_float c); reflexivity.
Qed.

(** X6 on a specification with a fourth field. *)
Lemma resample_image_reads_three_sizes_witness :
  resample_image MoreSamples.float_of_integer MoreSamples.resample_to
    MoreSamples.retype "anat" "float32" "2x3x4x9"
  = Ok "anat@2x3x4:float32".
Proof.
  apply (resample_image_reads_three_sizes MoreSamples.float_of_integer
           MoreSamples.resample_to MoreSamples.retype "anat" "float32"
           "2" "3" "4" "x9");
    try reflexivity.
  right. exists "9". reflexivity.
Defined.

(** X7.  A voxel-size specification of one or two fields that [float]
    accepts fails with an [IndexError] before anything is resampled. *)
Theorem resample_image_needs_three_sizes
    {image F : Type} (py_float : string -> result F)
    (resample_to_output : image -> F * F * F -> result image)
    (set_data_dtype : image -> string -> result image)
    (nb_image : image) (data_type a b : string) :
  lacks "x" a = true -> lacks "x" b = true ->
  is_ok (py_float a) = true -> is_ok (py_float b) = true ->
  resample_image py_float resample_to_output set_data_dtype nb_image data_type
    (a +:+ "x" +:+ b) = Raise IndexError
  /\ (a <> "origin" ->
      resample_image py_float resample_to_output set_data_dtype nb_image
        data_type a = Raise IndexError).
Proof.
  intros Ha Hb Hfa Hfb. unfold resample_image. split.
  - rewrite not_origin. cbn [negb].
    rewrite (split_at_separator_x a _ Ha).
    rewrite (TextFacts.split_without_separator "x" b (lacks_not_occurs _ _ _ Hb)).
    cbn [index nth_error mbind result_bind Py.bind].
    destruct (py_float a); [|discriminate]. cbn.
    destruct (py_float b); [|discriminate]. reflexivity.
  - intros Hne. destruct (String.eqb_spec a "origin") as [|_]; [congruence|].
    cbn [negb].
    rewrite (TextFacts.split_without_separator "x" a (lacks_not_occurs _ _ _ Ha)).
    cbn [index nth_error mbind result_bind Py.bind].
    destruct (py_float a); [|discriminate]. reflexivity.
Qed.

(** X7 on a specification of two fields and on one of a single field. *)
Lemma resample_image_needs_three_sizes_witness :
  resample_image MoreSamples.float_of_integer MoreSamples.resample_to
    MoreSamples.retype "anat" "float32" "2x3" = Raise IndexError
  /\ resample_image MoreSamples.float_of_integer MoreSamples.resample_to
       MoreSamples.retype "anat" "float32" "2" = Raise IndexError.
Proof.
  destruct (resample_image_needs_three_sizes MoreSamples.float_of_integer
              MoreSamples.resample_to MoreSamples.retype "anat" "float32"
              "2" "3" eq_refl eq_refl eq_refl eq_refl) as [Htwo Hone].
  split; [exact Htwo | apply Hone; discriminate].
Defined.

End ResampleImageFacts.

(** ** [slice_applyTransforms] *)

Module SliceApplyTransformsFacts.

Import SliceApplyTransforms.

(** X8.  The transforms are paired with the inverse flags by [zip]: a
    transform without a flag, or a flag without a transform, leaves no
    trace in the options handed to [antsApplyTransforms]; with no flag at
    all, no transform is applied. *)
Theorem transforms_without_flag_are_dropped
    (transforms more_transforms : list string)
    (inverses more_inverses : list flag) :
  length transforms = length inverses ->
  transform_string (transforms ++ more_transforms) inverses
  = transform_string transforms inverses
  /\ transform_string transforms (inverses ++ more_inverses)
     = transform_string transforms inverses
  /\ transform_string more_transforms [] = EmptyString.
Proof.
  intros Hlen. split; [|split].
  - revert inverses Hlen.
    induction transforms as [|t ts IH]; intros [|i flags] Hlen; cbn in Hlen;
      try discriminate.
    + destruct more_transforms; reflexivity.
    + cbn. rewrite IH by lia. reflexivity.
  - revert inverses Hlen.
    induction transforms as [|t ts IH]; intros [|i flags] Hlen; cbn in Hlen;
      try discriminate.
    + reflexivity.
    + cbn. rewrite IH by lia. reflexivity.
  - destruct more_transforms; reflexivity.
Qed.

(** X8 on two transforms and one flag. *)
Lemma transforms_without_flag_are_dropped_witness :
  transform_string (["warp.h5"] ++ ["affine.mat"]) [IntFlag 1]
  = "-t [warp.h5,1] ".
Proof.
  rewrite (proj1 (transforms_without_flag_are_dropped
                    ["warp.h5"] ["affine.mat"] [IntFlag 1] [] eq_refl)).
  reflexivity.
Defined.

Section Runs.

Context {image F : Type} (w : world image F).
Context (in_file ref_file : string) (transforms : list string)
  (inverses : list flag) (apply_motcorr : bool)
  (motcorr_params resampling_dim data_type : string).

Lemma run_interface_after_resampling img log log1 :
  nb_load w in_file = Ok img ->
  resample_reference w img ref_file resampling_dim data_type log = (Ok tt, log1) ->
  run_interface w in_file ref_file transforms inverses apply_motcorr
    motcorr_params resampling_dim data_type log
  = let split := SplitVolumes.split_volumes (abspath w) (img_shape w img) "bold_" in
    let log2 := (log1 ++ [Printed "Splitting bold file into lists of single volumes"])
                ++ split_events (snd split) in
    match fst split with
    | Raise e => (Raise e, log2)
    | Ok None => (Raise TypeError, log2)
    | Ok (Some (bold_volumes, num_volumes)) =>
        collect
          (warp_volume w apply_motcorr motcorr_params
             (transform_string transforms inverses)
             (abspath w "resampled.nii.gz") data_type bold_volumes)
          (seq 0 num_volumes) log2
    end.
Proof.
  intros Hload Hres. unfold run_interface, Py.bindM, lift, emit, raise.
  rewrite Hload, Hres. cbn zeta.
  destruct (fst (SplitVolumes.split_volumes (abspath w) (img_shape w img) "bold_"))
    as [[[bold_volumes num_volumes]|]|e]; reflexivity.
Qed.

Lemma collect_volumes n ref_img :
  (forall command, os_system w command = 0%Z) ->
  (forall path, retype w path data_type = Ok tt) ->
  forall xs log,
    Forall (fun x => x < n) xs ->
    collect
      (warp_volume w apply_motcorr motcorr_params
         (transform_string transforms inverses) ref_img data_type
         (SplitVolumes.volumes_loop (abspath w) "bold_" n))
      xs log
    = (Ok (map (warped_fname w) xs),
       log ++ concat (map (volume_events w apply_motcorr motcorr_params
                             (transform_string transforms inverses) ref_img
                             data_type) xs)).
Proof.
  intros Hsys Hretype. induction xs as [|x xs IH]; intros log Hxs.
  - cbn. rewrite app_nil_r. reflexivity.
  - apply Forall_cons in Hxs as [Hx Hxs].
    cbn [collect map concat].
    assert (Hone : warp_volume w apply_motcorr motcorr_params
                     (transform_string transforms inverses) ref_img data_type
                     (SplitVolumes.volumes_loop (abspath w) "bold_" n) x log
                   = (Ok (warped_fname w x),
                      log ++ volume_events w apply_motcorr motcorr_params
                               (transform_string transforms inverses) ref_img
                               data_type x)).
    { unfold warp_volume, volume_events, Py.bindM, system, lift, emit, ret, index.
      rewrite (SplitVolumesFacts.volumes_loop_lookup _ _ _ _ Hx).
      fold (SplitVolumes.slice_fname (abspath w) "bold_" x).
      destruct apply_motcorr; rewrite ?Hsys, Hretype; cbn;
        rewrite <- ?app_assoc; reflexivity. }
    unfold Py.bindM at 1. rewrite Hone.
    unfold Py.bindM at 1. rewrite (IH _ Hxs).
    unfold ret. rewrite <- app_assoc. reflexivity.
Qed.

(** X9.  The guard of [split_volumes] does not protect its caller.  Once
    the reference is resampled, an input of more than four dimensions
    ends the run with a [TypeError], raised when the [None] that
    [split_volumes] returns is unpacked, and an input of fewer than four
    with an [IndexError]; in both cases no command has been run. *)
Theorem only_four_dimensions_are_warped (img : image) (log log1 : list event) :
  nb_load w in_file = Ok img ->
  resample_reference w img ref_file resampling_dim data_type log = (Ok tt, log1) ->
  (4 < length (img_shape w img) ->
   run_interface w in_file ref_file transforms inverses apply_motcorr
     motcorr_params resampling_dim data_type log
   = (Raise TypeError,
      log1 ++ [Printed "Splitting bold file into lists of single volumes";
               Printed "the input file must be of dimensions 4"]))
  /\ (length (img_shape w img) < 4 ->
      run_interface w in_file ref_file transforms inverses apply_motcorr
        motcorr_params resampling_dim data_type log
      = (Raise IndexError,
         log1 ++ [Printed "Splitting bold file into lists of single volumes"])).
Proof.
  intros Hload Hres.
  rewrite (run_interface_after_resampling img log log1 Hload Hres).
  unfold SplitVolumes.split_volumes. split; intros Hdim.
  - destruct (SplitVolumesFacts.index_long (img_shape w img) 3) as (n & _ & ->);
      [lia|].
    destruct (Nat.eqb_spec (length (img_shape w img)) 4); [lia|].
    cbn. rewrite <- app_assoc. reflexivity.
  - rewrite SplitVolumesFacts.index_short by lia.
    cbn. rewrite app_nil_r. reflexivity.
Qed.

(** X10.  On a series of four dimensions whose commands all succeed, every
    volume that [split_volumes] wrote is warped, in order: the output
    lists one warped file per volume, [deformed_volume<x>.nii.gz], and the
    commands for volume [x] read the file [bold_vol<x>.nii.gz] that
    [split_volumes] wrote for it. *)
Theorem every_split_volume_is_warped
    (img : image) (log log1 : list event) (a b c n : nat) :
  nb_load w in_file = Ok img ->
  resample_reference w img ref_file resampling_dim data_type log = (Ok tt, log1) ->
  img_shape w img = [a; b; c; n] ->
  (forall command, os_system w command = 0%Z) ->
  (forall path, retype w path data_type = Ok tt) ->
  run_interface w in_file ref_file transforms inverses apply_motcorr
    motcorr_params resampling_dim data_type log
  = (Ok (map (warped_fname w) (seq 0 n)),
     log1
     ++ [Printed "Splitting bold file into lists of single volumes"]
     ++ map Wrote (SplitVolumes.volumes_loop (abspath w) "bold_" n)
     ++ concat (map (volume_events w apply_motcorr motcorr_params
                       (transform_string transforms inverses)
                       (abspath w "resampled.nii.gz") data_type)
                  (seq 0 n))).
Proof.
  intros Hload Hres Hshape Hsys Hretype.
  rewrite (run_interface_after_resampling img log log1 Hload Hres).
  unfold SplitVolumes.split_volumes. rewrite Hshape. cbn [index nth_error length
    Nat.eqb negb fst snd].
  rewrite (collect_volumes n _ Hsys Hretype).
  - unfold split_events. cbn [SplitVolumes.printed SplitVolumes.written map app].
    rewrite <- !app_assoc. reflexivity.
  - apply Forall_forall. intros x Hx.
    apply list_elem_of_In, in_seq in Hx. lia.
Qed.

End Runs.

(** X9 on an input of five dimensions. *)
Lemma only_four_dimensions_are_warped_witness :
  run_interface (MoreSamples.slice_world [2; 2; 2; 3; 1]) "bold.nii.gz"
    "ref.nii.gz" ["warp.h5"] [IntFlag 0] true "motcorr.csv" "origin"
    "float32" []
  = (Raise TypeError,
     [Wrote "resampled.nii.gz"]
     ++ [Printed "Splitting bold file into lists of single volumes";
         Printed "the input file must be of dimensions 4"]).
Proof.
  apply (proj1 (only_four_dimensions_are_warped
                  (MoreSamples.slice_world [2; 2; 2; 3; 1]) "bold.nii.gz"
                  "ref.nii.gz" ["warp.h5"] [IntFlag 0] true "motcorr.csv"
                  "origin" "float32" [2; 2; 2; 3; 1] []
                  [Wrote "resampled.nii.gz"] eq_refl eq_refl)).
  cbn. lia.
Defined.

(** X10 on a series of two volumes, with motion correction. *)
Lemma every_split_volume_is_warped_witness :
  fst (run_interface (MoreSamples.slice_world [2; 2; 2; 2]) "bold.nii.gz"
         "ref.nii.gz" ["warp.h5"] [IntFlag 0] true "motcorr.csv" "origin"
         "float32" [])
  = Ok ["/work/deformed_volume0.nii.gz"; "/work/deformed_volume1.nii.gz"].
Proof.
  rewrite (every_split_volume_is_warped
             (MoreSamples.slice_world [2; 2; 2; 2]) "bold.nii.gz"
             "ref.nii.gz" ["warp.h5"] [IntFlag 0] true "motcorr.csv"
             "origin" "float32" [2; 2; 2; 2] [] [Wrote "resampled.nii.gz"]
             2 2 2 2 eq_refl eq_refl eq_refl
             (fun _ => eq_refl) (fun _ => eq_refl)).
  reflexivity.
Defined.

End SliceApplyTransformsFacts.

(** ** [prep_bids_iter] and [BIDSDataGraber] *)

Module BidsFacts.

Import Bids.

Lemma in_range_from_1 (n s : Z) :
  In s (range_from_1 n) <-> (1 <= s <= n)%Z.
Proof.
  unfold range_from_1. rewrite in_map_iff. split.
  - intros (k & <- & Hk). apply in_seq in Hk. lia.
  - intros Hs. exists (Z.to_nat s). split; [lia|]. apply in_seq. lia.
Qed.

Lemma classic_in (sub : string) (subs : list string) :
  In sub subs \/ ~ In sub subs.
Proof. destruct (in_dec string_dec sub subs); [left | right]; assumption. Qed.

(** What the loop over the files of one subject leaves in [session] and
    [run]. *)
Lemma largest_session_and_run_spec py files : forall s0 r0 s r,
  largest_session_and_run py files s0 r0 = Ok (s, r) ->
  (s0 <= s)%Z /\ (r0 <= r)%Z
  /\ (forall f, In f files ->
        exists vs vr, entity_int py f "session" = Ok vs
                      /\ entity_int py f "run" = Ok vr
                      /\ (vs <= s)%Z /\ (vr <= r)%Z)
  /\ (s = s0 \/ exists f, In f files /\ entity_int py f "session" = Ok s)
  /\ (r = r0 \/ exists f, In f files /\ entity_int py f "run" = Ok r).
Proof.
  induction files as [|f files IH]; intros s0 r0 s r H.
  - cbn in H. injection H as <- <-.
    repeat split; try lia; try (left; reflexivity). intros f [].
  - cbn [largest_session_and_run] in H.
    destruct (entity_int py f "session") as [vs|] eqn:Es; [|discriminate].
    cbn [mbind result_bind Py.bind] in H.
    destruct (entity_int py f "run") as [vr|] eqn:Er.
    2: { destruct (s0 <? vs)%Z; discriminate. }
    assert (Hnext : largest_session_and_run py files
                      (if (s0 <? vs)%Z then vs else s0)
                      (if (r0 <? vr)%Z then vr else r0) = Ok (s, r)).
    { destruct (s0 <? vs)%Z; cbn [mbind result_bind Py.bind] in H;
        destruct (r0 <? vr)%Z; cbn [mbind result_bind Py.bind] in H; exact H. }
    clear H. apply IH in Hnext as (Hs & Hr & Hall & Hsmax & Hrmax).
    assert (Hs0 : (s0 <= s)%Z /\ (vs <= s)%Z)
      by (destruct (Z.ltb_spec s0 vs); lia).
    assert (Hr0 : (r0 <= r)%Z /\ (vr <= r)%Z)
      by (destruct (Z.ltb_spec r0 vr); lia).
    split; [lia|]. split; [lia|]. split; [|split].
    + intros f' [<-|Hin].
      * exists vs, vr. repeat split; [exact Es | exact Er | lia | lia].
      * apply Hall, Hin.
    + destruct Hsmax as [->|(f' & Hin & Hf')].
      * destruct (Z.ltb_spec s0 vs); [|left; reflexivity].
        right. exists f. split; [left; reflexivity | exact Es].
      * right. exists f'. split; [right; exact Hin | exact Hf'].
    + destruct Hrmax as [->|(f' & Hin & Hf')].
      * destruct (Z.ltb_spec r0 vr); [|left; reflexivity].
        right. exists f. split; [left; reflexivity | exact Er].
      * right. exists f'. split; [right; exact Hin | exact Hf'].
Qed.

Lemma iterate_subjects_spec py get subs : forall si ri si' ri',
  iterate_subjects py get subs si ri = Ok (si', ri') ->
  forall sub,
    (In sub subs ->
     exists s r,
       largest_session_and_run py (get sub) 0 0 = Ok (s, r)
       /\ si' !! sub = Some (range_from_1 s)
       /\ ri' !! sub = Some (range_from_1 r))
    /\ (~ In sub subs -> si' !! sub = si !! sub /\ ri' !! sub = ri !! sub).
Proof.
  induction subs as [|sub0 subs IH]; intros si ri si' ri' H sub.
  - cbn in H. injection H as <- <-. split; [intros [] | intros _; split; reflexivity].
  - cbn [iterate_subjects] in H.
    destruct (largest_session_and_run py (get sub0) 0 0) as [[s r]|] eqn:E;
      [|discriminate].
    cbn [mbind result_bind Py.bind fst snd] in H.
    destruct (IH _ _ _ _ H sub) as [Hin Hout].
    destruct (classic_in sub subs) as [Hsub|Hsub].
    + split; [intros _; apply Hin, Hsub|].
      intros Hnot. exfalso. apply Hnot. right. exact Hsub.
    + destruct (Hout Hsub) as [Hsi Hri]. split.
      * intros [<-|Hin']; [|contradiction].
        exists s, r. split; [exact E|].
        rewrite Hsi, Hri, !lookup_insert_eq. split; reflexivity.
      * intros Hnot.
        assert (sub0 <> sub) by (intros ->; apply Hnot; left; reflexivity).
        rewrite Hsi, Hri, !lookup_insert_ne by assumption. split; reflexivity.
Qed.

(** X11.  When [prep_bids_iter] returns, the sessions it lists for a
    subject are all the integers from 1 to the largest session number
    among the subject's functional files (none when there is no file or
    no positive number), whether or not a file exists for each, and
    likewise for the runs: every positive session or run number of a file
    is in the list. *)
Theorem prep_bids_iter_lists_one_to_largest
    (py : ScanDiagnosis.interpreter) (subject_list subjects : list string)
    (get : string -> list (gmap string ScanDiagnosis.pyval))
    (session_iter run_iter : gmap string (list Z)) (sub : string) :
  prep_bids_iter py subject_list get = Ok (subjects, session_iter, run_iter) ->
  In sub subject_list ->
  subjects = subject_list
  /\ exists s r,
       session_iter !! sub = Some (range_from_1 s)
       /\ run_iter !! sub = Some (range_from_1 r)
       /\ (s = 0%Z \/ exists f, In f (get sub) /\ entity_int py f "session" = Ok s)
       /\ (r = 0%Z \/ exists f, In f (get sub) /\ entity_int py f "run" = Ok r)
       /\ (forall f v, In f (get sub) -> entity_int py f "session" = Ok v ->
             (v <= s)%Z /\ ((1 <= v)%Z -> In v (range_from_1 s)))
       /\ (forall f v, In f (get sub) -> entity_int py f "run" = Ok v ->
             (v <= r)%Z /\ ((1 <= v)%Z -> In v (range_from_1 r))).
Proof.
  unfold prep_bids_iter. intros H Hsub.
  destruct (iterate_subjects py get subject_list ∅ ∅) as [[si ri]|] eqn:E;
    [|discriminate].
  cbn in H. injection H as <- <- <-. split; [reflexivity|].
  destruct (proj1 (iterate_subjects_spec _ _ _ _ _ _ _ E sub) Hsub)
    as (s & r & Hlargest & Hsi & Hri).
  apply largest_session_and_run_spec in Hlargest
    as (_ & _ & Hall & Hsmax & Hrmax).
  exists s, r. repeat split; try assumption.
  - destruct (Hall f H) as (vs & vr & Es & _ & Hle & _). congruence.
  - intros Hpos. apply in_range_from_1.
    destruct (Hall f H) as (vs & vr & Es & _ & Hle & _).
    assert (v = vs) by congruence. lia.
  - destruct (Hall f H) as (vs & vr & _ & Er & _ & Hle). congruence.
  - intros Hpos. apply in_range_from_1.
    destruct (Hall f H) as (vs & vr & _ & Er & _ & Hle).
    assert (v = vr) by congruence. lia.
Qed.

(** X12.  [prep_bids_iter] returns only if every functional file of every
    listed subject carries both a [session] and a [run] entity that [int]
    accepts: a file without one of them makes the call fail. *)
Theorem prep_bids_iter_needs_session_and_run
    (py : ScanDiagnosis.interpreter) (subject_list subjects : list string)
    (get : string -> list (gmap string ScanDiagnosis.pyval))
    (session_iter run_iter : gmap string (list Z))
    (sub : string) (f : gmap string ScanDiagnosis.pyval) :
  prep_bids_iter py subject_list get = Ok (subjects, session_iter, run_iter) ->
  In sub subject_list -> In f (get sub) ->
  is_ok (entity_int py f "session") = true /\ is_ok (entity_int py f "run") = true
  /\ is_Some (f !! "session") /\ is_Some (f !! "run").
Proof.
  unfold prep_bids_iter. intros H Hsub Hf.
  destruct (iterate_subjects py get subject_list ∅ ∅) as [[si ri]|] eqn:E;
    [|discriminate].
  destruct (proj1 (iterate_subjects_spec _ _ _ _ _ _ _ E sub) Hsub)
    as (s & r & Hlargest & _).
  apply largest_session_and_run_spec in Hlargest as (_ & _ & Hall & _).
  destruct (Hall f Hf) as (vs & vr & Es & Er & _).
  rewrite Es, Er. split; [reflexivity|]. split; [reflexivity|].
  unfold entity_int, getitem in Es, Er.
  destruct (f !! "session"), (f !! "run"); try discriminate.
  split; eauto.
Qed.

Lemma spec_name_raises datatype subject_id session run :
  spec_name datatype subject_id session run = Raise TypeError.
Proof. reflexivity. Qed.

Lemma select_file_or_report_raises l datatype subject_id session run :
  is_ok (select_file l datatype subject_id session run) = false ->
  select_file_or_report l datatype subject_id session run = Raise TypeError.
Proof.
  unfold select_file_or_report.
  destruct (select_file l datatype subject_id session run); [discriminate|].
  reflexivity.
Qed.

(** X13.  [BIDSLayout] is opened outside the [try], so an exception of
    its own reaches the caller as it is.  Once the layout is open,
    whatever goes wrong in the selection of the file (a data type other
    than [func] and [anat], no matching file, several matching files, an
    exception of the layout) reaches the caller as a [TypeError]: the
    message of the handler joins strings with the integer [session].  So
    an exception of the interface is that of the layout being opened, a
    [TypeError], or the [ValueError] of a failed [gzip]: none of the
    three [ValueError]s written in the selection is raised by it. *)
Theorem selection_failures_are_type_errors
    (open_layout : string -> result layout) (os_system : string -> Z)
    (bids_dir datatype subject_id : string) (session : Z) (run : option Z)
    (log : list event) :
  (forall e, open_layout bids_dir = Raise e ->
     run_interface open_layout os_system bids_dir datatype subject_id session
       run log = (Raise e, log))
  /\ (forall l, open_layout bids_dir = Ok l ->
        is_ok (select_file l datatype subject_id session run) = false ->
        run_interface open_layout os_system bids_dir datatype subject_id
          session run log = (Raise TypeError, log))
  /\ (forall l, datatype <> "func" -> datatype <> "anat" ->
        is_ok (select_file l datatype subject_id session run) = false)
  /\ (forall l n, datatype = "func" ->
        get l subject_id session (Some run) datatype = Ok n -> 1 < n ->
        is_ok (select_file l datatype subject_id session run) = false)
  /\ (forall e,
        fst (run_interface open_layout os_system bids_dir datatype subject_id
               session run log) = Raise e ->
        open_layout bids_dir = Raise e
        \/ e = TypeError
        \/ exists file, e = ValueError ("Error in " +:+ "gzip " +:+ file)).
Proof.
  split; [|split; [|split; [|split]]].
  - intros e Hopen. unfold run_interface, Py.bindM, lift.
    rewrite Hopen. reflexivity.
  - intros l Hopen Hfail. unfold run_interface, Py.bindM, lift.
    rewrite Hopen, (select_file_or_report_raises _ _ _ _ _ Hfail). reflexivity.
  - intros l Hfunc Hanat. unfold select_file.
    destruct (String.eqb_spec datatype "func"); [contradiction|].
    destruct (String.eqb_spec datatype "anat"); [contradiction|].
    reflexivity.
  - intros l n -> Hget Hn. unfold select_file.
    cbn [String.eqb Ascii.eqb Bool.eqb].
    rewrite Hget. cbn [mbind result_bind Py.bind].
    destruct (get_filenames l subject_id session (Some run) "func") as [func|];
      [|reflexivity].
    cbn [mbind result_bind Py.bind].
    destruct (index func 0); [|reflexivity].
    cbn [mbind result_bind Py.bind fst].
    destruct (Nat.ltb_spec 1 n); [reflexivity | lia].
  - intros e. unfold run_interface, Py.bindM, lift.
    destruct (open_layout bids_dir) as [l|err].
    2: { cbn. intros H. injection H as <-. left. reflexivity. }
    unfold select_file_or_report.
    destruct (select_file l datatype subject_id session run) as [file|err].
    + destruct (Text.occurs ".nii.gz" file); cbn; [discriminate|].
      destruct (os_system ("gzip " +:+ file) =? 0)%Z; cbn; [discriminate|].
      intros H. injection H as <-. right. right. exists file. reflexivity.
    + rewrite spec_name_raises. cbn. intros H. injection H as <-.
      right. left. reflexivity.
Qed.

(** X13 on a data type that is neither [func] nor [anat], and on a BIDS
    directory that cannot be opened. *)
Lemma selection_failures_are_type_errors_witness :
  run_interface (fun _ => Ok (MoreSamples.layout_of ["sub-01_bold.nii.gz"]))
    (fun _ => 0%Z) "/bids" "dwi" "01" 1 (Some 1%Z) []
  = (Raise TypeError, [])
  /\ run_interface (fun _ => Raise (ValueError "BIDS root does not exist"))
       (fun _ => 0%Z) "/bids" "func" "01" 1 (Some 1%Z) []
     = (Raise (ValueError "BIDS root does not exist"), []).
Proof.
  split.
  - destruct (selection_failures_are_type_errors
                (fun _ => Ok (MoreSamples.layout_of ["sub-01_bold.nii.gz"]))
                (fun _ => 0%Z) "/bids" "dwi" "01" 1 (Some 1%Z) [])
      as (_ & Hfail & Hother & _).
    apply (Hfail (MoreSamples.layout_of ["sub-01_bold.nii.gz"]) eq_refl).
    apply Hother; discriminate.
  - apply (proj1 (selection_failures_are_type_errors
                    (fun _ => Raise (ValueError "BIDS root does not exist"))
                    (fun _ => 0%Z) "/bids" "func" "01" 1 (Some 1%Z) [])).
    reflexivity.
Defined.

Lemma occurs_inside (sep a r : string) :
  sep <> EmptyString -> Text.occurs sep (a +:+ sep +:+ r) = true.
Proof.
  intros Hsep. induction a as [|c a IH].
  - rewrite TextFacts.append_nil. destruct sep as [|c0 sep']; [congruence|].
    rewrite TextFacts.append_cons. cbn [Text.occurs].
    rewrite <- TextFacts.append_cons, TextFacts.prefix_append. reflexivity.
  - rewrite TextFacts.append_cons. cbn [Text.occurs]. rewrite IH.
    apply orb_true_r.
Qed.

(** X14.  The selected file is compressed unless its path holds
    [.nii.gz] somewhere: a path with [.nii.gz] in it, even in the name of
    a directory, is returned as it is and no command is run; any other
    path is handed to [gzip] and returned with [.gz] appended when [gzip]
    succeeds. *)
Theorem file_is_compressed_unless_path_holds_nii_gz
    (open_layout : string -> result layout) (os_system : string -> Z)
    (bids_dir datatype subject_id : string) (session : Z) (run : option Z)
    (l : layout) (file : string) (log : list event) :
  open_layout bids_dir = Ok l ->
  select_file l datatype subject_id session run = Ok file ->
  ((exists before after, file = before +:+ ".nii.gz" +:+ after) ->
   run_interface open_layout os_system bids_dir datatype subject_id session
     run log = (Ok file, log))
  /\ (Text.occurs ".nii.gz" file = false ->
      os_system ("gzip " +:+ file) = 0%Z ->
      run_interface open_layout os_system bids_dir datatype subject_id session
        run log
      = (Ok (file +:+ ".gz"),
         log ++ [Printed "Compressing BIDS input to .gz";
                 Command ("gzip " +:+ file)])).
Proof.
  intros Hopen Hfile. unfold run_interface, Py.bindM, lift, select_file_or_report.
  rewrite Hopen, Hfile. split.
  - intros (before & after & ->).
    rewrite occurs_inside by discriminate. reflexivity.
  - intros Hocc Hgzip. rewrite Hocc, Hgzip. cbn.
    rewrite <- app_assoc. reflexivity.
Qed.

(** X14 on a file below a directory named after a compressed image, and
    on an uncompressed file. *)
Lemma file_is_compressed_unless_path_holds_nii_gz_witness :
  run_interface
    (fun _ => Ok (MoreSamples.layout_of ["/bids/old.nii.gz.d/sub-01_bold.nii"]))
    (fun _ => 0%Z) "/bids" "func" "01" 1 (Some 1%Z) []
  = (Ok "/bids/old.nii.gz.d/sub-01_bold.nii", [])
  /\ run_interface (fun _ => Ok (MoreSamples.layout_of ["/bids/sub-01_bold.nii"]))
       (fun _ => 0%Z) "/bids" "func" "01" 1 (Some 1%Z) []
     = (Ok "/bids/sub-01_bold.nii.gz",
        [] ++ [Printed "Compressing BIDS input to .gz";
               Command "gzip /bids/sub-01_bold.nii"]).
Proof.
  split.
  - apply (proj1 (file_is_compressed_unless_path_holds_nii_gz
                    (fun _ => Ok (MoreSamples.layout_of
                                    ["/bids/old.nii.gz.d/sub-01_bold.nii"]))
                    (fun _ => 0%Z) "/bids" "func" "01" 1 (Some 1%Z)
                    (MoreSamples.layout_of ["/bids/old.nii.gz.d/sub-01_bold.nii"])
                    "/bids/old.nii.gz.d/sub-01_bold.nii" [] eq_refl eq_refl)).
    exists "/bids/old", ".d/sub-01_bold.nii". reflexivity.
  - apply (proj2 (file_is_compressed_unless_path_holds_nii_gz
                    (fun _ => Ok (MoreSamples.layout_of ["/bids/sub-01_bold.nii"]))
                    (fun _ => 0%Z) "/bids" "func" "01" 1 (Some 1%Z)
                    (MoreSamples.layout_of ["/bids/sub-01_bold.nii"])
                    "/bids/sub-01_bold.nii" [] eq_refl eq_refl));
      reflexivity.
Defined.

(** X11 on two subjects, one with files of sessions 1 and 3 and one
    without any file: session 2 is listed for the first. *)
Lemma prep_bids_iter_lists_one_to_largest_witness :
  exists s r,
    fst (MoreSamples.two_subjects_iter) !! "01" = Some (range_from_1 s)
    /\ snd (MoreSamples.two_subjects_iter) !! "01" = Some (range_from_1 r)
    /\ In 2%Z (range_from_1 s).
Proof.
  destruct (prep_bids_iter_lists_one_to_largest Samples.letters
              ["01"; "02"] ["01"; "02"] MoreSamples.files_of
              (fst MoreSamples.two_subjects_iter)
              (snd MoreSamples.two_subjects_iter) "01")
    as (_ & s & r & Hs & Hr & _ & _ & Hall & _).
  - vm_compute. reflexivity.
  - left. reflexivity.
  - exists s, r. split; [exact Hs|]. split; [exact Hr|].
    destruct (Hall MoreSamples.third_session_file 3%Z) as [Hle _].
    + right. left. reflexivity.
    + reflexivity.
    + apply in_range_from_1. lia.
Defined.

(** X12 on the same two subjects and the file of session 3. *)
Lemma prep_bids_iter_needs_session_and_run_witness :
  is_ok (entity_int Samples.letters MoreSamples.third_session_file "session") = true
  /\ is_ok (entity_int Samples.letters MoreSamples.third_session_file "run") = true
  /\ is_Some (MoreSamples.third_session_file !! "session")
  /\ is_Some (MoreSamples.third_session_file !! "run").
Proof.
  apply (prep_bids_iter_needs_session_and_run Samples.letters
           ["01"; "02"] ["01"; "02"] MoreSamples.files_of
           (fst MoreSamples.two_subjects_iter)
           (snd MoreSamples.two_subjects_iter) "01").
  - vm_compute. reflexivity.
  - left. reflexivity.
  - right. left. reflexivity.
Defined.

End BidsFacts.

(** ** [PrepMasks], further *)

Module PrepMasksMore.

Import PrepMasks More.

(** X15.  [PrepMasks] checks its first dictionary before it touches any
    file: an input that flattens to nothing fails with an [IndexError],
    and a first dictionary that lacks one of the four keys it reads fails
    with the [KeyError] of the first missing key, in both cases without
    any outside call. *)
Theorem prep_masks_checks_input_before_any_call
    (w : world) (l : list (nested (gmap string string)))
    (prior_maps : string) (DSURQE_regions : bool) (log : list call) :
  (flatten_list l = [] ->
   run_interface w l prior_maps DSURQE_regions log = (Raise IndexError, log))
  /\ (forall mask_dict pre key post,
        head (flatten_list l) = Some mask_dict ->
        mask_dict_keys = pre ++ key :: post ->
        Forall (fun k => is_Some (mask_dict !! k)) pre ->
        mask_dict !! key = None ->
        run_interface w l prior_maps DSURQE_regions log
        = (Raise (KeyError key), log)).
Proof.
  split.
  - intros Hempty. unfold run_interface. rewrite Hempty. reflexivity.
  - intros mask_dict pre key post Hhead Hkeys Hpre Hkey.
    unfold run_interface, Py.bindM, lift, getitem.
    rewrite index_0_head, Hhead.
    unfold mask_dict_keys in Hkeys.
    destruct pre as [|k1 [|k2 [|k3 [|k4 pre]]]]; cbn in Hkeys.
    + injection Hkeys as <- _. rewrite Hkey. reflexivity.
    + injection Hkeys as <- <- _.
      apply Forall_cons in Hpre as [[v1 ->] _]. rewrite Hkey. reflexivity.
    + injection Hkeys as <- <- <- _.
      apply Forall_cons in Hpre as [[v1 ->] Hpre].
      apply Forall_cons in Hpre as [[v2 ->] _]. rewrite Hkey. reflexivity.
    + injection Hkeys as <- <- <- <- _.
      apply Forall_cons in Hpre as [[v1 ->] Hpre].
      apply Forall_cons in Hpre as [[v2 ->] Hpre].
      apply Forall_cons in Hpre as [[v3 ->] _]. rewrite Hkey. reflexivity.
    + exfalso. injection Hkeys as _ _ _ _ Hrest.
      destruct pre; discriminate.
Qed.

(** X15 on an empty nest of lists and on a dictionary without the white
    matter mask. *)
Lemma prep_masks_checks_input_before_any_call_witness :
  run_interface Samples.complete_world [Nested []; Nested [Nested []]]
    "priors.nii.gz" true [] = (Raise IndexError, [])
  /\ run_interface Samples.complete_world [Item Samples.other_dict]
       "priors.nii.gz" true [] = (Raise (KeyError "WM_mask_file"), []).
Proof.
  split.
  - apply (proj1 (prep_masks_checks_input_before_any_call
                    Samples.complete_world [Nested []; Nested [Nested []]]
                    "priors.nii.gz" true [])).
    reflexivity.
  - apply (proj2 (prep_masks_checks_input_before_any_call
                    Samples.complete_world [Item Samples.other_dict]
                    "priors.nii.gz" true [])
             Samples.other_dict ["mask_file"] "WM_mask_file"
             ["CSF_mask_file"; "preprocess_anat_template"]).
    + reflexivity.
    + reflexivity.
    + repeat constructor. vm_compute. eauto.
    + reflexivity.
Defined.

(** A run up to the hemisphere block. *)
Lemma run_interface_to_hemispheres w l pm d log mask_dict brain wm csf anat :
  head (flatten_list l) = Some mask_dict ->
  mask_dict !! "mask_file" = Some brain ->
  mask_dict !! "WM_mask_file" = Some wm ->
  mask_dict !! "CSF_mask_file" = Some csf ->
  mask_dict !! "preprocess_anat_template" = Some anat ->
  sitk_ReadImage w anat = Ok tt ->
  sitk_ReadImage w brain = Ok tt ->
  resample_image_spacing w anat brain = Ok tt ->
  run_interface w l pm d log
  = let log1 := log ++ [ReadImage anat; ReadImage brain;
                        ResampleImageSpacing anat brain;
                        WriteImage (abspath w "display_template.nii.gz")] in
    match hemisphere_masks w d brain log1 with
    | (Raise e, log2) => (Raise e, log2)
    | (Ok hem, log2) =>
        match resample_IC_file w pm brain with
        | Raise e => (Raise e, log2 ++ [ResampleICFile pm brain])
        | Ok pm' =>
            match compute_edge_mask w brain (abspath w "edge_mask.nii.gz") 1 with
            | Raise e =>
                (Raise e,
                 log2 ++ [ResampleICFile pm brain;
                          ComputeEdgeMask brain (abspath w "edge_mask.nii.gz") 1])
            | Ok _ =>
                (Ok (<["template_file" := abspath w "display_template.nii.gz"]>
                     (<["brain_mask" := brain]>
                     (<["WM_mask" := wm]>
                     (<["CSF_mask" := csf]>
                     (<["edge_mask" := abspath w "edge_mask.nii.gz"]>
                     (<["right_hem_mask" := fst hem]>
                     (<["left_hem_mask" := snd hem]>
                     (<["prior_maps" := pm']> (∅ : gmap string string))))))))),
                 log2 ++ [ResampleICFile pm brain;
                          ComputeEdgeMask brain (abspath w "edge_mask.nii.gz") 1])
            end
        end
    end.
Proof.
  intros Hhead Hbrain Hwm Hcsf Hanat Hread1 Hread2 Hspacing.
  apply PrepMasksFacts.getitem_ok in Hbrain, Hwm, Hcsf, Hanat.
  unfold run_interface, Py.bindM, lift, outside, ret.
  rewrite index_0_head, Hhead, Hbrain, Hwm, Hcsf, Hanat, Hread1, Hread2, Hspacing.
  cbn zeta. rewrite <- !app_assoc. cbn [app].
  destruct (hemisphere_masks w d brain _) as [[hem|e] log2]; [|reflexivity].
  destruct (resample_IC_file w pm brain) as [pm'|e]; [|reflexivity].
  rewrite <- !app_assoc. cbn [app].
  destruct (compute_edge_mask w brain (abspath w "edge_mask.nii.gz") 1)
    as [[]|e]; reflexivity.
Qed.

(** X16.  The process environment is read only when the hemisphere masks
    are requested, and only after the display template has been written:
    with neither [XDG_DATA_HOME] nor [HOME] set, a run that requests them
    fails with [KeyError] on [HOME] and leaves the template behind; a run
    that does not request them gives the same result in any
    environment. *)
Theorem atlas_directory_is_resolved_late
    (w : world) (l : list (nested (gmap string string)))
    (prior_maps : string) (log : list call)
    (mask_dict : gmap string string) (brain wm csf anat : string) :
  head (flatten_list l) = Some mask_dict ->
  mask_dict !! "mask_file" = Some brain ->
  mask_dict !! "WM_mask_file" = Some wm ->
  mask_dict !! "CSF_mask_file" = Some csf ->
  mask_dict !! "preprocess_anat_template" = Some anat ->
  sitk_ReadImage w anat = Ok tt ->
  sitk_ReadImage w brain = Ok tt ->
  resample_image_spacing w anat brain = Ok tt ->
  (environ w !! "XDG_DATA_HOME" = None -> environ w !! "HOME" = None ->
   run_interface w l prior_maps true log
   = (Raise (KeyError "HOME"),
      log ++ [ReadImage anat; ReadImage brain; ResampleImageSpacing anat brain;
              WriteImage (abspath w "display_template.nii.gz")]))
  /\ (forall env,
        run_interface (with_environ w env) l prior_maps false log
        = run_interface w l prior_maps false log).
Proof.
  intros Hhead Hbrain Hwm Hcsf Hanat Hread1 Hread2 Hspacing. split.
  - intros Hxdg Hhome.
    rewrite (run_interface_to_hemispheres w l prior_maps true log mask_dict
               brain wm csf anat) by assumption.
    cbn zeta. unfold hemisphere_masks, Py.bindM, lift, rabies_path_of, getitem.
    rewrite Hxdg, Hhome. reflexivity.
  - intros env.
    rewrite (run_interface_to_hemispheres w l prior_maps false log mask_dict
               brain wm csf anat) by assumption.
    rewrite (run_interface_to_hemispheres (with_environ w env) l prior_maps
               false log mask_dict brain wm csf anat) by assumption.
    reflexivity.
Qed.

(** X16 on a world without environment. *)
Lemma atlas_directory_is_resolved_late_witness :
  run_interface (with_environ Samples.complete_world ∅)
    [Item Samples.mask_dict] "priors.nii.gz" true []
  = (Raise (KeyError "HOME"),
     [] ++ [ReadImage "template.nii.gz"; ReadImage "brain.nii.gz";
            ResampleImageSpacing "template.nii.gz" "brain.nii.gz";
            WriteImage "/work/display_template.nii.gz"]).
Proof.
  apply (proj1 (atlas_directory_is_resolved_late
                  (with_environ Samples.complete_world ∅)
                  [Item Samples.mask_dict] "priors.nii.gz" []
                  Samples.mask_dict "brain.nii.gz" "wm.nii.gz" "csf.nii.gz"
                  "template.nii.gz" eq_refl eq_refl eq_refl eq_refl eq_refl
                  eq_refl eq_refl eq_refl));
    reflexivity.
Defined.

Lemma run_interface_ok_dict w l pm d log dict calls :
  run_interface w l pm d log = (Ok dict, calls) ->
  exists mask_dict brain wm csf anat hem pm',
    head (flatten_list l) = Some mask_dict
    /\ mask_dict !! "mask_file" = Some brain
    /\ mask_dict !! "WM_mask_file" = Some wm
    /\ mask_dict !! "CSF_mask_file" = Some csf
    /\ mask_dict !! "preprocess_anat_template" = Some anat
    /\ resample_IC_file w pm brain = Ok pm'
    /\ dict = <["template_file" := abspath w "display_template.nii.gz"]>
              (<["brain_mask" := brain]>
              (<["WM_mask" := wm]>
              (<["CSF_mask" := csf]>
              (<["edge_mask" := abspath w "edge_mask.nii.gz"]>
              (<["right_hem_mask" := fst hem]>
              (<["left_hem_mask" := snd hem]>
              (<["prior_maps" := pm']> (∅ : gmap string string)))))))).
Proof.
  unfold run_interface. intros H.
  apply bindM_ok_inv in H as (mask_dict' & s0 & Hidx & H).
  apply lift_ok_inv in Hidx as [Hidx ->]. rewrite index_0_head in Hidx.
  destruct (head (flatten_list l)) as [mask_dict|] eqn:Hhead; [|discriminate].
  injection Hidx as <-.
  apply bindM_ok_inv in H as (brain & s1 & Hbrain & H).
  apply lift_ok_inv in Hbrain as [Hbrain ->].
  apply bindM_ok_inv in H as (wm & s2 & Hwm & H).
  apply lift_ok_inv in Hwm as [Hwm ->].
  apply bindM_ok_inv in H as (csf & s3 & Hcsf & H).
  apply lift_ok_inv in Hcsf as [Hcsf ->].
  apply bindM_ok_inv in H as (anat & s4 & Hanat & H).
  apply lift_ok_inv in Hanat as [Hanat ->].
  apply PrepMasksFacts.getitem_ok_inv in Hbrain, Hwm, Hcsf, Hanat.
  apply bindM_ok_inv in H as (u1 & s5 & _ & H).
  apply bindM_ok_inv in H as (u2 & s6 & _ & H).
  apply bindM_ok_inv in H as (u3 & s7 & _ & H).
  apply bindM_ok_inv in H as (u4 & s8 & _ & H).
  apply bindM_ok_inv in H as (hem & s9 & _ & H).
  apply bindM_ok_inv in H as (pm' & s10 & Hpm & H).
  apply PrepMasksFacts.outside_ok_inv in Hpm as [Hpm ->].
  apply bindM_ok_inv in H as (u5 & s11 & _ & H).
  injection H as <- <-.
  exists mask_dict, brain, wm, csf, anat, hem, pm'.
  split; [reflexivity|]. do 5 (split; [assumption|]). reflexivity.
Qed.

(** X17.  The mask set of a run that returns has exactly eight entries.
    The brain, white matter and CSF masks are those of the first
    dictionary, passed through as they are; the template and the edge mask
    are the two files written in the working directory; the prior maps are
    what [resample_IC_file] returned for the brain mask. *)
Theorem mask_set_entries
    (w : world) (l : list (nested (gmap string string)))
    (prior_maps : string) (DSURQE_regions : bool) (log : list call)
    (dict : gmap string string) (calls : list call) :
  run_interface w l prior_maps DSURQE_regions log = (Ok dict, calls) ->
  exists mask_dict brain resampled_priors,
    head (flatten_list l) = Some mask_dict
    /\ mask_dict !! "mask_file" = Some brain
    /\ dict !! "brain_mask" = Some brain
    /\ dict !! "WM_mask" = mask_dict !! "WM_mask_file"
    /\ dict !! "CSF_mask" = mask_dict !! "CSF_mask_file"
    /\ dict !! "template_file" = Some (abspath w "display_template.nii.gz")
    /\ dict !! "edge_mask" = Some (abspath w "edge_mask.nii.gz")
    /\ resample_IC_file w prior_maps brain = Ok resampled_priors
    /\ dict !! "prior_maps" = Some resampled_priors
    /\ dom dict
       = ({["template_file"; "brain_mask"; "WM_mask"; "CSF_mask";
            "edge_mask"; "right_hem_mask"; "left_hem_mask"; "prior_maps"]}
          : gset string).
Proof.
  intros H.
  apply run_interface_ok_dict in H
    as (mask_dict & brain & wm & csf & anat & hem & pm' & Hhead & Hbrain & Hwm
        & Hcsf & Hanat & Hpm & ->).
  exists mask_dict, brain, pm'.
  rewrite Hwm, Hcsf.
  do 9 (split; [first [assumption | by simplify_map_eq]|]).
  rewrite !dom_insert_L, dom_empty_L. set_solver.
Qed.

(** X17 on the sample run. *)
Lemma mask_set_entries_witness :
  exists dict calls,
    run_interface Samples.complete_world
      [Nested [Item Samples.mask_dict]; Item Samples.other_dict]
      "priors.nii.gz" false [] = (Ok dict, calls)
    /\ dict !! "brain_mask" = Some "brain.nii.gz"
    /\ dict !! "prior_maps" = Some "priors.nii.gz_resampled.nii.gz".
Proof.
  destruct (is_ok_inv (run_interface Samples.complete_world
                         [Nested [Item Samples.mask_dict]; Item Samples.other_dict]
                         "priors.nii.gz" false []))
    as (dict & calls & Hr); [vm_compute; reflexivity|].
  exists dict, calls. split; [exact Hr|].
  destruct (mask_set_entries _ _ _ _ _ _ _ Hr)
    as (md & brain & pm' & Hhead & Hbrain & Hd & _ & _ & _ & _ & Hpm & Hdpm & _).
  cbn [flatten_list flatten_item map concat app head] in Hhead.
  injection Hhead as <-.
  vm_compute in Hbrain. injection Hbrain as <-.
  vm_compute in Hpm. injection Hpm as <-.
  split; [exact Hd | exact Hdpm].
Defined.

End PrepMasksMore.

(** ** [ScanDiagnosis], further *)

Module ScanDiagnosisMore.

Import ScanDiagnosis.

(** X18.  The seven entries of [file_dict] are read before the index
    lists are looked at: when one is missing, the run fails with the
    [KeyError] of the first missing key, in the order of lines 120 to 126,
    whatever the index lists hold. *)
Theorem missing_file_entry_is_reported_first
    (py : interpreter) {obj out : Type}
    (process_and_plot : list obj -> list Z -> list Z -> result out)
    (file_dict : gmap string obj) (prior_bold_idx prior_confound_idx : list pyval)
    (pre post : list string) (key : string) :
  file_dict_keys = pre ++ key :: post ->
  Forall (fun k => is_Some (file_dict !! k)) pre ->
  file_dict !! key = None ->
  run_interface py obj out process_and_plot file_dict prior_bold_idx
    prior_confound_idx = Raise (KeyError key).
Proof.
  intros Hkeys Hpre Hkey. unfold run_interface. rewrite Hkeys.
  rewrite (ScanDiagnosisFacts.traverse_first_raise (getitem file_dict)
             pre key post (KeyError key)).
  - reflexivity.
  - eapply Forall_impl; [exact Hpre|]. intros k [v Hv]. cbn beta.
    unfold getitem. rewrite Hv. reflexivity.
  - unfold getitem. rewrite Hkey. reflexivity.
Qed.

(** X18 on a dictionary without [VE_file] and an index list that [int]
    would refuse. *)
Lemma missing_file_entry_is_reported_first_witness :
  run_interface Samples.letters string _ Samples.echo_indices
    (delete "VE_file" Samples.file_dict) [PyNone] []
  = Raise (KeyError "VE_file").
Proof.
  apply (missing_file_entry_is_reported_first Samples.letters
           Samples.echo_indices
           (delete "VE_file" Samples.file_dict) [PyNone] []
           ["bold_file"; "CR_data_dict"] 
           ["STD_file"; "CR_STD_file"; "random_CR_STD_file";
            "corrected_CR_STD_file"] "VE_file").
  - reflexivity.
  - repeat constructor; vm_compute; eauto.
  - reflexivity.
Defined.

End ScanDiagnosisMore.

(** ** [DatasetDiagnosis], further *)

Module DatasetDiagnosisMore.

Import DatasetDiagnosis.

Lemma append_nonempty_neq (a b : string) (c : ascii) : a <> a +:+ String c b.
Proof.
  induction a as [|x a IH]; [discriminate|].
  rewrite TextFacts.append_cons. intros H. injection H as H. exact (IH H).
Qed.

(** With a complete mask dictionary, a readable brain mask and nothing
    in the way of the two output directories, a run on three records or
    more makes the two directories, goes through the scan loop and, if
    the loop ends, stops at line 220. *)
Lemma run_interface_to_line_220
    (e : env) (scan_data_list : list (nested scan_data))
    (mask_file_dict : gmap string string) (seed_prior_maps : list string)
    (files : gmap string artifact) (template_file mask_file : string) :
  3 <= length (flatten_list scan_data_list) ->
  mask_file_dict !! "template_file" = Some template_file ->
  mask_file_dict !! "brain_mask" = Some mask_file ->
  read_mask e mask_file = Ok tt ->
  files !! abspath e "analysis_QC" = None ->
  files !! (abspath e "analysis_QC" +:+ "/analysis_QC_corrected_CR") = None ->
  run_interface e scan_data_list mask_file_dict seed_prior_maps files
  = (match traverse read_scan (flatten_list scan_data_list) with
     | Ok _ => Raise AttributeError
     | Raise err => Raise err
     end,
     <[abspath e "analysis_QC" +:+ "/analysis_QC_corrected_CR" := Directory]>
       (<[abspath e "analysis_QC" := Directory]> files)).
Proof.
  intros Hlen Htemplate Hmask Hread Hd1 Hd2. unfold run_interface.
  destruct (Nat.ltb_spec (length (flatten_list scan_data_list)) 3); [lia|].
  unfold Py.bindM, makedirs, lift, getitem.
  rewrite Hd1, lookup_insert_ne, Hd2 by apply append_nonempty_neq.
  rewrite Htemplate, Hmask, Hread.
  destruct (traverse read_scan _); reflexivity.
Qed.

(** X19.  With a complete mask dictionary, a readable brain mask and
    nothing in the way of the two output directories, a run on three scan
    records or more makes the two directories and then ends in one of two
    ways, whatever values the records hold under their keys.  When every
    record holds the eight keys of the scan loop, line 220 raises an
    [AttributeError].  When a record lacks one, the loop of lines 209 to
    217 raises the [KeyError] of the first key, in the order the loop
    reads them, that the first such record lacks. *)
Theorem three_or_more_scans_stop_at_line_220
    (e : env) (scan_data_list : list (nested scan_data))
    (mask_file_dict : gmap string string) (seed_prior_maps : list string)
    (files : gmap string artifact) (template_file mask_file : string) :
  3 <= length (flatten_list scan_data_list) ->
  mask_file_dict !! "template_file" = Some template_file ->
  mask_file_dict !! "brain_mask" = Some mask_file ->
  read_mask e mask_file = Ok tt ->
  files !! abspath e "analysis_QC" = None ->
  files !! (abspath e "analysis_QC" +:+ "/analysis_QC_corrected_CR") = None ->
  let left_behind :=
    <[abspath e "analysis_QC" +:+ "/analysis_QC_corrected_CR" := Directory]>
      (<[abspath e "analysis_QC" := Directory]> files) in
  (Forall (fun scan => missing_key scan = None) (flatten_list scan_data_list) ->
   run_interface e scan_data_list mask_file_dict seed_prior_maps files
   = (Raise AttributeError, left_behind))
  /\ (forall complete scan rest key,
        flatten_list scan_data_list = complete ++ scan :: rest ->
        Forall (fun scan => missing_key scan = None) complete ->
        missing_key scan = Some key ->
        run_interface e scan_data_list mask_file_dict seed_prior_maps files
        = (Raise (KeyError key), left_behind)).
Proof.
  intros Hlen Htemplate Hmask Hread Hd1 Hd2 left_behind. subst left_behind.
  rewrite (run_interface_to_line_220 e scan_data_list mask_file_dict
             seed_prior_maps files template_file mask_file)
    by assumption.
  split.
  - intros Hall.
    destruct (DatasetDiagnosisFacts.scan_loop_complete _ Hall) as [rows ->].
    reflexivity.
  - intros complete scan rest key -> Hcomplete Hkey.
    rewrite (ScanDiagnosisFacts.traverse_first_raise read_scan complete scan
               rest (KeyError key)).
    + reflexivity.
    + eapply Forall_impl; [exact Hcomplete|].
      intros s. apply DatasetDiagnosisFacts.read_scan_complete.
    + apply DatasetDiagnosisFacts.read_scan_missing, Hkey.
Qed.

(** X19 on the three sample scans, and on three records the second of
    which has no [tDOF]. *)
Lemma three_or_more_scans_stop_at_line_220_witness :
  run_interface Samples.qc_env Samples.three_scans Samples.mask_file_dict
    [] ∅
  = (Raise AttributeError,
     <["/work/analysis_QC/analysis_QC_corrected_CR" := Directory]>
       (<["/work/analysis_QC" := Directory]> ∅))
  /\ run_interface Samples.qc_env
       [Item (Samples.scan [Samples.one; Samples.one] 3
                [Samples.one; Samples.two]);
        Item Samples.scan_without_tdof;
        Item (Samples.scan [Samples.two; Samples.one] 4
                [Samples.one; Samples.two])]
       Samples.mask_file_dict [] ∅
     = (Raise (KeyError "tDOF"),
        <["/work/analysis_QC/analysis_QC_corrected_CR" := Directory]>
          (<["/work/analysis_QC" := Directory]> ∅)).
Proof.
  split.
  - apply (three_or_more_scans_stop_at_line_220 Samples.qc_env
             Samples.three_scans Samples.mask_file_dict [] ∅
             "/work/display_template.nii.gz" "brain.nii.gz");
      [cbn; lia | reflexivity .. | repeat constructor].
  - eapply (three_or_more_scans_stop_at_line_220 Samples.qc_env
              [Item (Samples.scan [Samples.one; Samples.one] 3
                       [Samples.one; Samples.two]);
               Item Samples.scan_without_tdof;
               Item (Samples.scan [Samples.two; Samples.one] 4
                       [Samples.one; Samples.two])]
              Samples.mask_file_dict [] ∅
              "/work/display_template.nii.gz" "brain.nii.gz");
      [cbn; lia | reflexivity .. | | | ].
    + instantiate (3 := [Samples.scan [Samples.one; Samples.one] 3
                           [Samples.one; Samples.two]]).
      reflexivity.
    + repeat constructor.
    + reflexivity.
Defined.

(** *** Boolean indexing *)

(** X20.  [row[mask]] with a mask as long as the row keeps the marked
    voxels in their order: as many values as the mask has marks, and the
    value of a marked voxel sits at the number of marks before it. *)
Theorem bool_index_keeps_the_marked_voxels
    {A : Type} (mask : list bool) (row : list A) :
  length mask = length row ->
  exists kept,
    bool_index mask row = Ok kept
    /\ length kept = More.count_true mask
    /\ forall j x, nth_error mask j = Some true -> nth_error row j = Some x ->
         nth_error kept (More.count_true (firstn j mask)) = Some x.
Proof.
  intros Hlen. unfold bool_index. rewrite Hlen, Nat.eqb_refl.
  eexists. split; [reflexivity|].
  revert row Hlen. induction mask as [|b mask IH]; intros [|a row] Hlen;
    try discriminate.
  - split; [reflexivity|]. intros [|j] x H; discriminate.
  - injection Hlen as Hlen. destruct (IH row Hlen) as [IHlen IHpos].
    destruct b; cbn.
    + rewrite decide_True by reflexivity. cbn.
      split; [f_equal; exact IHlen|].
      intros [|j] x Hm Hr; cbn in *; [exact Hr|]. apply IHpos; assumption.
    + rewrite decide_False by discriminate.
      split; [exact IHlen|].
      intros [|j] x Hm Hr; cbn in *; [discriminate|]. apply IHpos; assumption.
Qed.

(** X20 on a row of three voxels, the second of which is not kept. *)
Lemma bool_index_keeps_the_marked_voxels_witness :
  exists kept,
    bool_index [true; false; true] [Samples.one; Samples.zero; Samples.two]
    = Ok kept
    /\ length kept = 2
    /\ forall j x, nth_error [true; false; true] j = Some true ->
         nth_error [Samples.one; Samples.zero; Samples.two] j = Some x ->
         nth_error kept (More.count_true (firstn j [true; false; true]))
         = Some x.
Proof.
  apply (bool_index_keeps_the_marked_voxels [true; false; true]
           [Samples.one; Samples.zero; Samples.two]).
  reflexivity.
Defined.

End DatasetDiagnosisMore.
